(** * Boardfarm: a verification development

    Shallow embedding of the Python sources
      - [boardfarm3/lib/utils.py]          (module [utils])
      - [boardfarm3/lib/networking.py]     (module [networking])
      - [boardfarm3/devices/linux_wan.py]  (module [linux_wan])
      - [boardfarm/plugins/core.py]        (module [core])
      - [boardfarm/dbclients/influx_wrapper.py] (module [influx_wrapper])
    followed by the properties established about them.

    Conventions.  Python [int] is [Z].  Python [str] is [string], a
    sequence of code points below 256.  A raised exception is the
    [Raise] alternative of [result]; code that also mutates an object or
    talks to a console runs in the state-and-exception monad [M], whose
    state survives a raise exactly as a Python object does. *)

From Stdlib Require Import ZArith Lia String Ascii Bool SpecFloat.
From Stdlib Require QArith Qabs Qpower Lqa.
From stdpp Require Import base strings list gmap sorting pretty.
From Equations Require Import Equations.

Local Open Scope string_scope.
Local Open Scope list_scope.
Local Open Scope stdpp_scope.

(* ===================================================================== *)
(** * Python runtime: exceptions, values, strings, sequences              *)
(* ===================================================================== *)

Module Py.

(** The exception classes the embedded code can raise. *)
Inductive exn : Set :=
| AddressValueError | TypeError | IndexError | ValueError
| AttributeError | EOFError | KeyError.

Inductive result (A : Type) : Type :=
| Ok (a : A)
| Raise (e : exn).
Arguments Ok {A} a.
Arguments Raise {A} e.

Definition is_ok {A} (r : result A) : bool :=
  match r with Ok _ => true | Raise _ => false end.

#[global] Instance result_ret : MRet result := @Ok.
#[global] Instance result_bind : MBind result := λ A B f r,
  match r with Ok a => f a | Raise e => Raise e end.
#[global] Instance result_fmap : FMap result := λ A B f r,
  match r with Ok a => Ok (f a) | Raise e => Raise e end.

(** State-and-exception monad: the state is returned also when the
    computation raises. *)
Definition M (S A : Type) : Type := S -> result A * S.

Definition ret {S A} (a : A) : M S A := fun s => (Ok a, s).
Definition raise {S A} (e : exn) : M S A := fun s => (Raise e, s).
Definition bind {S A B} (c : M S A) (k : A -> M S B) : M S B :=
  fun s => match c s with
           | (Ok a, s') => k a s'
           | (Raise e, s') => (Raise e, s')
           end.
Definition get {S} : M S S := fun s => (Ok s, s).
Definition gets {S A} (f : S -> A) : M S A := fun s => (Ok (f s), s).
Definition modify {S} (f : S -> S) : M S unit := fun s => (Ok tt, f s).
Definition lift {S A} (r : result A) : M S A := fun s => (r, s).

Declare Scope py_scope.
Delimit Scope py_scope with py.
Notation "x <- c ;; k" := (bind c (fun x => k))
  (at level 100, c at next level, right associativity) : py_scope.
Notation "c ;; k" := (bind c (fun _ => k))
  (at level 100, right associativity) : py_scope.

(** [for x in l: body(x)] *)
Fixpoint for_each {S A} (l : list A) (body : A -> M S unit) : M S unit :=
  match l with
  | [] => ret tt
  | x :: l' => bind (body x) (fun _ => for_each l' body)
  end.

(** [range(n)] *)
Definition range (n : Z) : list Z := Z.of_nat <$> seq 0 (Z.to_nat n).

(** ** Sequences *)

(** [l[i]], negative indices counting from the end. *)
Definition index {A} (l : list A) (i : Z) : result A :=
  let n := Z.of_nat (length l) in
  let j := if (i <? 0)%Z then (n + i)%Z else i in
  if (j <? 0)%Z then Raise IndexError
  else match l !! Z.to_nat j with
       | Some x => Ok x
       | None => Raise IndexError
       end.

(** The position a slice bound denotes in a sequence of length [n]. *)
Definition clamp (n : nat) (i : Z) : nat :=
  if (i <? 0)%Z then Z.to_nat (Z.of_nat n + i) else Nat.min (Z.to_nat i) n.

(** [l[:stop]], [l[start:]] and [l[start:stop]] *)
Definition slice_to {A} (l : list A) (stop : Z) : list A :=
  take (clamp (length l) stop) l.
Definition slice_from {A} (l : list A) (start : Z) : list A :=
  drop (clamp (length l) start) l.
Definition slice {A} (l : list A) (start stop : Z) : list A :=
  let a := clamp (length l) start in
  let b := clamp (length l) stop in
  take (b - a) (drop a l).

(** ** Strings *)

Definition code (c : ascii) : nat := nat_of_ascii c.

(** [s.startswith(p)] *)
Definition startswith (s p : string) : bool := String.prefix p s.

(** [sub in s] *)
Fixpoint contains (sub s : string) : bool :=
  String.prefix sub s ||
  match s with
  | EmptyString => false
  | String _ s' => contains sub s'
  end.

(** [s.split(sep)] for a non-empty [sep]: leftmost, non-overlapping
    occurrences.  [skip] counts the characters of an occurrence still to
    be passed over.  The result is the first piece and the later ones. *)
Fixpoint split_aux (sep : string) (skip : nat) (s : string) : string * list string :=
  match s with
  | EmptyString => (EmptyString, [])
  | String c s' =>
      match skip with
      | S k => split_aux sep k s'
      | O =>
          if String.prefix sep s
          then let '(h, t) := split_aux sep (String.length sep - 1) s' in
               (EmptyString, h :: t)
          else let '(h, t) := split_aux sep 0 s' in
               (String c h, t)
      end
  end.

Definition split (sep s : string) : list string :=
  let '(h, t) := split_aux sep 0 s in h :: t.

(** [s.replace(old, new)] for a non-empty [old]. *)
Fixpoint replace_aux (old new : string) (skip : nat) (s : string) : string :=
  match s with
  | EmptyString => EmptyString
  | String c s' =>
      match skip with
      | S k => replace_aux old new k s'
      | O =>
          if String.prefix old s
          then new +:+ replace_aux old new (String.length old - 1) s'
          else String c (replace_aux old new 0 s')
      end
  end.

Definition replace (old new s : string) : string := replace_aux old new 0 s.

(** [c.isspace()] on code points below 256. *)
Definition is_space (c : ascii) : bool :=
  let n := code c in
  (((9 <=? n) && (n <=? 13)) || ((28 <=? n) && (n <=? 32))
   || (n =? 133) || (n =? 160))%nat.

Fixpoint lstrip (s : string) : string :=
  match s with
  | EmptyString => EmptyString
  | String c s' => if is_space c then lstrip s' else s
  end.

Fixpoint rstrip (s : string) : string :=
  match s with
  | EmptyString => EmptyString
  | String c s' =>
      match rstrip s' with
      | EmptyString => if is_space c then EmptyString else String c EmptyString
      | r => String c r
      end
  end.

(** [s.strip()] *)
Definition strip (s : string) : string := rstrip (lstrip s).

(** [c.lower()] on code points below 256: the ASCII capitals and the
    Latin-1 capitals other than the multiplication sign. *)
Definition lower_char (c : ascii) : ascii :=
  let n := code c in
  if (((65 <=? n) && (n <=? 90))
      || ((192 <=? n) && (n <=? 222) && negb (n =? 215)))%nat
  then ascii_of_nat (n + 32) else c.

Fixpoint lower (s : string) : string :=
  match s with
  | EmptyString => EmptyString
  | String c s' => String (lower_char c) (lower s')
  end.

Definition is_decimal (c : ascii) : bool :=
  ((48 <=? code c) && (code c <=? 57))%nat.

(** [c.isdigit()] on code points below 256: the decimal digits and the
    superscripts two, three and one. *)
Definition is_digit_char (c : ascii) : bool :=
  (is_decimal c || (code c =? 178) || (code c =? 179) || (code c =? 185))%nat.

Fixpoint all_chars (p : ascii -> bool) (s : string) : bool :=
  match s with
  | EmptyString => true
  | String c s' => p c && all_chars p s'
  end.

(** [s.isdigit()] *)
Definition isdigit (s : string) : bool :=
  negb (String.eqb s EmptyString) && all_chars is_digit_char s.

Fixpoint digits_value (acc : Z) (s : string) : Z :=
  match s with
  | EmptyString => acc
  | String c s' => digits_value (10 * acc + Z.of_nat (code c - 48)) s'
  end.

(** [int(s)] on the strings for which [isdigit] holds, the only ones the
    embedded code passes to it: a string of decimal digits is its value,
    a superscript digit is refused. *)
Definition int (s : string) : result Z :=
  if negb (String.eqb s EmptyString) && all_chars is_decimal s
  then Ok (digits_value 0 s) else Raise ValueError.

Definition spaces (n : nat) : string := string_of_list_ascii (repeat " "%char n).

(** [f"{s: >w}"] and [f"{s: <w}"] *)
Definition rjust (w : nat) (s : string) : string := spaces (w - String.length s) +:+ s.
Definition ljust (w : nat) (s : string) : string := s +:+ spaces (w - String.length s).

(** [sep.join(l)] *)
Fixpoint join (sep : string) (l : list string) : string :=
  match l with
  | [] => EmptyString
  | [x] => x
  | x :: l' => x +:+ sep +:+ join sep l'
  end.

(** [sorted(l)] on strings: code-point lexicographic order. *)
Definition sorted (l : list string) : list string := merge_sort String.leb l.

(** ** Values *)

(** The Python values the embedded code inspects.  A [dict] is kept as
    its items in iteration order. *)
#[local] Set Warnings "-register-all".
Inductive value : Type :=
| VNone
| VBool (b : bool)
| VInt (z : Z)
| VStr (s : string)
| VList (l : list value)
| VDict (d : list (string * value)).

#[local] Set Warnings "register-all".

(** [bool(v)] *)
Definition truthy (v : value) : bool :=
  match v with
  | VNone => false
  | VBool b => b
  | VInt z => negb (z =? 0)%Z
  | VStr s => negb (String.eqb s EmptyString)
  | VList l => match l with [] => false | _ => true end
  | VDict d => match d with [] => false | _ => true end
  end.

(** [v != s] for a string literal [s] *)
Definition ne_str (v : value) (s : string) : bool :=
  match v with
  | VStr t => negb (String.eqb t s)
  | _ => true
  end.

(** [v is None] *)
Definition is_none (v : value) : bool :=
  match v with VNone => true | _ => false end.

Section ValueInduction.
Variable P : value -> Prop.
Hypothesis HNone : P VNone.
Hypothesis HBool : forall b, P (VBool b).
Hypothesis HInt : forall z, P (VInt z).
Hypothesis HStr : forall s, P (VStr s).
Hypothesis HList : forall l, Forall P l -> P (VList l).
Hypothesis HDict : forall d, Forall (fun item => P (snd item)) d -> P (VDict d).

(** Induction on a value with the hypothesis for every element of a
    list and every value of a mapping. *)
Fixpoint value_nested_ind (v : value) : P v :=
  match v with
  | VNone => HNone
  | VBool b => HBool b
  | VInt z => HInt z
  | VStr s => HStr s
  | VList l =>
      HList l ((fix elements (l : list value) : Forall P l :=
                  match l with
                  | [] => @List.Forall_nil _ P
                  | x :: l' => @List.Forall_cons _ P x l' (value_nested_ind x) (elements l')
                  end) l)
  | VDict d =>
      HDict d ((fix items (d : list (string * value))
                  : Forall (fun item => P (snd item)) d :=
                  match d with
                  | [] => @List.Forall_nil _ _
                  | item :: d' =>
                      @List.Forall_cons _ _ item d' (value_nested_ind (snd item)) (items d')
                  end) d)
  end.
End ValueInduction.

(** ** Exceptions and further string operations *)

(** [try: c except Exception as exc: handler(exc)]: every class of [exn]
    derives from [Exception]. *)
Definition try_except {S A} (c : M S A) (handler : exn -> M S A) : M S A :=
  fun s => match c s with
           | (Ok a, s') => (Ok a, s')
           | (Raise exc, s') => handler exc s'
           end.

(** [try: c finally: cleanup]: the cleanup runs on both ways out, and an
    exception of its own replaces the outcome of [c]. *)
Definition try_finally {S A} (c : M S A) (cleanup : M S unit) : M S A :=
  fun s => let '(r, s') := c s in
           match cleanup s' with
           | (Ok _, s'') => (r, s'')
           | (Raise e, s'') => (Raise e, s'')
           end.

(** [range(start, stop)] *)
Definition range_from (start stop : Z) : list Z :=
  (fun i => (start + i)%Z) <$> range (stop - start).

(** [s.split(sep, maxsplit)] for a non-empty [sep] and [maxsplit >= 0]:
    at most [maxsplit] occurrences are cut, the rest of the text is the
    last piece. *)
Fixpoint split_max_aux (sep : string) (maxsplit skip : nat) (s : string)
  : string * list string :=
  match s with
  | EmptyString => (EmptyString, [])
  | String c s' =>
      match skip with
      | S k => split_max_aux sep maxsplit k s'
      | O =>
          match maxsplit with
          | O => (s, [])
          | S m =>
              if String.prefix sep s
              then let '(h, t) := split_max_aux sep m (String.length sep - 1) s' in
                   (EmptyString, h :: t)
              else let '(h, t) := split_max_aux sep maxsplit 0 s' in
                   (String c h, t)
          end
      end
  end.

Definition split_max (sep : string) (maxsplit : nat) (s : string) : list string :=
  let '(h, t) := split_max_aux sep maxsplit 0 s in h :: t.

End Py.

Import Py.
Local Open Scope py_scope.

(* ===================================================================== *)
(** * boardfarm3/lib/utils.py                                             *)
(* ===================================================================== *)

Module utils.

(** [get_pytest_name()].  The argument is
    [os.environ.get("PYTEST_CURRENT_TEST")], [None] when the variable is
    unset. *)
Definition get_pytest_name (PYTEST_CURRENT_TEST : option string) : result string :=
  match PYTEST_CURRENT_TEST with
  | None => Raise AttributeError
  | Some current =>
      before_setup ← index (split " (setup)" current) 0;
      name ← index (split "::" before_setup) 1;
      Ok (replace " " "_" name)
  end.

(** ** [ipaddress.IPv4Address]: the integer of the address.  Adding an
    [int] builds a new address and refuses a result outside
    [0 .. 2^32 - 1]. *)
Definition IPv4Address := Z.

Definition IPV4_ALL_ONES : Z := 2 ^ 32 - 1.

Definition valid_ipv4 (a : IPv4Address) : Prop := (0 <= a <= IPV4_ALL_ONES)%Z.

Definition ipv4_add (a : IPv4Address) (n : Z) : result IPv4Address :=
  if ((a + n <? 0) || (IPV4_ALL_ONES <? a + n))%Z
  then Raise AddressValueError else Ok (a + n)%Z.

Lemma ipv4_add_Ok a n b : ipv4_add a n = Ok b -> b = (a + n)%Z.
Proof. unfold ipv4_add. destruct (_ || _); congruence. Qed.

Definition inspect {A} (a : A) : {b : A | a = b} := exist _ a eq_refl.

(** [ip_pool_to_list(start_ip, end_ip)].  The [while] loop is the
    recursion; the measure is the distance still to go. *)
Equations? ip_pool_to_list (start_ip end_ip : IPv4Address) : result (list IPv4Address)
  by wf (Z.to_nat (end_ip + 1 - start_ip)) lt :=
ip_pool_to_list start_ip end_ip with inspect (start_ip <=? end_ip)%Z => {
  | exist _ false _ := Ok [];
  | exist _ true Hle with ipv4_add end_ip 1 => {
      | Raise e := Raise e;
      | Ok bound with negb (start_ip =? bound)%Z => {
          | false := Ok [];
          | true with inspect (ipv4_add start_ip 1) => {
              | exist _ (Raise e) _ := Raise e;
              | exist _ (Ok next) Hnext with ip_pool_to_list next end_ip => {
                  | Raise e := Raise e;
                  | Ok ip_list := Ok (start_ip :: ip_list) } } } } }.
Proof. apply ipv4_add_Ok in Hnext. lia. Qed.

(** ** [retry] *)

(** What [retry] does to the outside world, in order. *)
Inductive effect : Set :=
| Called
| Slept (seconds : Z).

Section Retry.
(** [func_name] applied to its arguments: a call may change the callee's state, and
    returns a value or raises. *)
Context {S : Type}.
Variable func_name : M S value.

Record world : Type := World { callee : S; log : list effect }.

Definition call : M world value := fun w =>
  let '(r, s) := func_name (callee w) in
  (r, World s (log w ++ [Called])).

Definition sleep (seconds : Z) : M world unit :=
  modify (fun w => World (callee w) (log w ++ [Slept seconds])).

(** The [for _ in range(max_retry - 1)] loop with [n] rounds to go,
    then the final unguarded call. *)
Fixpoint retry_loop (n : nat) : M world value :=
  match n with
  | O => call
  | Datatypes.S n' =>
      output <- call ;;
      if truthy output && ne_str output "False"
      then ret output
      else sleep 5 ;; retry_loop n'
  end.

Definition retry (max_retry : Z) : M world value :=
  retry_loop (Z.to_nat (max_retry - 1)).
End Retry.

Arguments World {S} callee log.
Arguments callee {S} w.
Arguments log {S} w.

(** ** [get_value_from_dict(key, dictionary)] *)
Fixpoint get_value_from (key : string) (v : value) {struct v} : value :=
  match v with
  | VDict dictionary =>
      (fix items (l : list (string * value)) : value :=
         match l with
         | [] => VNone
         | (name, value) :: rest =>
             if String.eqb name key then value
             else match value with
                  | VDict _ =>
                      let return_value := get_value_from key value in
                      if is_none return_value then items rest else return_value
                  | _ => items rest
                  end
         end) dictionary
  | _ => VNone
  end.

Definition get_value_from_dict (key : string) (dictionary : list (string * value)) : value :=
  get_value_from key (VDict dictionary).

(** ** [retry_on_exception] *)

(** What [retry_on_exception] does to the outside world, in order: a
    call of the method, a debug record of a failed attempt, a sleep. *)
Inductive step : Set :=
| Invoked
| Debugged (re_try : Z) (exc : exn)
| Paused (tout : Z).

Section RetryOnException.
(** [method] applied to [args]. *)
Context {S : Type}.
Variable method : M S value.

Record journal : Type := Journal { target : S; steps : list step }.

Definition invoke : M journal value := fun j =>
  let '(r, s) := method (target j) in
  (r, Journal s (steps j ++ [Invoked])).

Definition note (e : step) : M journal unit :=
  modify (fun j => Journal (target j) (steps j ++ [e])).

(** [time.sleep(tout)]: a negative length is refused. *)
Definition pause (tout : Z) : M journal unit :=
  if (tout <? 0)%Z then raise ValueError else note (Paused tout).

(** The [for re_try in ...] loop over the values of [re_try] still to
    come, then the final call outside the [try]. *)
Fixpoint retry_on_exception_loop (re_tries : list Z) (tout : Z) : M journal value :=
  match re_tries with
  | [] => invoke
  | re_try :: rest =>
      try_except invoke
        (fun exc =>
           note (Debugged re_try exc) ;;
           pause tout ;;
           retry_on_exception_loop rest tout)
  end.

Definition retry_on_exception (retries tout : Z) : M journal value :=
  retry_on_exception_loop (range_from 1 retries) tout.
End RetryOnException.

Arguments Journal {S} target steps.
Arguments target {S} j.
Arguments steps {S} j.

(** ** [disable_logs] *)

(** A handler object, known by its identity. *)
Definition Handler := nat.

(** The logger that [logging.getLogger(logger_name)] returns, with the
    count of the handler objects created so far. *)
Record Logger : Type := mkLogger { handlers : list Handler; created : nat }.

(** [logger.removeHandler(hdlr)]: the first occurrence goes, when there
    is one. *)
Fixpoint remove_first (hdlr : Handler) (l : list Handler) : list Handler :=
  match l with
  | [] => []
  | h :: l' => if (h =? hdlr)%nat then l' else h :: remove_first hdlr l'
  end.

Definition removeHandler (hdlr : Handler) : M Logger unit :=
  modify (fun logger => mkLogger (remove_first hdlr (handlers logger)) (created logger)).

(** [logger.addHandler(hdlr)]: appended unless it is there already. *)
Definition addHandler (hdlr : Handler) : M Logger unit :=
  modify (fun logger =>
            if bool_decide (hdlr ∈ handlers logger) then logger
            else mkLogger (handlers logger ++ [hdlr]) (created logger)).

(** [logging.NullHandler()]: a new object. *)
Definition NullHandler : M Logger Handler := fun logger =>
  (Ok (created logger), mkLogger (handlers logger) (Datatypes.S (created logger))).

(** [with disable_logs(logger_name): body] *)
Definition disable_logs {A} (body : M Logger A) : M Logger A :=
  handlers <- gets handlers ;;
  for_each handlers removeHandler ;;
  null_handler <- NullHandler ;;
  addHandler null_handler ;;
  try_finally body
    (removeHandler null_handler ;;
     for_each handlers addHandler).

End utils.

(* ===================================================================== *)
(** * boardfarm3/lib/networking.py                                        *)
(* ===================================================================== *)

Module networking.
Import utils.

(** ** [IptablesFirewall] *)
Section IptablesFirewall.
(** The console capability: [execute_command] runs a command on a
    console, whose state it may change, and returns the captured output
    or raises. *)
Context {console : Type}.
Variable execute_command : string -> M console string.

(** [IptablesParser().ip6tables], of
    [boardfarm3.lib.parsers.iptables_parser]: the structured-output
    parser, a boundary interface of this module. *)
Context {rules : Type}.
Variable IptablesParser_ip6tables : string -> result rules.

Definition get_iptables_list (opts extra_opts : string) : M console rules :=
  output <- execute_command ("iptables " +:+ opts +:+ " " +:+ extra_opts) ;;
  lift (IptablesParser_ip6tables output).

Definition get_ip6tables_list (opts extra_opts : string) : M console rules :=
  output <- execute_command ("ip6tables " +:+ opts +:+ " " +:+ extra_opts) ;;
  lift (IptablesParser_ip6tables output).
End IptablesFirewall.

(** ** [DNS] *)

Definition IPv6Address := Z.
Definition IPV6_ALL_ONES : Z := 2 ^ 128 - 1.

Definition ipv6_add (a : IPv6Address) (n : Z) : result IPv6Address :=
  if ((a + n <? 0) || (IPV6_ALL_ONES <? a + n))%Z
  then Raise AddressValueError else Ok (a + n)%Z.

(** [str(a)] for an [IPv4Address]: the four octets in decimal. *)
Definition octet (a : IPv4Address) (i : Z) : string :=
  pretty (Z.land (Z.shiftr a (8 * i)) 255).

Definition str_ipv4 (a : IPv4Address) : string :=
  join "." [octet a 3; octet a 2; octet a 1; octet a 0].

(** An element of an address list: the constructor stores the text of
    the device's own address and the auxiliary address objects as they
    are given. *)
Inductive address : Type :=
| Text (s : string)
| V4 (a : IPv4Address)
| V6 (a : IPv6Address).

(** [defaultdict(list)] keyed by host name. *)
Abbreviation book := (gmap string (list address)).

(** [d[k]] on a [defaultdict(list)]: a missing key is created empty. *)
Definition item (d : book) (k : string) : list address * book :=
  match d !! k with
  | Some l => (l, d)
  | None => ([], <[k := []]> d)
  end.

(** [d[k].append(x)] *)
Definition item_append (d : book) (k : string) (x : address) : book :=
  let '(l, d') := item d k in <[k := l ++ [x]]> d'.

Record DNS : Type := mkDNS {
  auxv4 : option IPv4Address;
  auxv6 : option IPv6Address;
  _device_name : string;
  dnsv4 : book;
  dnsv6 : book;
  hosts_v4 : book;
  hosts_v6 : book
}.

Definition with_dnsv4 (f : book -> book) (self : DNS) : DNS :=
  mkDNS (auxv4 self) (auxv6 self) (_device_name self)
        (f (dnsv4 self)) (dnsv6 self) (hosts_v4 self) (hosts_v6 self).
Definition with_dnsv6 (f : book -> book) (self : DNS) : DNS :=
  mkDNS (auxv4 self) (auxv6 self) (_device_name self)
        (dnsv4 self) (f (dnsv6 self)) (hosts_v4 self) (hosts_v6 self).
Definition with_hosts_v4 (f : book -> book) (self : DNS) : DNS :=
  mkDNS (auxv4 self) (auxv6 self) (_device_name self)
        (dnsv4 self) (dnsv6 self) (f (hosts_v4 self)) (hosts_v6 self).
Definition with_hosts_v6 (f : book -> book) (self : DNS) : DNS :=
  mkDNS (auxv4 self) (auxv6 self) (_device_name self)
        (dnsv4 self) (dnsv6 self) (hosts_v4 self) (f (hosts_v6 self)).

Definition _dns_name_suffix : string := ".boardfarm.com".

(** [f"{self._device_name}{self._dns_name_suffix}"] *)
Definition primary_name (self : DNS) : string :=
  _device_name self +:+ _dns_name_suffix.

Definition _add_dns_addresses (ipv4_address ipv6_address : option string)
    (self : DNS) : DNS :=
  let self :=
    match ipv4_address with
    | Some a => with_dnsv4 (fun d => item_append d (primary_name self) (Text a)) self
    | None => self
    end in
  match ipv6_address with
  | Some a => with_dnsv6 (fun d => item_append d (primary_name self) (Text a)) self
  | None => self
  end.

Definition _add_aux_dns_addresses (aux_url : option string) (self : DNS) : DNS :=
  let self :=
    match auxv4 self with
    | Some aux =>
        let self := with_dnsv4 (fun d => item_append d (primary_name self) (V4 aux)) self in
        match aux_url with
        | Some url => with_dnsv4 (fun d => item_append d url (V4 aux)) self
        | None => self
        end
    | None => self
    end in
  match auxv6 self with
  | Some aux =>
      let self := with_dnsv6 (fun d => item_append d (primary_name self) (V6 aux)) self in
      match aux_url with
      | Some url => with_dnsv6 (fun d => item_append d url (V6 aux)) self
      | None => self
      end
  | None => self
  end.

(** [DNS.__init__].  [hosts.update(dns)] makes every name of the hosts
    view refer to the list object of the DNS view; [configure_hosts]
    rebinds the name to a fresh slice before it appends, and nothing
    else mutates a list after construction, so the two views are kept as
    separate values. *)
Definition init (device_name : string) (ipv4_address ipv6_address : option string)
    (ipv4_aux_address : option IPv4Address) (ipv6_aux_address : option IPv6Address)
    (aux_url : option string) : DNS :=
  let self := mkDNS ipv4_aux_address ipv6_aux_address device_name ∅ ∅ ∅ ∅ in
  let self := _add_dns_addresses ipv4_address ipv6_address self in
  let self := _add_aux_dns_addresses aux_url self in
  let self := with_hosts_v4 (fun h => dnsv4 self ∪ h) self in
  with_hosts_v6 (fun h => dnsv6 self ∪ h) self.

Section ConfigureHosts.
(** [str(a)] for an [IPv6Address], as the [ipaddress] library prints it. *)
Variable str_ipv6 : IPv6Address -> string.

(** [self.auxv4 + n]: an absent auxiliary address is [None], which has
    no addition with an [int]. *)
Definition aux_add {A} (add : A -> Z -> result A) (aux : option A) (n : Z) : result A :=
  match aux with
  | None => Raise TypeError
  | Some a => add a n
  end.

Definition read_hosts_v4 (name : string) : M DNS (list address) := fun self =>
  let '(l, d) := item (hosts_v4 self) name in (Ok l, with_hosts_v4 (fun _ => d) self).
Definition read_hosts_v6 (name : string) : M DNS (list address) := fun self =>
  let '(l, d) := item (hosts_v6 self) name in (Ok l, with_hosts_v6 (fun _ => d) self).

(** One round of [for val in range(unreachable_ipv4)] and of
    [for val in range(unreachable_ipv6)]. *)
Definition add_unreachable_v4 (name : string) (val : Z) : M DNS unit :=
  aux <- gets auxv4 ;;
  ipv4 <- lift (aux_add ipv4_add aux (val + 1)) ;;
  modify (with_hosts_v4 (fun d => item_append d name (Text (str_ipv4 ipv4)))).

Definition add_unreachable_v6 (name : string) (val : Z) : M DNS unit :=
  aux <- gets auxv6 ;;
  ipv6 <- lift (aux_add ipv6_add aux (val + 1)) ;;
  modify (with_hosts_v6 (fun d => item_append d name (Text (str_ipv6 ipv6)))).

Definition configure_hosts
    (reachable_ipv4 unreachable_ipv4 reachable_ipv6 unreachable_ipv6 : Z) : M DNS unit :=
  name <- gets primary_name ;;
  l4 <- read_hosts_v4 name ;;
  let val_v4 := slice_to l4 reachable_ipv4 in
  l6 <- read_hosts_v6 name ;;
  let val_v6 := slice_to l6 reachable_ipv6 in
  modify (with_hosts_v4 (insert name val_v4)) ;;
  modify (with_hosts_v6 (insert name val_v6)) ;;
  for_each (range unreachable_ipv4) (add_unreachable_v4 name) ;;
  for_each (range unreachable_ipv6) (add_unreachable_v6 name).
End ConfigureHosts.

(** ** [_LinuxConsole] *)

(** An entry of a pattern list: a text, or [pexpect.TIMEOUT]. *)
Inductive pattern : Type :=
| Pattern (text : string)
| TIMEOUT.

(** The console protocol.  Each operation may change the console and
    returns or raises; [expect] and [expect_exact] answer the index of
    the pattern that matched. *)
Class _LinuxConsole (console : Type) : Type := {
  execute_command : string -> Z -> M console string;
  sendline : string -> M console unit;
  expect : list pattern -> Z -> M console Z;
  expect_exact : list pattern -> Z -> M console Z
}.

(** The exceptions of [boardfarm3.exceptions] this module raises. *)
Inductive failure : Type :=
| SCPConnectionError (msg : string)
| UseCaseFailure (msg : string).

Section Console.
Context {console : Type} `{!_LinuxConsole console}.

(** [tcpdump_read(console, capture_file, protocol, opts, timeout, rm_pcap)] *)
Definition tcpdump_read (capture_file protocol opts : string) (timeout : Z)
    (rm_pcap : bool) : M console string :=
  let protocol :=
    if negb (String.eqb opts "") then protocol +:+ " and " +:+ opts else protocol in
  tcpdump_output <-
    execute_command ("tcpdump -n -r " +:+ capture_file +:+ " " +:+ protocol) timeout ;;
  (if rm_pcap
   then execute_command ("rm " +:+ capture_file) (-1) ;; ret tt
   else ret tt) ;;
  ret tcpdump_output.

(** [scp(console, host, port, username, password, src_path, dst_path,
    action, timeout)]; [port] is the text that the command line shows.
    The result [Some failure] is the raise of that exception. *)
Definition scp (host port username password src_path dst_path action : string)
    (timeout : Z) : M console (option failure) :=
  let command :=
    if String.eqb action "download" then
      "scp -o StrictHostKeyChecking=no -o UserKnownHostsFile=/dev/null"
      +:+ " -q -P " +:+ port +:+ " " +:+ username +:+ "@" +:+ host +:+ ":"
      +:+ src_path +:+ " " +:+ dst_path
    else
      "scp -o StrictHostKeyChecking=no -o UserKnownHostsFile=/dev/null"
      +:+ " -q -P " +:+ port +:+ " " +:+ src_path +:+ " " +:+ username +:+ "@"
      +:+ host +:+ ":" +:+ dst_path in
  sendline command ;;
  asked <- expect [TIMEOUT; Pattern "assword:"] 10 ;;
  (if negb (asked =? 0)%Z then sendline password else ret tt) ;;
  copied <- expect_exact [Pattern "100%"; TIMEOUT] timeout ;;
  if negb (copied =? 0)%Z
  then ret (Some (SCPConnectionError
                    ("Failed to scp from " +:+ src_path +:+ " to " +:+ dst_path)))
  else ret None.
End Console.

(** ** [IptablesFirewall], the other methods *)
Section IptablesRules.
Context {console : Type} `{!_LinuxConsole console}.

(** The rules of a chain are a list; the listing maps the chain names to
    them. *)
Context {rule : Type}.
Variable IptablesParser_ip6tables : string -> result (gmap string (list rule)).

(** [re.search(rf"host\/network.*{valid_ip}.*not found", output)] finds
    a match: the pattern is built from [valid_ip], read as a regular
    expression. *)
Variable host_not_found : string -> string -> bool.

(** [any(listing.values())]: some list is not empty. *)
Definition any_values (listing : gmap string (list rule)) : bool :=
  existsb (fun rules => match rules with [] => false | _ => true end)
          (snd <$> map_to_list listing).

Definition is_iptable_empty (opts extra_opts : string) : M console bool :=
  listing <- get_iptables_list (fun command => execute_command command (-1))
               IptablesParser_ip6tables opts extra_opts ;;
  ret (any_values listing).

Definition is_ip6table_empty (opts extra_opts : string) : M console bool :=
  listing <- get_ip6tables_list (fun command => execute_command command (-1))
               IptablesParser_ip6tables opts extra_opts ;;
  ret (any_values listing).

Definition add_drop_rule_iptables (option valid_ip : string) : M console unit :=
  iptables_output <-
    execute_command ("iptables -C INPUT " +:+ option +:+ " " +:+ valid_ip +:+ " -j DROP")
                    (-1) ;;
  if host_not_found valid_ip iptables_output then raise ValueError
  else if contains "Bad rule" iptables_output then
    execute_command
      ("iptables -I INPUT 1 " +:+ option +:+ " " +:+ valid_ip +:+ " -j DROP") (-1) ;;
    ret tt
  else ret tt.

Definition add_drop_rule_ip6tables (option valid_ip : string) : M console unit :=
  ip6tables_output <-
    execute_command ("ip6tables -C INPUT " +:+ option +:+ " " +:+ valid_ip +:+ " -j DROP")
                    (-1) ;;
  if host_not_found valid_ip ip6tables_output then raise ValueError
  else if contains "Bad rule" ip6tables_output then
    execute_command
      ("ip6tables -I INPUT 1 " +:+ option +:+ " " +:+ valid_ip +:+ " -j DROP") (-1) ;;
    ret tt
  else ret tt.
End IptablesRules.

(** ** [NSLookup] and [dns_lookup] *)
Section Lookup.
Context {console : Type} `{!_LinuxConsole console}.

(** [NslookupParser().parse_nslookup_output] and [jc.parsers.dig.parse]:
    the structured-output parsers, boundary interfaces of this module. *)
Context {nslookup_result dig_result : Type}.
Variable parse_nslookup_output : string -> result nslookup_result.
Variable dig_parse : string -> result dig_result.

(** [NSLookup(console).nslookup(domain_name, opts, extra_opts)] *)
Definition nslookup (domain_name opts extra_opts : string) : M console nslookup_result :=
  output <- execute_command
              ("nslookup " +:+ opts +:+ " " +:+ domain_name +:+ " " +:+ extra_opts) (-1) ;;
  lift (parse_nslookup_output output).

(** [dns_lookup(console, domain_name)] *)
Definition dns_lookup (domain_name : string) : M console dig_result :=
  output <- execute_command ("dig " +:+ domain_name) (-1) ;;
  answer <- lift (index (split_max ";" 1 output) (-1)) ;;
  lift (dig_parse answer).
End Lookup.

End networking.

(* ===================================================================== *)
(** * boardfarm3/devices/linux_wan.py                                     *)
(* ===================================================================== *)

Module linux_wan.

Section LinuxWAN.
(** The console of the device, as in [networking]. *)
Context {console : Type}.
Variable execute_command : string -> M console string.

(** [str(IPv6Interface(text))] and [str(IPv4Interface(text))] of the
    [ipaddress] library: the normalised interface, or a raise on a
    malformed one. *)
Variable IPv6Interface : string -> result string.
Variable IPv4Interface : string -> result string.

(** [self.iface_dut], the [eth_interface] of the base device. *)
Variable iface_dut : string.

Record LinuxWAN : Type := mkLinuxWAN {
  _static_route : string;
  _wan_dhcp : bool;
  _wan_no_eth0 : bool;
  _wan_dhcp_server : bool;
  _wan_dhcpv6 : bool;
  _config : gmap string string;
  _console : console
}.

Definition set_static_route (v : string) (self : LinuxWAN) : LinuxWAN :=
  mkLinuxWAN v (_wan_dhcp self) (_wan_no_eth0 self) (_wan_dhcp_server self)
             (_wan_dhcpv6 self) (_config self) (_console self).
Definition set_wan_dhcp (v : bool) (self : LinuxWAN) : LinuxWAN :=
  mkLinuxWAN (_static_route self) v (_wan_no_eth0 self) (_wan_dhcp_server self)
             (_wan_dhcpv6 self) (_config self) (_console self).
Definition set_wan_no_eth0 (v : bool) (self : LinuxWAN) : LinuxWAN :=
  mkLinuxWAN (_static_route self) (_wan_dhcp self) v (_wan_dhcp_server self)
             (_wan_dhcpv6 self) (_config self) (_console self).
Definition set_wan_dhcp_server (v : bool) (self : LinuxWAN) : LinuxWAN :=
  mkLinuxWAN (_static_route self) (_wan_dhcp self) (_wan_no_eth0 self) v
             (_wan_dhcpv6 self) (_config self) (_console self).
Definition set_wan_dhcpv6 (v : bool) (self : LinuxWAN) : LinuxWAN :=
  mkLinuxWAN (_static_route self) (_wan_dhcp self) (_wan_no_eth0 self)
             (_wan_dhcp_server self) v (_config self) (_console self).
Definition set_console (v : console) (self : LinuxWAN) : LinuxWAN :=
  mkLinuxWAN (_static_route self) (_wan_dhcp self) (_wan_no_eth0 self)
             (_wan_dhcp_server self) (_wan_dhcpv6 self) (_config self) v.

(** [LinuxWAN.__init__]: the fields it assigns, then the base device
    keeps the configuration and the console. *)
Definition init (config : gmap string string) (c : console) : LinuxWAN :=
  mkLinuxWAN "" false false false false config c.

(** [self._console.execute_command(cmd)] *)
Definition run (cmd : string) : M LinuxWAN unit := fun self =>
  let '(r, c) := execute_command cmd (_console self) in
  (match r with Ok _ => Ok tt | Raise e => Raise e end, set_console c self).

(** One round of the [for opt in options] loop. *)
Definition setup_option (opt : string) : M LinuxWAN unit :=
  if startswith opt "wan-static-route:" then
    modify (set_static_route
              (replace "-" " via " (replace "wan-static-route:" "" opt)))
  else if String.eqb opt "wan-dhcp-client" then
    modify (set_wan_dhcp true)
  else if String.eqb opt "wan-no-eth0" then
    modify (set_wan_no_eth0 true)
  else if String.eqb opt "wan-no-dhcp-server" then
    modify (set_wan_dhcp_server false)
  else if String.eqb opt "wan-dhcp-client-v6" then
    modify (set_wan_dhcpv6 true)
  else if startswith opt "wan-static-ipv6:" then
    let ipv6_address := replace "wan-static-ipv6:" "" opt in
    ipv6_interface <- lift (IPv6Interface ipv6_address) ;;
    run ("sysctl -w net.ipv6.conf." +:+ iface_dut +:+ ".accept_dad=0") ;;
    run ("ip -6 addr del " +:+ ipv6_interface +:+ " dev " +:+ iface_dut) ;;
    run ("ip -6 addr add " +:+ ipv6_interface +:+ " dev " +:+ iface_dut)
  else if startswith opt "wan-static-ip:" then
    let value := replace "wan-static-ip:" "" opt in
    ipv4_interface <- lift (IPv4Interface value) ;;
    run ("ip -4 addr del " +:+ ipv4_interface +:+ " dev " +:+ iface_dut) ;;
    run ("ip -4 addr add " +:+ ipv4_interface +:+ " dev " +:+ iface_dut)
  else ret tt.

(** One round of the [for route in ...] loop. *)
Definition setup_route (route : string) : M LinuxWAN unit :=
  target <- lift (index (split "via" route) 0) ;;
  run ("ip route del " +:+ target) ;;
  run ("ip route add " +:+ route).

Definition _setup_wan : M LinuxWAN unit :=
  config <- gets _config ;;
  match config !! "options" with
  | None => ret tt
  | Some text =>
      run ("ifconfig " +:+ iface_dut +:+ " down") ;;
      run ("ifconfig " +:+ iface_dut +:+ " up") ;;
      let options := strip <$> split "," text in
      for_each options setup_option ;;
      static_route <- gets _static_route ;;
      if negb (String.eqb static_route "")
      then for_each (split ";" static_route) setup_route
      else ret tt
  end.
End LinuxWAN.

(** ** The methods of [LinuxWAN] that talk to the console protocol *)

(** The exception of [boardfarm3.exceptions] this module raises. *)
Inductive exception : Type :=
| ContingencyCheckError (msg : string).

(** [self._board_prompt], set by [__init__]. *)
Definition _board_prompt : string := "root@[\w-]+:[\w/~]+#".

(** [v != n] for an [int] [n]: numbers compare by value, [True] and
    [False] being 1 and 0; a value of another kind differs from every
    number. *)
Definition ne_int (v : value) (n : Z) : bool :=
  match v with
  | VInt z => negb (z =? n)%Z
  | VBool b => negb ((if b then 1 else 0) =? n)%Z
  | _ => true
  end.

(** [ping_status]: the four counters, in the order of the dictionary. *)
Record ping_status : Type := PingStatus {
  ipv4_reachable : Z;
  ipv4_unreachable : Z;
  ipv6_reachable : Z;
  ipv6_unreachable : Z
}.

(** [ping_status[ip_version]["reachable"] += 1] and
    [ping_status[ip_version]["unreachable"] += 1] *)
Definition count (ipv6 answered : bool) (status : ping_status) : ping_status :=
  match ipv6, answered with
  | false, true =>
      PingStatus (ipv4_reachable status + 1) (ipv4_unreachable status)
                 (ipv6_reachable status) (ipv6_unreachable status)
  | false, false =>
      PingStatus (ipv4_reachable status) (ipv4_unreachable status + 1)
                 (ipv6_reachable status) (ipv6_unreachable status)
  | true, true =>
      PingStatus (ipv4_reachable status) (ipv4_unreachable status)
                 (ipv6_reachable status + 1) (ipv6_unreachable status)
  | true, false =>
      PingStatus (ipv4_reachable status) (ipv4_unreachable status)
                 (ipv6_reachable status) (ipv6_unreachable status + 1)
  end.

(** The items of [ping_status], nested, in iteration order. *)
Definition items (status : ping_status) : list (string * list (string * Z)) :=
  [ ("ipv4", [("reachable", ipv4_reachable status);
              ("unreachable", ipv4_unreachable status)]);
    ("ipv6", [("reachable", ipv6_reachable status);
              ("unreachable", ipv6_unreachable status)]) ].

(** The two loops of the comparison: the first requested count that
    differs from the measured one raises. *)
Fixpoint compare_statuses (ip_version : string) (requested : gmap string value)
    (item : list (string * Z)) : option exception :=
  match item with
  | [] => None
  | (status, value) :: rest =>
      match requested !! status with
      | None => compare_statuses ip_version requested rest
      | Some wanted =>
          if ne_int wanted value
          then Some (ContingencyCheckError
                       ("DNS check failed for " +:+ ip_version +:+ " " +:+ status
                        +:+ " servers "
                        +:+ "- requested: {acs_server_config[ip_version][status]}, "
                        +:+ "actual: {value}"))
          else compare_statuses ip_version requested rest
      end
  end.

Fixpoint compare_versions (acs_server_config : gmap string (gmap string value))
    (status_items : list (string * list (string * Z))) : option exception :=
  match status_items with
  | [] => None
  | (ip_version, item) :: rest =>
      match acs_server_config !! ip_version with
      | None => compare_versions acs_server_config rest
      | Some requested =>
          match compare_statuses ip_version requested item with
          | Some raised => Some raised
          | None => compare_versions acs_server_config rest
          end
      end
  end.

Section Console.
Import networking.
Context {console : Type} `{!_LinuxConsole console}.

(** [self._shell_prompt], of the base device. *)
Variable _shell_prompt : list pattern.

(** [NslookupParser().parse_nslookup_output], and
    [output.get("domain_ip_addr", [])] on what it returns. *)
Context {nslookup_result : Type}.
Variable parse_nslookup_output : string -> result nslookup_result.
Variable domain_ip_addr : nslookup_result -> list string.

(** [re.match(AllValidIpv6AddressesRegex, ip_address)] finds a match. *)
Variable is_ipv6 : string -> bool.

(** [self.ping(ip_address, ping_count)], of the base device. *)
Variable ping : string -> Z -> M console bool.

(** [connect_to_board_via_reverse_ssh(rssh_username, rssh_password,
    reverse_ssh_port)] *)
Definition connect_to_board_via_reverse_ssh (rssh_username : string)
    (rssh_password : option string) (reverse_ssh_port : string) : M console unit :=
  match rssh_password with
  | Some _ => raise ValueError
  | None =>
      let ssh_command :=
        "ssh " +:+ rssh_username +:+ "@localhost "
        +:+ "-p " +:+ reverse_ssh_port +:+ " -o StrictHostKeyChecking=no "
        +:+ "-o UserKnownHostsFile=/dev/null" in
      sendline ssh_command ;;
      expect [Pattern _board_prompt] (-1) ;;
      sendline "ifconfig erouter0" ;;
      expect [Pattern _board_prompt] (-1) ;;
      sendline "exit" ;;
      expect _shell_prompt (-1) ;;
      ret tt
  end.

(** The [for ip_address in ...] loop, threading [ping_status]. *)
Fixpoint ping_addresses (addresses : list string) (status : ping_status)
  : M console ping_status :=
  match addresses with
  | [] => ret status
  | ip_address :: rest =>
      let ip_version := is_ipv6 ip_address in
      answered <- ping ip_address 2 ;;
      ping_addresses rest (count ip_version answered status)
  end.

(** [_validate_dns_env_request(acs_server_config)]; the result
    [Some exception] is the raise of that exception. *)
Definition _validate_dns_env_request
    (acs_server_config : gmap string (gmap string value)) : M console (option exception) :=
  output <- nslookup parse_nslookup_output "acs_server.boardfarm.com" "" "" ;;
  status <- ping_addresses (domain_ip_addr output) (PingStatus 0 0 0 0) ;;
  ret (compare_versions acs_server_config (items status)).
End Console.

End linux_wan.

(* ===================================================================== *)
(** * boardfarm/plugins/core.py                                           *)
(* ===================================================================== *)

Module core.

(** What the operator's terminal shows and what the shell starts. *)
Inductive event : Type :=
| Printed (text : string)
| Asked (prompt : string)
| Session (console_name device_name : string).

(** The terminal: the lines the operator is still going to type, and
    what has happened so far. *)
Record terminal : Type := Terminal { stdin : list string; screen : list event }.

Definition emit (e : event) : M terminal unit :=
  modify (fun t => Terminal (stdin t) (screen t ++ [e])).

(** [print(text)] *)
Definition print (text : string) : M terminal unit := emit (Printed text).

(** [input(prompt)]: end of input raises [EOFError]. *)
Definition input (prompt : string) : M terminal string := fun t =>
  match stdin t with
  | [] => (Raise EOFError, Terminal [] (screen t ++ [Asked prompt]))
  | line :: rest => (Ok line, Terminal rest (screen t ++ [Asked prompt]))
  end.

(** A device as the shell sees it: its type and the names of its
    interactive consoles, the keys of [get_interactive_consoles()]. *)
Record BoardfarmDevice : Type := Device {
  device_type : string;
  interactive_consoles : gset string
}.

(** [selected_console.start_interactive_session()]: the session itself is
    the operator's dialogue with the device and is not followed. *)
Definition start_interactive_session (console_name device_name : string)
  : M terminal unit := emit (Session console_name device_name).

Definition nl : string := String (ascii_of_nat 10) EmptyString.

(** [enumerate(l, start=1)] *)
Definition enumerate1 {A} (l : list A) : list (Z * A) :=
  imap (fun i x => (Z.of_nat (S i), x)) l.

(** What a round of a [while True] loop decides.  [Exhausted] is not a
    Python outcome: it reports that an inner loop used up its rounds. *)
Inductive control (A : Type) : Type :=
| Continue
| Break (a : A)
| Exhausted.
Arguments Continue {A}.
Arguments Break {A} a.
Arguments Exhausted {A}.

(** [while True: body], for at most [fuel] rounds; [None] when they are
    used up. *)
Fixpoint while_true {S A} (fuel : nat) (body : M S (control A)) : M S (option A) :=
  match fuel with
  | O => ret None
  | Datatypes.S fuel' =>
      c <- body ;;
      match c with
      | Continue => while_true fuel' body
      | Break a => ret (Some a)
      | Exhausted => ret None
      end
  end.

Definition device_row (devices_dict : gmap string BoardfarmDevice)
    (row : Z * string) : M terminal unit :=
  let '(i, device_name) := row in
  match devices_dict !! device_name with
  | None => raise AttributeError
  | Some device =>
      let num_consoles := size (interactive_consoles device) in
      print (rjust 2 (pretty i) +:+ "  " +:+ ljust 16 device_name +:+ " "
             +:+ ljust 16 (device_type device) +:+ " " +:+ pretty num_consoles)
  end.

(** [_get_device_name_from_user(devices_dict, exit_code)] *)
Definition _get_device_name_from_user (devices_dict : gmap string BoardfarmDevice)
    (exit_code : string) : M terminal (option string) :=
  print "----------------------------------------------" ;;
  print "ID  Device name      Device type      Consoles" ;;
  print "----------------------------------------------" ;;
  let device_names := sorted (fst <$> map_to_list devices_dict) in
  for_each (enumerate1 device_names) (device_row devices_dict) ;;
  print (nl +:+ "Enter '" +:+ exit_code +:+ "' to exit the interactive shell." +:+ nl) ;;
  device_id <- input "Please enter a device ID: " ;;
  if String.eqb device_id exit_code then
    ret (Some device_id)
  else if negb (isdigit device_id) then
    print (nl +:+ "ERROR: Wrong input. Please try again." +:+ nl) ;;
    ret None
  else
    n <- lift (int device_id) ;;
    if (n >? Z.of_nat (length device_names))%Z then
      print (nl +:+ "ERROR: Wrong device ID. Please try again." +:+ nl) ;;
      ret None
    else
      device_name <- lift (index device_names (n - 1)) ;;
      ret (Some device_name).

(** One round of the loop of [_get_console_name_from_user]. *)
Definition console_round (device_name : string) (console_names : list string)
  : M terminal (control (option string)) :=
  match console_names with
  | [] =>
      print (nl +:+ "ERROR: No console available for " +:+ device_name +:+ ". "
             +:+ "Please try another device." +:+ nl) ;;
      ret (Break None)
  | [console_name] => ret (Break (Some console_name))
  | _ =>
      print (device_name +:+ "' has more than one console.") ;;
      let console_ids :=
        join " " ((fun '(x, y) => pretty x +:+ ") " +:+ ljust 16 y)
                  <$> enumerate1 console_names) in
      print (nl +:+ console_ids +:+ " q) go back." +:+ nl) ;;
      console_id <- input "Please enter a console ID: " ;;
      if negb (isdigit console_id) then
        print (nl +:+ "ERROR: Wrong input. Please try again." +:+ nl) ;;
        ret Continue
      else
        n <- lift (int console_id) ;;
        if (n >? Z.of_nat (length console_names))%Z then
          print (nl +:+ "ERROR: Wrong console ID. Please try again." +:+ nl) ;;
          ret Continue
        else
          console_name <- lift (index console_names (n - 1)) ;;
          ret (Break (Some console_name))
  end.

(** [_get_console_name_from_user(device_name, consoles)] *)
Definition _get_console_name_from_user (fuel : nat) (device_name : string)
    (consoles : gset string) : M terminal (option (option string)) :=
  let console_names := sorted (elements consoles) in
  while_true fuel (console_round device_name console_names).

(** One round of the loop of [boardfarm_post_deploy_devices]; the device
    manager hands out the registry [devices_dict]. *)
Definition shell_round (fuel : nat) (devices_dict : gmap string BoardfarmDevice)
    (exit_code : string) : M terminal (control unit) :=
  if decide (devices_dict = ∅) then
    print "No device available in the environment." ;;
    ret (Break tt)
  else
    device_name <- _get_device_name_from_user devices_dict exit_code ;;
    match device_name with
    | None => ret Continue
    | Some device_name =>
        if String.eqb device_name exit_code then ret (Break tt)
        else
          match devices_dict !! device_name with
          | None => raise AttributeError
          | Some device =>
              let consoles := interactive_consoles device in
              console_name <- _get_console_name_from_user fuel device_name consoles ;;
              match console_name with
              | None => ret Exhausted
              | Some None => ret Continue
              | Some (Some console_name) =>
                  print (nl +:+ "Entering into " +:+ console_name +:+ "("
                         +:+ device_name +:+ ")" +:+ nl) ;;
                  start_interactive_session console_name device_name ;;
                  print nl ;;
                  ret Continue
              end
          end
    end.

(** [boardfarm_post_deploy_devices(device_manager)] with [fuel] rounds
    for each loop. *)
Definition interactive_shell (fuel : nat) (devices_dict : gmap string BoardfarmDevice)
  : M terminal (option unit) :=
  print ("----------------------------------------------" +:+ nl) ;;
  print ("         BOARDFARM INTERACTIVE SHELL" +:+ nl) ;;
  let exit_code := "q" in
  done <- while_true fuel (shell_round fuel devices_dict exit_code) ;;
  match done with
  | None => ret None
  | Some _ => print "Bye." ;; ret (Some tt)
  end.

(** Every round that continues has read a line, so one round more than
    there are pending lines is enough. *)
Definition boardfarm_post_deploy_devices (devices_dict : gmap string BoardfarmDevice)
  : M terminal (option unit) :=
  fun t => interactive_shell (S (length (stdin t))) devices_dict t.

End core.

(* ===================================================================== *)
(** * boardfarm/dbclients/influx_wrapper.py                               *)
(* ===================================================================== *)

Module influx_wrapper.

(** ** Python [float]: IEEE 754 binary64, round to nearest even. *)
Abbreviation float := spec_float.

Definition prec : Z := 53.
Definition emax : Z := 1024.

(** [float(z)] for an [int] within the range of [float]. *)
Definition float_of_int (z : Z) : float := binary_normalize prec emax z 0 false.

(** [x * y], [x / y] for a non-zero [y], [x - y] and [x < y]. *)
Definition mul (x y : float) : float := SFmul prec emax x y.
Definition div (x y : float) : float := SFdiv prec emax x y.
Definition sub (x y : float) : float := SFsub prec emax x y.
Definition lt (x y : float) : bool := SFltb x y.

(** The integer nearest to [a / d] for [d > 0], halves to the even one. *)
Definition nearest_even (a d : Z) : Z :=
  let q := (a / d)%Z in
  let r := (a mod d)%Z in
  if (2 * r <? d)%Z then q
  else if (d <? 2 * r)%Z then (q + 1)%Z
  else if Z.even q then q else (q + 1)%Z.

(** [round(x, ndigits)] for a small [ndigits >= 0]: the exact value of
    [x] is rounded to [ndigits] decimals, halves to even, and the float
    nearest to that decimal is returned; zeros, infinities and NaN are
    returned as they are. *)
Definition round (x : float) (ndigits : Z) : float :=
  match x with
  | S754_finite s m e =>
      let scaled := (Zpos m * 10 ^ ndigits)%Z in
      let n := if (0 <=? e)%Z then (scaled * 2 ^ e)%Z
               else nearest_even scaled (2 ^ (- e)) in
      match n with
      | Zpos p => div (S754_finite s p 0)
                      (S754_finite false (Z.to_pos (10 ^ ndigits)) 0)
      | _ => S754_zero s
      end
  | _ => x
  end.

(** [self.units], set by [GenericWrapper.__init__]. *)
Definition units : gmap string Z :=
  list_to_map
    [ ("bits", 1); ("bytes", 8);
      ("kbits", 1024 * 1); ("kbytes", 1024 * 8);
      ("mbits", 1024 * 1024 * 1); ("mbytes", 1024 * 1024 * 8);
      ("gbits", 1024 * 1024 * 1024 * 1); ("gbytes", 1024 * 1024 * 1024 * 8) ]%Z.

(** [d[k]] on a [dict] *)
Definition getitem {A} (d : gmap string A) (k : string) : result A :=
  match d !! k with
  | Some v => Ok v
  | None => Raise KeyError
  end.

(** A record of [meta_dict["data"]]: [temp["type"]] and [temp["value"]]. *)
Record sample : Type := Sample { type : string; value : list string }.

(** The keys of an iperf descriptor that [collect_logs] works on. *)
Record descriptor : Type := Descriptor {
  logfile : string;
  last_index : option string;
  fields : option (list string);
  data : list sample
}.

Definition set_last_index (v : option string) (d : descriptor) : descriptor :=
  Descriptor (logfile d) v (fields d) (data d).
Definition set_fields (v : option (list string)) (d : descriptor) : descriptor :=
  Descriptor (logfile d) (last_index d) v (data d).
Definition set_data (v : list sample) (d : descriptor) : descriptor :=
  Descriptor (logfile d) (last_index d) (fields d) v.

(** [[j for j in i.split(" ") if j != ""]] *)
Definition words (i : string) : list string :=
  filter (fun j => j ≠ "") (split " " i).

(** [l.index(x)] for an [x] that is in [l]: the first position. *)
Fixpoint position (x : string) (l : list string) : Z :=
  match l with
  | [] => 0
  | y :: l' => if String.eqb y x then 0%Z else (1 + position x l')%Z
  end.

Section CollectLogs.
(** [float(text)] and [str(x)] of the Python runtime: the float a text
    denotes, or [ValueError]; the shortest text that denotes [x]. *)
Variable float_of_str : string -> result float.
Variable str_of_float : float -> string.

(** [self._get_data(device, data_list, idx)]: the non-blank lines of the
    log file but the first, read through the device. *)
Variable _get_data : string -> result (list string).

(** The frame of the loop over the lines: the descriptor being filled
    and the local [last_index]. *)
Record frame : Type := Frame { meta_dict : descriptor; last : option string }.

Definition on_meta (f : descriptor -> descriptor) : M frame unit :=
  modify (fun fr => Frame (f (meta_dict fr)) (last fr)).

(** The body of [if i.startswith("[SUM]")] *)
Definition sum_line (i : string) : M frame unit :=
  modify (fun fr => Frame (meta_dict fr) (Some i)) ;;
  let line := words i in
  interval <- lift (index line 1) ;;
  finish_text <- lift (index (split "-" interval) 1) ;;
  finish <- lift (float_of_str finish_text) ;;
  start_text <- lift (index (split "-" interval) 0) ;;
  start <- lift (float_of_str start_text) ;;
  let temp_type := if lt (sub finish start) (float_of_int 2) then "data" else "result" in
  unit_name <- lift (index line 4) ;;
  match units !! lower unit_name with
  | None => ret tt
  | Some _ =>
      marker <- lift (index (split "-" interval) 1) ;;
      amount_text <- lift (index line 3) ;;
      amount <- lift (float_of_str amount_text) ;;
      multiplier <- lift (getitem units (lower unit_name)) ;;
      mbits <- lift (getitem units "mbits") ;;
      let normalized :=
        str_of_float
          (round (div (mul amount (float_of_int multiplier)) (float_of_int mbits)) 3) in
      rate <- lift (index line 5) ;;
      on_meta (fun d => set_data (data d ++ [Sample temp_type [marker; normalized; rate]]) d)
  end.

(** The body of [for i in meta] *)
Definition meta_line (i : string) : M frame unit :=
  fr <- get ;;
  (if contains "[ ID]" i && bool_decide (fields (meta_dict fr) = None)
   then on_meta (set_fields (Some (slice (words i) 2 5)))
   else ret tt) ;;
  if startswith i "[SUM]" then sum_line i else ret tt.

(** The body of [for idx in range(len(data_list))], on the one
    descriptor of the list. *)
Definition collect (meta_dict0 : descriptor) : result unit * descriptor :=
  match _get_data (logfile meta_dict0) with
  | Raise e => (Raise e, meta_dict0)
  | Ok meta =>
      let d := set_data [] meta_dict0 in
      let meta :=
        match last_index d with
        | Some marker =>
            if bool_decide (marker ∈ meta)
            then slice_from meta (position marker meta + 1)
            else meta
        | None => meta
        end in
      match for_each meta meta_line (Frame d None) with
      | (Ok _, fr) => (Ok tt, set_last_index (last fr) (meta_dict fr))
      | (Raise e, fr) => (Raise e, meta_dict fr)
      end
  end.

(** The wrapper keeps the descriptor lists; the descriptor is the
    caller's object, mutated in place. *)
Record GenericWrapper : Type := Wrapper {
  iperf_server_data : option (list descriptor);
  iperf_client_data : option (list descriptor)
}.

Definition collect_logs (tag : string) (iperf_data : descriptor)
  : M GenericWrapper unit := fun self =>
  if String.eqb tag "client" then
    let '(r, d) := collect iperf_data in
    (r, Wrapper (iperf_server_data self) (Some [d]))
  else if String.eqb tag "server" then
    let '(r, d) := collect iperf_data in
    (r, Wrapper (Some [d]) (iperf_client_data self))
  else (Raise ValueError, self).
End CollectLogs.

(** The float nearest to [n / d] for integers [n >= 0] and [d > 0]. *)
Definition nearest_float (n d : Z) : float :=
  match n, d with
  | Zpos p, Zpos q => div (S754_finite false p 0) (S754_finite false q 0)
  | _, _ => S754_zero false
  end.

(** A reader of plain decimal texts, [digits] or [digits.digits], which
    [float] reads as the nearest float; every other text is refused
    here.  It serves to run [collect_logs] on sample lines. *)
Definition decimal_float (text : string) : result float :=
  match split "." text with
  | [whole] =>
      if isdigit whole && all_chars is_decimal whole
      then Ok (nearest_float (digits_value 0 whole) 1) else Raise ValueError
  | [whole; fraction] =>
      if isdigit (whole +:+ fraction) && all_chars is_decimal (whole +:+ fraction)
      then Ok (nearest_float (digits_value 0 (whole +:+ fraction))
                             (10 ^ Z.of_nat (String.length fraction)))
      else Raise ValueError
  | _ => Raise ValueError
  end.

End influx_wrapper.


(* ===================================================================== *)

(** * Vocabulary of the properties                                        *)
(* ===================================================================== *)

(** ** Address pools *)

Section PoolVocabulary.
Import utils.

(** The addresses [a, a+1, ..., a+k-1]. *)
Definition consecutive (a : IPv4Address) (k : nat) : list IPv4Address :=
  (fun i => (a + Z.of_nat i)%Z) <$> seq 0 k.

End PoolVocabulary.

(** ** Attempts of [retry] *)

Section RetryVocabulary.
Import utils.
Context {S : Type}.
Variable func_name : M S value.

(** A returned value counts as a failure when it is falsy or is the text
    [False]. *)
Definition is_failure (v : value) : bool :=
  negb (truthy v) || negb (ne_str v "False").

Definition failing (r : result value) : bool :=
  match r with
  | Ok v => is_failure v
  | Raise _ => false
  end.

(** The callee's state after [i] calls, and what call number [i]
    (counted from 0) answers. *)
Fixpoint state_after (i : nat) (s : S) : S :=
  match i with
  | O => s
  | Datatypes.S i' => state_after i' (snd (func_name s))
  end.

Definition outcome (i : nat) (s : S) : result value :=
  fst (func_name (state_after i s)).

(** The number of calls a log records. *)
Fixpoint calls (l : list effect) : nat :=
  match l with
  | [] => 0
  | Called :: l' => Datatypes.S (calls l')
  | Slept _ :: l' => calls l'
  end.

(** [k] failed attempts, each followed by its sleep, then a last call. *)
Fixpoint attempts (k : nat) : list effect :=
  match k with
  | O => [Called]
  | Datatypes.S k' => Called :: Slept 5 :: attempts k'
  end.

End RetryVocabulary.

(** ** Test identifiers *)

(** No character of [s] is [c]. *)
Definition lacks (c : ascii) (s : string) : bool :=
  all_chars (fun x => negb (Ascii.eqb c x)) s.



(** ** Nested mappings *)

(** The search as the specification words it: depth first, into mapping
    values only, entries in iteration order, the first entry whose key
    is [key]. *)
Fixpoint first_match (key : string) (v : value) {struct v} : option value :=
  match v with
  | VDict d =>
      (fix items (l : list (string * value)) : option value :=
         match l with
         | [] => None
         | (name, value) :: rest =>
             if String.eqb name key then Some value
             else match first_match key value with
                  | Some found => Some found
                  | None => items rest
                  end
         end) d
  | _ => None
  end.


(** ** The WAN driver's flag *)

Section FlagVocabulary.
Import linux_wan.
Context {console : Type}.

#[local] Abbreviation wan := (@LinuxWAN console).

(** A computation that never sets the flag: where it is set afterwards,
    it was set before. *)
Definition never_sets {A} (c : M wan A) : Prop :=
  forall self, _wan_dhcp_server (snd (c self)) = true -> _wan_dhcp_server self = true.

End FlagVocabulary.

(** ** The hosts view of a DNS book *)

Section HostsVocabulary.
Import utils networking.

(** The synthetic addresses number [first .. first + n - 1] on the base
    [aux], as the texts the hosts view stores. *)
Definition synthetic (aux : IPv4Address) (first n : nat) : list address :=
  (fun i => Text (str_ipv4 (aux + Z.of_nat i)%Z)) <$> seq first n.

(** The state in which the two loops start: the hosts views cut to the
    reachable entries, everything else as before. *)
Definition cut (reachable_ipv4 reachable_ipv6 : Z) (self : DNS) : DNS :=
  let name := primary_name self in
  let '(l4, d4) := item (hosts_v4 self) name in
  let '(l6, d6) := item (hosts_v6 self) name in
  mkDNS (auxv4 self) (auxv6 self) (_device_name self) (dnsv4 self) (dnsv6 self)
        (<[name := slice_to l4 reachable_ipv4]> d4)
        (<[name := slice_to l6 reachable_ipv6]> d6).

End HostsVocabulary.

(** ** Throughput samples *)

Section SampleVocabulary.
Import influx_wrapper.
Import QArith Qabs Qpower.

(** The number a float stands for, as a fraction: the mantissa times a
    power of two, with its sign.  A zero stands for 0; an infinity and
    NaN stand for no number and are given 0 here. *)
Definition exact (x : float) : Q :=
  match x with
  | S754_finite s m e => ((if s then -1 else 1) * inject_Z (Zpos m) * 2 ^ e)%Q
  | _ => 0%Q
  end.

(** [k] is the whole number nearest to [q], and the even one of the two
    when [q] lies half-way between them. *)
Definition nearest_integer (q : Q) (k : Z) : Prop :=
  (Qabs (q - inject_Z k) <= 1 # 2)%Q /\
  ((Qabs (q - inject_Z k) == 1 # 2)%Q -> Z.even k = true).

(** The float [x] with the sign [s]. *)
Definition with_sign (s : bool) (x : float) : float :=
  match x with
  | S754_zero _ => S754_zero s
  | S754_infinity _ => S754_infinity s
  | S754_finite _ m e => S754_finite s m e
  | S754_nan => S754_nan
  end.

(** [v] is [x] rounded to [n] decimal places.  For a float [x] that
    stands for a number other than zero, [v] is the float nearest to the
    decimal [k / 10^n], with the sign of [x], where [k] is the whole
    number nearest to [x * 10^n]: so the decimal is within half a unit
    of its last place of [x], and a half-way case goes to the even
    digit.  A zero, an infinity and NaN are their own rounding. *)
Definition rounded_to (n : Z) (x v : float) : Prop :=
  match x with
  | S754_finite s _ _ =>
      exists k : Z,
        nearest_integer (exact x * inject_Z (10 ^ n)) k /\
        v = with_sign s (nearest_float (Z.abs k) (10 ^ n))
  | _ => v = x
  end.

End SampleVocabulary.

(** ** The operator's terminal *)

Section TerminalVocabulary.
Import core.

(** An event other than the start of a console session. *)
Definition quiet (e : event) : bool :=
  match e with
  | Session _ _ => false
  | _ => true
  end.

(** The device names in the order of the table. *)
Definition listed (devices_dict : gmap string BoardfarmDevice) : list string :=
  sorted (fst <$> map_to_list devices_dict).

(** The number of lines the operator has still to type. *)
Definition pending (t : terminal) : nat := length (stdin t).

End TerminalVocabulary.

(** ** Attempts of [retry_on_exception] *)

Section RetryOnExceptionVocabulary.
Import utils.
Context {S : Type}.
Variable method : M S value.

(** An answer that is an exception. *)
Definition raising {A} (r : result A) : bool :=
  match r with
  | Ok _ => false
  | Raise _ => true
  end.

(** The number of calls a journal records. *)
Fixpoint invocations (l : list step) : nat :=
  match l with
  | [] => 0
  | Invoked :: l' => Datatypes.S (invocations l')
  | _ :: l' => invocations l'
  end.

(** The journal of [k] attempts that raise, each with its debug record
    numbered from [re_try] on and its sleep, and of the call after
    them. *)
Fixpoint trials (tout re_try : Z) (k : nat) (s : S) : list step :=
  match k with
  | O => [Invoked]
  | Datatypes.S k' =>
      match method s with
      | (Raise exc, s') =>
          Invoked :: Debugged re_try exc :: Paused tout :: trials tout (re_try + 1) k' s'
      | (Ok _, _) => [Invoked]
      end
  end.

End RetryOnExceptionVocabulary.

(** ** Bindings of a nested mapping *)

(** [found] is bound to [key] in the mapping [v] or in a mapping reached
    from it through mapping values. *)
Inductive binds (key : string) (found : value) : value -> Prop :=
| binds_here d : In (key, found) d -> binds key found (VDict d)
| binds_deeper d name inner :
    In (name, inner) d -> binds key found inner -> binds key found (VDict d).

(** [v] is a mapping. *)
Definition is_dict (v : value) : bool :=
  match v with VDict _ => true | _ => false end.

(** [d.get(key)] on the items of a mapping. *)
Fixpoint dict_get (key : string) (d : list (string * value)) : value :=
  match d with
  | [] => VNone
  | (name, v) :: rest => if String.eqb name key then v else dict_get key rest
  end.

(** ** Console transcripts *)

Section TranscriptVocabulary.
Import networking.

(** What a console is asked to do. *)
Inductive action : Type :=
| Executed (command : string) (timeout : Z)
| Sent (line : string)
| Expected (patterns : list pattern) (timeout : Z)
| ExpectedExact (patterns : list pattern) (timeout : Z).

(** A console together with the record of what it was asked, in order. *)
Record recorded (console : Type) : Type :=
  Recorded { device : console; transcript : list action }.
Arguments Recorded {console} device transcript.
Arguments device {console} r.
Arguments transcript {console} r.

(** The operation [c] of the console, with its entry in the record. *)
Definition record {console A} (a : action) (c : M console A) : M (recorded console) A :=
  fun r => let '(x, s) := c (device r) in (x, Recorded s (transcript r ++ [a])).

#[export] Instance recorded_console {console : Type} `{!_LinuxConsole console}
  : _LinuxConsole (recorded console) := {|
  execute_command command timeout :=
    record (Executed command timeout) (execute_command command timeout);
  sendline line := record (Sent line) (sendline line);
  expect patterns timeout := record (Expected patterns timeout) (expect patterns timeout);
  expect_exact patterns timeout :=
    record (ExpectedExact patterns timeout) (expect_exact patterns timeout)
|}.

End TranscriptVocabulary.

Arguments Recorded {console} device transcript.
Arguments device {console} r.
Arguments transcript {console} r.

(** ** Drop rules *)

Section DropRuleVocabulary.
Import networking.
Context {console : Type} `{!_LinuxConsole console}.
Variable host_not_found : string -> string -> bool.

(** What checking for a drop rule and inserting it where it is missing
    comes to on a recorded console, by the answer to the check. *)
Definition drop_rule_outcome (check insertion valid_ip : string) (r : recorded console)
  : result unit * recorded console :=
  match execute_command check (-1) (device r) with
  | (Raise e, c1) => (Raise e, Recorded c1 (transcript r ++ [Executed check (-1)]))
  | (Ok output, c1) =>
      if host_not_found valid_ip output
      then (Raise ValueError, Recorded c1 (transcript r ++ [Executed check (-1)]))
      else if contains "Bad rule" output
      then match execute_command insertion (-1) c1 with
           | (Ok _, c2) =>
               (Ok tt, Recorded c2 (transcript r ++ [Executed check (-1);
                                                      Executed insertion (-1)]))
           | (Raise e, c2) =>
               (Raise e, Recorded c2 (transcript r ++ [Executed check (-1);
                                                        Executed insertion (-1)]))
           end
      else (Ok tt, Recorded c1 (transcript r ++ [Executed check (-1)]))
  end.

End DropRuleVocabulary.

(** ** The IPv6 side of the hosts view, and what a call leaves alone *)

Section HostsVocabularyV6.
Import utils networking.
Variable str_ipv6 : IPv6Address -> string.

(** The synthetic IPv6 addresses number [first .. first + n - 1] on the
    base [aux], as the texts the hosts view stores. *)
Definition synthetic_v6 (aux : IPv6Address) (first n : nat) : list address :=
  (fun i => Text (str_ipv6 (aux + Z.of_nat i)%Z)) <$> seq first n.

(** Two states of a book that differ at most in the hosts-view entries
    of [name]. *)
Definition same_but_hosts_of (name : string) (a b : DNS) : Prop :=
  auxv4 a = auxv4 b /\ auxv6 a = auxv6 b /\ _device_name a = _device_name b /\
  dnsv4 a = dnsv4 b /\ dnsv6 a = dnsv6 b /\
  forall other, other <> name ->
    hosts_v4 a !! other = hosts_v4 b !! other /\
    hosts_v6 a !! other = hosts_v6 b !! other.

End HostsVocabularyV6.

(** ** The settings of the WAN driver *)

Section SettingsVocabulary.
Import linux_wan.
Context {console : Type}.

#[local] Abbreviation wan := (@LinuxWAN console).

(** Two states of the driver that differ at most in the console. *)
Definition same_settings (a b : wan) : Prop :=
  _static_route a = _static_route b /\ _wan_dhcp a = _wan_dhcp b /\
  _wan_no_eth0 a = _wan_no_eth0 b /\ _wan_dhcp_server a = _wan_dhcp_server b /\
  _wan_dhcpv6 a = _wan_dhcpv6 b /\ _config a = _config b.

(** A computation that changes nothing but the console, however it
    ends. *)
Definition keeps_settings {A} (c : M wan A) : Prop :=
  forall self, same_settings (snd (c self)) self.

(** A static-route directive, and the route it asks for. *)
Definition is_route (opt : string) : bool := startswith opt "wan-static-route:".

Definition route_of (opt : string) : string :=
  replace "-" " via " (replace "wan-static-route:" "" opt).

End SettingsVocabulary.

(** ** The DNS check of the WAN driver *)

Section DnsCheckVocabulary.
Import linux_wan.
Context {console : Type}.
Variable is_ipv6 : string -> bool.
Variable ping : string -> Z -> M console bool.

(** The answers of the pings of the addresses, two packets each, in
    order. *)
Fixpoint ping_each (addresses : list string) : M console (list bool) :=
  match addresses with
  | [] => ret []
  | ip_address :: rest =>
      answered <- ping ip_address 2 ;;
      answers <- ping_each rest ;;
      ret (answered :: answers)
  end.

(** The number of addresses of a family, IPv6 or not, that answered, or
    that did not. *)
Definition measured (addresses : list string) (answers : list bool)
    (ipv6 answered : bool) : Z :=
  Z.of_nat (length (filter (fun '(ip_address, answer) =>
                              Bool.eqb (is_ipv6 ip_address) ipv6
                              && Bool.eqb answer answered)
                           (zip addresses answers))).

(** The Python value [v] is the number [n]: the [int] [n], or [True]
    for 1 and [False] for 0. *)
Definition is_number (v : value) (n : Z) : Prop :=
  match v with
  | VInt z => z = n
  | VBool b => (if b then 1%Z else 0%Z) = n
  | _ => False
  end.

(** The request, where it names a count for the family and the status,
    names the number [n]. *)
Definition agrees (acs_server_config : gmap string (gmap string value))
    (ip_version status : string) (n : Z) : Prop :=
  forall requested wanted,
    acs_server_config !! ip_version = Some requested ->
    requested !! status = Some wanted ->
    is_number wanted n.

End DnsCheckVocabulary.

(** ** Frames of [collect_logs] *)

Section FrameVocabulary.
Import influx_wrapper.

(** A frame with the [last_index] entry of its descriptor replaced; the
    loop over the lines never reads that entry. *)
Definition relabel (v : option string) (fr : frame) : frame :=
  Frame (set_last_index v (meta_dict fr)) (last fr).

(** A line that is not a summary line. *)
Definition no_summary (i : string) : bool := negb (startswith i "[SUM]").

End FrameVocabulary.

(* ===================================================================== *)

(** * Sample inputs                                                       *)
(* ===================================================================== *)

(** A callee that counts its calls and answers [False] twice, then
    [True]. *)
Definition third_time_lucky : M nat value :=
  fun count => (Ok (VBool (2 <=? count)%nat), Datatypes.S count).

(** A console that answers every command with the same listing, and a
    parser that keeps the text. *)
Definition echo_console : string -> M unit string :=
  fun _ c => (Ok "Chain INPUT (policy ACCEPT)", c).

(** The book of the specification's example: device [wan] at 10.0.0.1
    with the auxiliary address 10.0.0.100. *)
Definition wan_book : networking.DNS :=
  networking.init "wan" (Some "10.0.0.1") None (Some 167772260%Z) None None.

(** [str(x)] for a float that is a whole number below 10^16: its digits
    and [.0]; the empty text stands in for every other float.  It serves
    to run [collect_logs] on sample lines. *)
Definition str_of_whole_float (x : influx_wrapper.float) : string :=
  match x with
  | S754_zero s => if s then "-0.0" else "0.0"
  | S754_finite s m e =>
      let n := if (0 <=? e)%Z then (Zpos m * 2 ^ e)%Z else (Zpos m / 2 ^ (- e))%Z in
      if ((0 <=? e) || (Zpos m mod 2 ^ (- e) =? 0))%Z && (n <? 10 ^ 16)%Z
      then (if s then "-" else "") +:+ pretty n +:+ ".0" else ""
  | _ => ""
  end.

(** A summary line of an iperf log: 8 MBytes in ten seconds. *)
Definition eight_mbytes : string := "[SUM]  0.0-10.0 sec  8 MBytes  6.71 Mbits/sec".




Definition fresh_frame : influx_wrapper.frame :=
  influx_wrapper.Frame (influx_wrapper.Descriptor "iperf.log" None None []) None.

(** A bench with a board of two consoles and a WAN of one. *)
Definition bench : gmap string core.BoardfarmDevice :=
  <["wan" := core.Device "debian_wan" {["wan"]}]>
    (<["board" := core.Device "cpe" {["arm"; "atom"]}]> ∅).


(** A method that counts its calls and raises [KeyError] twice, then
    returns [True]. *)
Definition flaky : M nat value :=
  fun count => (if (2 <=? count)%nat then Ok (VBool true) else Raise KeyError,
                Datatypes.S count).

(** A console that plays back what a session showed: the outputs of the
    commands and the indexes of the matches, in order; when they are
    used up, every output is empty and every match is the first
    pattern. *)
Record playback : Type := Playback { outputs : list string; matches : list Z }.

Definition next_output : M playback string := fun p =>
  match outputs p with
  | [] => (Ok "", p)
  | output :: rest => (Ok output, Playback rest (matches p))
  end.

Definition next_match : M playback Z := fun p =>
  match matches p with
  | [] => (Ok 0%Z, p)
  | i :: rest => (Ok i, Playback (outputs p) rest)
  end.

#[export] Instance playback_console : networking._LinuxConsole playback := {|
  networking.execute_command _ _ := next_output;
  networking.sendline _ := ret tt;
  networking.expect _ _ := next_match;
  networking.expect_exact _ _ := next_match
|}.

(** A parser that puts every non-empty line of a listing into the chain
    [INPUT]. *)
Definition input_chain (output : string) : result (gmap string (list string)) :=
  Ok {[ "INPUT" := filter (fun line => line ≠ "") (split (String (ascii_of_nat 10) EmptyString) output) ]}.

(** The book of a device with an address and an auxiliary address of
    each family: 10.0.0.1 and 10.0.0.100, 2001:db8::1 and 2001:db8::100. *)
Definition dual_book : networking.DNS :=
  networking.init "wan" (Some "10.0.0.1") (Some "2001:db8::1")
    (Some 167772260%Z) (Some 42540766411282592856903984951653826816%Z) None.

(** A WAN configured as a DHCP client without [eth0] and with one
    static route, on the console that answers every command alike. *)
Definition wan_with_options : @linux_wan.LinuxWAN unit :=
  linux_wan.init
    {[ "options" := "wan-dhcp-client, wan-no-eth0,wan-static-route:10.0.0.0/24-10.0.0.1" ]}
    tt.

(** A resolver of one IPv4 and one IPv6 address, and a ping that only
    the IPv4 address answers; texts with a colon count as IPv6. *)
Definition two_addresses (output : string) : result (list string) :=
  Ok ["10.0.0.5"; "2001:db8::5"].

Definition has_colon (ip_address : string) : bool := contains ":" ip_address.

Definition ping_ipv4_only (ip_address : string) (ping_count : Z) : M playback bool :=
  ret (negb (has_colon ip_address)).

(** The bench with a third device, whose name is the exit code of the
    shell. *)
Definition bench_with_q : gmap string core.BoardfarmDevice :=
  <["q" := core.Device "debian_lan" {["lan"]}]> bench.

(** An iperf log read twice: the lines of the first read, with their
    summary line, and the lines that came after it. *)
Definition first_read : list string :=
  ["[ ID] Interval Transfer Bandwidth"; "[SUM]  0.0-1.0 sec  8 MBytes  67.1 Mbits/sec"].

Definition later_lines : list string :=
  ["[SUM]  1.0-2.0 sec  4 MBytes  33.5 Mbits/sec"].

(* ===================================================================== *)
(** * Properties                                                          *)
(* ===================================================================== *)

(** ** [ip_pool_to_list] *)

Section IpPool.
Import utils.
Local Open Scope Z_scope.

(** One round of the [while] loop. *)
Lemma ip_pool_to_list_unfold start_ip end_ip :
  ip_pool_to_list start_ip end_ip =
  if start_ip <=? end_ip then
    match ipv4_add end_ip 1 with
    | Raise e => Raise e
    | Ok bound =>
        if negb (start_ip =? bound) then
          match ipv4_add start_ip 1 with
          | Raise e => Raise e
          | Ok next =>
              match ip_pool_to_list next end_ip with
              | Raise e => Raise e
              | Ok ip_list => Ok (start_ip :: ip_list)
              end
          end
        else Ok []
    end
  else Ok [].
Proof.
  simp ip_pool_to_list.
  generalize (inspect (start_ip <=? end_ip)). intros [b Hb].
  pose proof Hb as Hle.
  destruct b; simp ip_pool_to_list; rewrite Hle; [|reflexivity].
  destruct (ipv4_add end_ip 1) as [bound|e]; simp ip_pool_to_list; [|reflexivity].
  destruct (negb (start_ip =? bound)); simp ip_pool_to_list; [|reflexivity].
  generalize (inspect (ipv4_add start_ip 1)). intros [r Hn].
  pose proof Hn as Hnext.
  destruct r as [next|e]; simp ip_pool_to_list; rewrite Hnext; [|reflexivity].
  rewrite <- ip_pool_to_list_equation_1.
  destruct (ip_pool_to_list next end_ip); reflexivity.
Qed.

Lemma ipv4_add_in_range a n :
  0 <= a + n <= IPV4_ALL_ONES -> ipv4_add a n = Ok (a + n).
Proof.
  intros H. unfold ipv4_add.
  destruct (a + n <? 0) eqn:E1; [lia|].
  destruct (IPV4_ALL_ONES <? a + n) eqn:E2; [lia|]. reflexivity.
Qed.

Lemma ipv4_add_overflow a n :
  IPV4_ALL_ONES < a + n -> ipv4_add a n = Raise AddressValueError.
Proof.
  intros H. unfold ipv4_add.
  destruct (IPV4_ALL_ONES <? a + n) eqn:E2; [|lia].
  rewrite orb_true_r. reflexivity.
Qed.

Lemma consecutive_S a k : consecutive a (S k) = a :: consecutive (a + 1) k.
Proof.
  unfold consecutive. simpl. rewrite Z.add_0_r. f_equal.
  rewrite <- seq_shift, <- !list_fmap_compose.
  apply list_fmap_ext. intros _ i _. simpl. lia.
Qed.

(** Below the last address of the space the pool is listed in full, its
    end included. *)
Lemma ip_pool_to_list_inclusive (k : nat) : forall a,
  0 <= a -> a + Z.of_nat k < IPV4_ALL_ONES ->
  ip_pool_to_list a (a + Z.of_nat k) = Ok (consecutive a (S k)).
Proof.
  induction k as [|k IH]; intros a Ha Hk; rewrite ip_pool_to_list_unfold.
  - replace (a + Z.of_nat 0) with a by lia.
    rewrite Z.leb_refl, (ipv4_add_in_range a 1) by lia.
    rewrite (proj2 (Z.eqb_neq a (a + 1))) by lia. simpl.
    rewrite ip_pool_to_list_unfold.
    rewrite (proj2 (Z.leb_gt (a + 1) a)) by lia.
    rewrite consecutive_S. reflexivity.
  - rewrite (proj2 (Z.leb_le a _)) by lia.
    rewrite (ipv4_add_in_range (a + Z.of_nat (S k)) 1) by lia.
    rewrite (proj2 (Z.eqb_neq a _)) by lia. simpl negb. cbv iota.
    rewrite (ipv4_add_in_range a 1) by lia.
    replace (a + Z.of_nat (S k)) with (a + 1 + Z.of_nat k) by lia.
    rewrite IH by lia. rewrite (consecutive_S a (S k)). reflexivity.
Qed.

(** A pool whose start lies after its end is empty. *)
Lemma ip_pool_to_list_empty a b : b < a -> ip_pool_to_list a b = Ok [].
Proof.
  intros H. rewrite ip_pool_to_list_unfold.
  rewrite (proj2 (Z.leb_gt a b)) by lia. reflexivity.
Qed.

(** A pool that ends at the last address of the space is never listed:
    the bound [end_ip + 1] of the loop is not an address. *)
Lemma ip_pool_to_list_last_address a :
  a <= IPV4_ALL_ONES ->
  ip_pool_to_list a IPV4_ALL_ONES = Raise AddressValueError.
Proof.
  intros H. rewrite ip_pool_to_list_unfold.
  rewrite (proj2 (Z.leb_le a _)) by lia.
  rewrite ipv4_add_overflow by lia. reflexivity.
Qed.

(** C3.  At [a = 255.255.255.255] and [k = 0] the pool [a .. a+k] is made
    of valid addresses, and [ip_pool_to_list(a, a)] raises
    [AddressValueError] where the one-element list [[a]] is due. *)
Theorem ip_pool_to_list_broadcast_raises :
  valid_ipv4 4294967295 /\
  ip_pool_to_list 4294967295 4294967295 = Raise AddressValueError /\
  ip_pool_to_list 4294967295 4294967295 <> Ok [4294967295].
Proof.
  split; [unfold valid_ipv4, IPV4_ALL_ONES; lia|].
  assert (E : ip_pool_to_list 4294967295 4294967295 = Raise AddressValueError)
    by (apply (ip_pool_to_list_last_address 4294967295); unfold IPV4_ALL_ONES; lia).
  split; [exact E | rewrite E; discriminate].
Qed.

End IpPool.

(** ** [retry] *)

Section RetrySpec.
Import utils.
Context {S : Type}.
Variable func_name : M S value.

Lemma calls_attempts k : calls (attempts k) = Datatypes.S k.
Proof. induction k as [|k IH]; simpl; [reflexivity | rewrite IH; reflexivity]. Qed.

Lemma success_test v : truthy v && ne_str v "False" = negb (is_failure v).
Proof. unfold is_failure. destruct (truthy v), (ne_str v "False"); reflexivity. Qed.

(** What the loop with [n] guarded rounds does from any world: it stops
    at the first attempt that raises or succeeds, and at the latest
    at the unguarded call that follows the rounds. *)
Lemma retry_loop_spec (n : nat) : forall w,
  exists k : nat,
    k <= n /\
    retry_loop func_name n w =
      (outcome func_name k (callee w),
       World (state_after func_name (Datatypes.S k) (callee w)) (log w ++ attempts k)) /\
    (forall i, i < k -> failing (outcome func_name i (callee w)) = true) /\
    (k < n -> failing (outcome func_name k (callee w)) = false).
Proof.
  induction n as [|n IH]; intros [s l].
  - exists 0. simpl. unfold call, outcome. simpl.
    destruct (func_name s) as [r s']. simpl.
    split; [lia|]. split; [reflexivity|]. split; intros; lia.
  - simpl retry_loop. unfold bind at 1. unfold call at 1. simpl callee. simpl log.
    destruct (func_name s) as [r s'] eqn:Hcall.
    destruct r as [v|e].
    + rewrite success_test. destruct (is_failure v) eqn:Hv; simpl negb; cbv iota.
      * destruct (IH (World s' ((l ++ [Called]) ++ [Slept 5])))
          as (k & Hk & Hrun & Hbefore & Hlast).
        exists (Datatypes.S k). simpl callee in *. simpl log in *.
        split; [lia|]. split; [|split].
        -- unfold bind, sleep, modify. simpl. rewrite Hrun.
           unfold outcome. simpl. rewrite Hcall. simpl.
           rewrite <- !app_assoc. reflexivity.
        -- intros [|i] Hi.
           ++ unfold outcome. simpl. rewrite Hcall. exact Hv.
           ++ specialize (Hbefore i ltac:(lia)). unfold outcome in *. simpl.
              rewrite Hcall. exact Hbefore.
        -- intros Hlt. specialize (Hlast ltac:(lia)). unfold outcome in *. simpl.
           rewrite Hcall. exact Hlast.
      * exists 0. unfold ret, outcome. simpl. rewrite Hcall. simpl.
        split; [lia|]. split; [reflexivity|]. split; [intros; lia|].
        intros _; exact Hv.
    + exists 0. unfold outcome. simpl. rewrite Hcall. simpl.
      split; [lia|]. split; [reflexivity|]. split; [intros; lia|].
      reflexivity.
Qed.

Lemma is_failure_iff v :
  is_failure v = true <-> truthy v = false \/ v = VStr "False".
Proof.
  unfold is_failure. split.
  - intros H. apply orb_true_iff in H as [H|H].
    + left. apply negb_true_iff. exact H.
    + right. destruct v; try discriminate. simpl in H.
      apply negb_true_iff, negb_false_iff, String.eqb_eq in H. subst. reflexivity.
  - intros [H| ->]; [rewrite H|]; reflexivity.
Qed.

(** C2.  For [max_retry >= 1], [retry(fn, max_retry)] calls [fn] at
    least once and at most [max_retry] times and returns what the last
    call answered; a value is a failure exactly when it is falsy or the
    text [False]; the first attempt among the first [max_retry - 1]
    whose value is not a failure ends the calls and its value is
    returned; and when the first [max_retry - 1] attempts all fail, call
    number [max_retry] is made and its answer returned whatever it is. *)
Theorem retry_calls_until_success (max_retry : Z) (s : S) :
  (1 <= max_retry)%Z ->
  let run := retry func_name max_retry (World s []) in
  let n := calls (log (snd run)) in
  ((1 <= Z.of_nat n <= max_retry)%Z /\ fst run = outcome func_name (n - 1) s) /\
  (forall v, is_failure v = true <-> truthy v = false \/ v = VStr "False") /\
  (forall j v, (Z.of_nat j < max_retry - 1)%Z ->
     (forall i, i < j -> failing (outcome func_name i s) = true) ->
     outcome func_name j s = Ok v -> is_failure v = false ->
     n = Datatypes.S j /\ fst run = Ok v) /\
  ((forall i, (Z.of_nat i < max_retry - 1)%Z -> failing (outcome func_name i s) = true) ->
     Z.of_nat n = max_retry /\ fst run = outcome func_name (Z.to_nat (max_retry - 1)) s).
Proof.
  intros Hmax run n.
  destruct (retry_loop_spec (Z.to_nat (max_retry - 1)) (World s []))
    as (k & Hk & Hrun & Hbefore & Hlast).
  simpl callee in *. simpl log in *.
  assert (Hn : n = Datatypes.S k).
  { subst n run. unfold retry. rewrite Hrun. simpl. apply calls_attempts. }
  assert (Hres : fst run = outcome func_name k s).
  { subst run. unfold retry. rewrite Hrun. reflexivity. }
  split; [|split; [|split]].
  - rewrite Hn, Hres. split; [lia|]. f_equal. lia.
  - apply is_failure_iff.
  - intros j v Hj Hall Hout Hv.
    assert (k = j) as ->.
    { destruct (Nat.lt_trichotomy k j) as [Hlt|[Heq|Hgt]]; [|exact Heq|].
      - specialize (Hall k Hlt). rewrite Hlast in Hall by lia. discriminate.
      - specialize (Hbefore j Hgt). rewrite Hout in Hbefore. simpl in Hbefore.
        congruence. }
    split; [exact Hn | rewrite Hres; exact Hout].
  - intros Hall.
    assert (k = Z.to_nat (max_retry - 1)) as ->.
    { destruct (Nat.eq_dec k (Z.to_nat (max_retry - 1))) as [E|E]; [exact E|].
      specialize (Hall k ltac:(lia)). rewrite Hlast in Hall by lia. discriminate. }
    split; [lia | exact Hres].
Qed.

End RetrySpec.

(** [retry(fn, 3)] on that callee: three calls, the third answer
    returned. *)
Lemma retry_third_time_lucky :
  (1 <= 3)%Z /\
  (Z.of_nat (calls (utils.log (snd (utils.retry third_time_lucky 3 (utils.World 0 []))))) = 3%Z /\
   fst (utils.retry third_time_lucky 3 (utils.World 0 [])) = Ok (VBool true)).
Proof.
  split; [lia|].
  apply (retry_calls_until_success third_time_lucky 3 0); [lia|].
  intros [|[|i]] Hi; [reflexivity | reflexivity | lia].
Defined.

(** ** [get_pytest_name] *)

Section PytestName.
Import utils.

Lemma append_cons x (a b : string) : String x a +:+ b = String x (a +:+ b).
Proof. reflexivity. Qed.

Lemma append_nil (b : string) : "" +:+ b = b.
Proof. reflexivity. Qed.





Lemma prefix_nil s : String.prefix "" s = true.
Proof. destruct s; reflexivity. Qed.

Lemma prefix_cons a s1 b s2 :
  String.prefix (String a s1) (String b s2) = Ascii.eqb a b && String.prefix s1 s2.
Proof.
  cbn [String.prefix].
  destruct (ascii_dec a b) as [->|Hne].
  - rewrite Ascii.eqb_refl. reflexivity.
  - apply Ascii.eqb_neq in Hne. rewrite Hne. reflexivity.
Qed.








End PytestName.

(** ** [get_value_from_dict] *)

Section NestedLookup.
Import utils.

Lemma get_value_from_cons key name value rest :
  get_value_from key (VDict ((name, value) :: rest)) =
  if String.eqb name key then value
  else match value with
       | VDict _ =>
           let return_value := get_value_from key value in
           if is_none return_value then get_value_from key (VDict rest)
           else return_value
       | _ => get_value_from key (VDict rest)
       end.
Proof. reflexivity. Qed.



Lemma first_match_not_dict key v :
  (forall d, v <> VDict d) -> first_match key v = None.
Proof. destruct v; intros H; try reflexivity. destruct (H d eq_refl). Qed.




(** A key that occurs nowhere gives [None]. *)
Lemma get_value_from_dict_missing :
  get_value_from_dict "missing" [("a", VInt 1)] = VNone.
Proof. reflexivity. Qed.


End NestedLookup.

(** ** [IptablesFirewall]: the two listings *)

Section FirewallListing.
Import networking.
Context {console rules : Type}.
Variable execute_command : string -> M console string.
Variable ip6tables : string -> result rules.

(** C8.  [get_iptables_list] and [get_ip6tables_list] hand the console
    output to one and the same parser entry point, [ip6tables]: each
    returns that parser's result on its output, so whenever the two
    commands produce equal outputs the two operations return equal
    mappings. *)
Theorem get_iptables_list_same_parser
    (opts extra_opts opts6 extra_opts6 : string) (c4 c6 : console) :
  fst (execute_command ("iptables " +:+ opts +:+ " " +:+ extra_opts) c4) =
  fst (execute_command ("ip6tables " +:+ opts6 +:+ " " +:+ extra_opts6) c6) ->
  fst (get_iptables_list execute_command ip6tables opts extra_opts c4) =
  fst (get_ip6tables_list execute_command ip6tables opts6 extra_opts6 c6) /\
  (forall output,
     fst (execute_command ("iptables " +:+ opts +:+ " " +:+ extra_opts) c4) = Ok output ->
     fst (get_iptables_list execute_command ip6tables opts extra_opts c4) = ip6tables output /\
     fst (get_ip6tables_list execute_command ip6tables opts6 extra_opts6 c6) = ip6tables output).
Proof.
  intros Hsame. unfold get_iptables_list, get_ip6tables_list, bind, lift.
  destruct (execute_command ("iptables " +:+ opts +:+ " " +:+ extra_opts) c4)
    as [r4 c4'].
  destruct (execute_command ("ip6tables " +:+ opts6 +:+ " " +:+ extra_opts6) c6)
    as [r6 c6'].
  simpl in Hsame. subst r6. split.
  - destruct r4; reflexivity.
  - intros output Hout. simpl in Hout. subst r4. split; reflexivity.
Qed.

End FirewallListing.

Lemma get_iptables_list_on_echo_console :
  fst (echo_console ("iptables " +:+ "-L" +:+ " " +:+ "-n") tt) =
  fst (echo_console ("ip6tables " +:+ "-L" +:+ " " +:+ "-n") tt) /\
  fst (networking.get_iptables_list echo_console Ok "-L" "-n" tt) =
  fst (networking.get_ip6tables_list echo_console Ok "-L" "-n" tt).
Proof.
  split; [reflexivity|].
  exact (proj1 (get_iptables_list_same_parser echo_console Ok
                  "-L" "-n" "-L" "-n" tt tt eq_refl)).
Defined.

(** ** [LinuxWAN]: the DHCP-server flag *)

Section DhcpServerFlag.
Import linux_wan.
Context {console : Type}.
Variable execute_command : string -> M console string.
Variable IPv6Interface IPv4Interface : string -> result string.
Variable iface_dut : string.

#[local] Abbreviation wan := (@LinuxWAN console).

Lemma never_sets_ret {A} (a : A) : never_sets (ret a : M wan A).
Proof. intros self H. exact H. Qed.

Lemma never_sets_lift {A} (r : result A) : never_sets (lift r : M wan A).
Proof. intros self H. exact H. Qed.

Lemma never_sets_gets {A} (f : wan -> A) : never_sets (gets f).
Proof. intros self H. exact H. Qed.

Lemma never_sets_bind {A B} (c : M wan A) (k : A -> M wan B) :
  never_sets c -> (forall a, never_sets (k a)) -> never_sets (bind c k).
Proof.
  intros Hc Hk self. unfold bind. specialize (Hc self).
  destruct (c self) as [[a|e] self']; simpl in *.
  - intros H. apply Hc. exact (Hk a self' H).
  - exact Hc.
Qed.

Lemma never_sets_modify (f : wan -> wan) :
  (forall self, _wan_dhcp_server (f self) = true -> _wan_dhcp_server self = true) ->
  never_sets (modify f).
Proof. intros Hf self. exact (Hf self). Qed.

Lemma never_sets_run cmd : never_sets (run execute_command cmd).
Proof.
  intros self. unfold run.
  destruct (execute_command cmd (_console self)) as [r c]. simpl. auto.
Qed.

Lemma never_sets_for_each {A} (l : list A) (body : A -> M wan unit) :
  (forall x, never_sets (body x)) -> never_sets (for_each l body).
Proof.
  intros Hbody. induction l as [|x l IH]; simpl.
  - apply never_sets_ret.
  - apply never_sets_bind; [apply Hbody | intros _; exact IH].
Qed.

Create HintDb flag discriminated.
#[local] Hint Resolve never_sets_ret never_sets_lift never_sets_gets
  never_sets_run : flag.

(** Every directive leaves the flag as it is or clears it. *)
Lemma setup_option_never_sets opt :
  never_sets (setup_option execute_command IPv6Interface IPv4Interface iface_dut opt).
Proof.
  unfold setup_option.
  repeat match goal with
         | |- never_sets (if ?b then _ else _) => destruct b
         | |- never_sets (modify _) => apply never_sets_modify; intros self H; exact H
         | |- never_sets (bind _ _) => apply never_sets_bind; [|intros ?]
         | |- never_sets _ => solve [auto with flag]
         end.
  apply never_sets_modify. intros self H. discriminate H.
Qed.

Lemma setup_route_never_sets route :
  never_sets (setup_route execute_command route).
Proof.
  unfold setup_route.
  repeat (apply never_sets_bind; [|intros ?]); auto with flag.
Qed.

Lemma _setup_wan_never_sets :
  never_sets (_setup_wan execute_command IPv6Interface IPv4Interface iface_dut).
Proof.
  unfold _setup_wan. apply never_sets_bind; [auto with flag|]. intros config.
  destruct (config !! "options") as [text|]; [|auto with flag].
  repeat (apply never_sets_bind; [|intros ?]); auto with flag.
  - apply never_sets_for_each. apply setup_option_never_sets.
  - destruct (negb _); [|auto with flag].
    apply never_sets_for_each. apply setup_route_never_sets.
Qed.

(** C9.  The DHCP-server flag is false at construction; every directive
    of the option grammar leaves it as it is or clears it; and
    [_setup_wan], whatever the configuration and however it ends, leaves
    it false. *)
Theorem wan_dhcp_server_stays_false (config : gmap string string) (c : console) :
  _wan_dhcp_server (init config c) = false /\
  (forall opt self,
     let after := snd (setup_option execute_command IPv6Interface IPv4Interface
                                    iface_dut opt self) in
     _wan_dhcp_server after = _wan_dhcp_server self \/ _wan_dhcp_server after = false) /\
  _wan_dhcp_server
    (snd (_setup_wan execute_command IPv6Interface IPv4Interface iface_dut
                     (init config c))) = false.
Proof.
  split; [reflexivity|]. split.
  - intros opt self after. pose proof (setup_option_never_sets opt self) as H.
    fold after in H. destruct (_wan_dhcp_server after); [left|right]; [|reflexivity].
    symmetry. apply H. reflexivity.
  - pose proof (_setup_wan_never_sets (init config c)) as H.
    destruct (_wan_dhcp_server (snd _)); [|reflexivity].
    specialize (H eq_refl). discriminate H.
Qed.

End DhcpServerFlag.

(** ** [DNS.configure_hosts] *)

Section ConfigureHostsSpec.
Import utils networking.
Variable str_ipv6 : IPv6Address -> string.

Lemma item_append_present (d : book) name l x :
  d !! name = Some l -> item_append d name x = <[name := l ++ [x]]> d.
Proof. intros H. unfold item_append, item. rewrite H. reflexivity. Qed.

(** With an auxiliary address whose offsets stay in the address space,
    the IPv4 loop appends the synthetic addresses in order. *)
Lemma add_unreachable_v4_run name aux (n : nat) : forall (first : nat) self l,
  auxv4 self = Some aux ->
  hosts_v4 self !! name = Some l ->
  (0 <= aux)%Z -> (aux + Z.of_nat first + Z.of_nat n <= IPV4_ALL_ONES)%Z ->
  for_each (Z.of_nat <$> seq first n) (add_unreachable_v4 name) self =
  (Ok tt, with_hosts_v4 (insert name (l ++ synthetic aux (S first) n)) self).
Proof.
  induction n as [|n IH]; intros first self l Haux Hl Hlow Hhigh.
  - simpl. unfold ret, synthetic. simpl. rewrite app_nil_r.
    unfold with_hosts_v4. rewrite insert_id by exact Hl. destruct self; reflexivity.
  - cbn [seq fmap list_fmap for_each].
    unfold bind at 1. unfold add_unreachable_v4 at 1.
    unfold bind, gets, lift, modify. rewrite Haux. cbn [aux_add].
    rewrite ipv4_add_in_range by lia.
    rewrite (IH (S first) _ (l ++ [Text (str_ipv4 (aux + (Z.of_nat first + 1))%Z)]));
      [| exact Haux
       | simpl; rewrite (item_append_present _ _ l) by exact Hl; apply lookup_insert_eq
       | exact Hlow | lia].
    unfold with_hosts_v4. simpl.
    rewrite (item_append_present _ _ l) by exact Hl. rewrite insert_insert_eq.
    unfold synthetic. cbn [seq fmap list_fmap]. rewrite <- app_assoc. simpl.
    replace (aux + Z.of_nat (S first))%Z with (aux + (Z.of_nat first + 1))%Z by lia.
    reflexivity.
Qed.

(** The IPv4 loop leaves the auxiliary addresses alone, however it ends. *)
Lemma add_unreachable_v4_keeps_aux name (l : list Z) : forall self,
  auxv6 (snd (for_each l (add_unreachable_v4 name) self)) = auxv6 self.
Proof.
  induction l as [|val l IH]; intros self; [reflexivity|].
  cbn [for_each]. unfold bind at 1. unfold add_unreachable_v4 at 1.
  unfold bind, gets, lift, modify.
  destruct (aux_add ipv4_add (auxv4 self) (val + 1)) as [ipv4|e]; [|reflexivity].
  rewrite IH. reflexivity.
Qed.

(** Without an auxiliary address the first round of a loop raises. *)
Lemma add_unreachable_v4_no_aux name (u : Z) self :
  auxv4 self = None -> (0 < u)%Z ->
  fst (for_each (range u) (add_unreachable_v4 name) self) = Raise TypeError.
Proof.
  intros Haux Hu. unfold range.
  destruct (Z.to_nat u) as [|n] eqn:Hn; [lia|].
  cbn [seq fmap list_fmap for_each]. unfold bind at 1. unfold add_unreachable_v4 at 1.
  unfold bind, gets, lift. rewrite Haux. reflexivity.
Qed.

Lemma add_unreachable_v6_no_aux name (u : Z) self :
  auxv6 self = None -> (0 < u)%Z ->
  fst (for_each (range u) (add_unreachable_v6 str_ipv6 name) self) = Raise TypeError.
Proof.
  intros Haux Hu. unfold range.
  destruct (Z.to_nat u) as [|n] eqn:Hn; [lia|].
  cbn [seq fmap list_fmap for_each]. unfold bind at 1. unfold add_unreachable_v6 at 1.
  unfold bind, gets, lift. rewrite Haux. reflexivity.
Qed.

Lemma configure_hosts_unfold r4 u4 r6 u6 self :
  configure_hosts str_ipv6 r4 u4 r6 u6 self =
  bind (for_each (range u4) (add_unreachable_v4 (primary_name self)))
       (fun _ => for_each (range u6) (add_unreachable_v6 str_ipv6 (primary_name self)))
       (cut r4 r6 self).
Proof.
  unfold configure_hosts, cut, bind, gets, modify, read_hosts_v4, read_hosts_v6.
  destruct self as [a4 a6 dn d4 d6 h4 h6].
  cbn [hosts_v4 hosts_v6].
  destruct (item h4 (primary_name _)) as [l4 h4'].
  cbn [hosts_v4 hosts_v6 with_hosts_v4 with_hosts_v6 auxv4 auxv6 _device_name
       dnsv4 dnsv6].
  destruct (item h6 (primary_name _)) as [l6 h6']. reflexivity.
Qed.

Lemma cut_hosts_v4 r4 r6 self :
  hosts_v4 (cut r4 r6 self) !! primary_name self =
  Some (slice_to (default [] (hosts_v4 self !! primary_name self)) r4).
Proof.
  unfold cut, item.
  destruct (hosts_v4 self !! primary_name self) as [l4|] eqn:H4;
    destruct (hosts_v6 self !! primary_name self) as [l6|]; simpl;
    rewrite lookup_insert_eq; reflexivity.
Qed.

Lemma cut_aux r4 r6 self :
  auxv4 (cut r4 r6 self) = auxv4 self /\ auxv6 (cut r4 r6 self) = auxv6 self.
Proof.
  unfold cut. destruct (item (hosts_v4 self) _), (item (hosts_v6 self) _).
  split; reflexivity.
Qed.

Lemma slice_to_take {A} (l : list A) (n : Z) :
  (0 <= n)%Z -> slice_to l n = take (Z.to_nat n) l.
Proof.
  intros Hn. unfold slice_to, clamp.
  destruct (n <? 0)%Z eqn:E; [lia|].
  destruct (Nat.le_gt_cases (Z.to_nat n) (length l)) as [Hle|Hgt].
  - rewrite Nat.min_l by exact Hle. reflexivity.
  - rewrite Nat.min_r by lia. rewrite !take_ge by lia. reflexivity.
Qed.

(** An offset that leaves the address space stops the IPv4 loop. *)
Lemma add_unreachable_v4_overflow name aux (n : nat) : forall (first : nat) self,
  auxv4 self = Some aux -> (0 <= aux)%Z ->
  (aux + Z.of_nat first <= IPV4_ALL_ONES)%Z ->
  (IPV4_ALL_ONES < aux + Z.of_nat first + Z.of_nat n)%Z ->
  fst (for_each (Z.of_nat <$> seq first n) (add_unreachable_v4 name) self)
  = Raise AddressValueError.
Proof.
  induction n as [|n IH]; intros first self Haux Hlow Hfirst Hlast; [lia|].
  cbn [seq fmap list_fmap for_each].
  unfold bind at 1. unfold add_unreachable_v4 at 1.
  unfold bind, gets, lift, modify. rewrite Haux. cbn [aux_add].
  destruct (Z_le_gt_dec (aux + (Z.of_nat first + 1)) IPV4_ALL_ONES) as [Hin|Hout].
  - rewrite ipv4_add_in_range by lia.
    apply (IH (S first)); [exact Haux | exact Hlow | lia | lia].
  - rewrite ipv4_add_overflow by lia. reflexivity.
Qed.

(** C4, amended.  For a DNS book with an auxiliary IPv4 address [aux]
    and counts [r >= 0] and [u >= 0]: when [aux + u] is still an IPv4
    address, [configure_hosts(r, u, 0, 0)] succeeds and leaves, as the
    hosts-view IPv4 list of the primary name, the first [r] entries of
    its previous value followed by the [u] synthetic addresses
    [aux + 1, ..., aux + u]; when it is not, the call raises
    [AddressValueError]. *)
Theorem configure_hosts_reachable_then_synthetic
    (self : DNS) (aux : IPv4Address) (r u : Z) :
  auxv4 self = Some aux -> valid_ipv4 aux ->
  (0 <= r)%Z -> (0 <= u)%Z ->
  let previous := default [] (hosts_v4 self !! primary_name self) in
  let run := configure_hosts str_ipv6 r u 0 0 self in
  ((aux + u <= IPV4_ALL_ONES)%Z ->
   fst run = Ok tt /\
   hosts_v4 (snd run) !! primary_name self =
     Some (take (Z.to_nat r) previous ++ synthetic aux 1 (Z.to_nat u))) /\
  ((IPV4_ALL_ONES < aux + u)%Z -> fst run = Raise AddressValueError).
Proof.
  intros Haux [Hlow Hvalid] Hr Hu previous run. subst run.
  rewrite configure_hosts_unfold. unfold bind, range.
  destruct (cut_aux r 0 self) as [Haux4 _].
  split; intros Hhigh.
  - rewrite (add_unreachable_v4_run (primary_name self) aux (Z.to_nat u) 0
               (cut r 0 self) (slice_to previous r));
      [| rewrite Haux4; exact Haux | apply cut_hosts_v4 | exact Hlow | lia].
    simpl. split; [reflexivity|].
    rewrite lookup_insert_eq, slice_to_take by exact Hr. reflexivity.
  - pose proof (add_unreachable_v4_overflow (primary_name self) aux (Z.to_nat u) 0
                  (cut r 0 self) ltac:(rewrite Haux4; exact Haux) Hlow
                  ltac:(simpl; lia) ltac:(lia)) as Hraise.
    destruct (for_each _ _ (cut r 0 self)) as [[|e] s']; simpl in *; congruence.
Qed.

(** C10.  Without an auxiliary IPv4 address a positive [unreachable_ipv4]
    makes [configure_hosts] raise [TypeError], the offset being added to
    [None]; without an auxiliary IPv6 address a positive
    [unreachable_ipv6] makes it raise as well, with [TypeError] whenever
    the IPv4 loop has nothing to do or has an auxiliary address whose
    offsets are addresses; with both unreachable counts 0 the call
    succeeds whatever the auxiliary addresses. *)
Theorem configure_hosts_needs_aux (self : DNS) (r4 u4 r6 u6 : Z) :
  (auxv4 self = None -> (0 < u4)%Z ->
   fst (configure_hosts str_ipv6 r4 u4 r6 u6 self) = Raise TypeError) /\
  (auxv6 self = None -> (0 < u6)%Z ->
   is_ok (fst (configure_hosts str_ipv6 r4 u4 r6 u6 self)) = false /\
   ((u4 <= 0)%Z \/
    (exists aux, auxv4 self = Some aux /\ valid_ipv4 aux /\
                 (aux + u4 <= IPV4_ALL_ONES)%Z) ->
    fst (configure_hosts str_ipv6 r4 u4 r6 u6 self) = Raise TypeError)) /\
  (u4 = 0%Z -> u6 = 0%Z ->
   fst (configure_hosts str_ipv6 r4 u4 r6 u6 self) = Ok tt).
Proof.
  rewrite configure_hosts_unfold.
  destruct (cut_aux r4 r6 self) as [Haux4 Haux6].
  split; [|split].
  - intros Haux Hu. unfold bind.
    pose proof (add_unreachable_v4_no_aux (primary_name self) u4 (cut r4 r6 self)
                  ltac:(rewrite Haux4; exact Haux) Hu) as Hraise.
    destruct (for_each (range u4) _ (cut r4 r6 self)) as [[|e] s']; simpl in *;
      congruence.
  - intros Haux Hu.
    assert (Hsecond : forall s', auxv6 s' = auxv6 (cut r4 r6 self) ->
              fst (for_each (range u6)
                     (add_unreachable_v6 str_ipv6 (primary_name self)) s')
              = Raise TypeError).
    { intros s' Hs'. apply add_unreachable_v6_no_aux; [|exact Hu]. congruence. }
    split.
    + unfold bind.
      pose proof (add_unreachable_v4_keeps_aux (primary_name self) (range u4)
                    (cut r4 r6 self)) as Hkeeps.
      destruct (for_each (range u4) _ (cut r4 r6 self)) as [[|e] s']; [|reflexivity].
      simpl in Hkeeps. rewrite (Hsecond s' Hkeeps). reflexivity.
    + intros [Hnone|(aux & Haux' & [Hlow _] & Hhigh)]; unfold bind, range.
      * replace (Z.to_nat u4) with 0%nat by lia. simpl.
        apply Hsecond. reflexivity.
      * destruct (Z_le_gt_dec u4 0) as [Hle|Hgt].
        { replace (Z.to_nat u4) with 0%nat by lia. simpl.
          apply Hsecond. reflexivity. }
        pose proof (cut_hosts_v4 r4 r6 self) as Hhosts.
        rewrite (add_unreachable_v4_run (primary_name self) aux (Z.to_nat u4) 0
                   (cut r4 r6 self) _ ltac:(rewrite Haux4; exact Haux') Hhosts Hlow)
          by lia.
        apply Hsecond. reflexivity.
  - intros -> ->. reflexivity.
Qed.

End ConfigureHostsSpec.

(** One reachable and two unreachable addresses on that book. *)
Lemma configure_hosts_wan_book :
  (networking.auxv4 wan_book = Some 167772260%Z /\ utils.valid_ipv4 167772260%Z /\
   (0 <= 1)%Z /\ (0 <= 2)%Z /\ (167772260 + 2 <= utils.IPV4_ALL_ONES)%Z) /\
  fst (networking.configure_hosts (fun _ => "") 1 2 0 0 wan_book) = Ok tt /\
  networking.hosts_v4 (snd (networking.configure_hosts (fun _ => "") 1 2 0 0 wan_book))
    !! "wan.boardfarm.com"
  = Some [networking.Text "10.0.0.1"; networking.Text "10.0.0.101";
          networking.Text "10.0.0.102"].
Proof.
  assert (Hvalid : utils.valid_ipv4 167772260%Z)
    by (unfold utils.valid_ipv4, utils.IPV4_ALL_ONES; lia).
  assert (Hhigh : (167772260 + 2 <= utils.IPV4_ALL_ONES)%Z)
    by (unfold utils.IPV4_ALL_ONES; lia).
  split; [repeat split; try reflexivity; try lia; apply Hvalid|].
  exact (proj1 (configure_hosts_reachable_then_synthetic (fun _ => "") wan_book
                  167772260%Z 1 2 eq_refl Hvalid ltac:(lia) ltac:(lia)) Hhigh).
Defined.

(** C4, as stated, fails: with the auxiliary address 255.255.255.255
    there is no address [aux + 1]; [configure_hosts(1, 1, 0, 0)] raises
    and leaves the list with its first entry alone. *)
Lemma configure_hosts_beyond_last_address :
  let book := networking.init "wan" (Some "10.0.0.1") None (Some 4294967295%Z) None None in
  let run := networking.configure_hosts (fun _ => "") 1 1 0 0 book in
  fst run = Raise AddressValueError /\
  networking.hosts_v4 (snd run) !! "wan.boardfarm.com" = Some [networking.Text "10.0.0.1"] /\
  length (default [] (networking.hosts_v4 (snd run) !! "wan.boardfarm.com")) <> 2.
Proof. vm_compute. repeat split. discriminate. Qed.

(** A book without auxiliary addresses, asked for an unreachable
    address. *)
Lemma configure_hosts_without_aux :
  (networking.auxv4 (networking.init "wan" (Some "10.0.0.1") None None None None) = None
   /\ (0 < 1)%Z) /\
  fst (networking.configure_hosts (fun _ => "") 1 1 0 0
         (networking.init "wan" (Some "10.0.0.1") None None None None))
  = Raise TypeError.
Proof.
  split; [split; [reflexivity | lia]|].
  apply (proj1 (configure_hosts_needs_aux (fun _ => "")
                  (networking.init "wan" (Some "10.0.0.1") None None None None)
                  1 1 0 0)); [reflexivity | lia].
Defined.

(** ** [collect_logs]: unit normalisation *)

Section Rounding.
Import influx_wrapper.
Import QArith Qabs Qpower.








(** The nearest whole number, with halves to the even one, is one
    number. *)
Lemma nearest_integer_unique (q : Q) (k k' : Z) :
  nearest_integer q k -> nearest_integer q k' -> k = k'.
Proof.
  intros [Hle Heven] [Hle' Heven'].
  apply Qabs_diff_Qle_condition in Hle as Hk.
  apply Qabs_diff_Qle_condition in Hle' as Hk'.
  destruct Hk as [Hlow Hhigh], Hk' as [Hlow' Hhigh'].
  assert (Hnear : (k - 1 <= k' <= k + 1)%Z).
  { split; rewrite Zle_Qle; [unfold Z.sub; rewrite inject_Z_plus, inject_Z_opp | rewrite inject_Z_plus];
      change (inject_Z 1) with 1%Q; Lqa.lra. }
  destruct (Z.eq_dec k k') as [|Hne]; [assumption|exfalso].
  assert (Hhalf : (Qabs (q - inject_Z k) == 1 # 2)%Q /\
                  (Qabs (q - inject_Z k') == 1 # 2)%Q).
  { assert (Hcase : k' = (k + 1)%Z \/ k' = (k - 1)%Z) by lia.
    destruct Hcase as [-> | ->].
    - rewrite inject_Z_plus in *. change (inject_Z 1) with 1%Q in *.
      assert (Hq : (q == inject_Z k + (1 # 2))%Q) by Lqa.lra.
      split.
      + rewrite Qabs_pos by Lqa.lra. Lqa.lra.
      + rewrite Qabs_neg by Lqa.lra. Lqa.lra.
    - unfold Z.sub in *; rewrite inject_Z_plus, inject_Z_opp in *. change (inject_Z 1) with 1%Q in *.
      assert (Hq : (q == inject_Z k - (1 # 2))%Q) by Lqa.lra.
      split.
      + rewrite Qabs_neg by Lqa.lra. Lqa.lra.
      + rewrite Qabs_pos by Lqa.lra. Lqa.lra. }
  destruct Hhalf as [Hh Hh']. specialize (Heven Hh). specialize (Heven' Hh').
  assert (Hcase : k' = (k + 1)%Z \/ k' = (k - 1)%Z) by lia.
  destruct Hcase as [-> | ->].
  - rewrite Z.even_add, Heven in Heven'. discriminate Heven'.
  - rewrite Z.even_sub, Heven in Heven'. discriminate Heven'.
Qed.

(** So a float has one rounding to [n] places. *)
Lemma rounded_to_unique (n : Z) (x v v' : float) :
  rounded_to n x v -> rounded_to n x v' -> v = v'.
Proof.
  destruct x as [s | s | | s m e]; cbn [rounded_to]; try congruence.
  intros (k & Hk & ->) (k' & Hk' & ->).
  rewrite (nearest_integer_unique _ _ _ Hk Hk'). reflexivity.
Qed.
End Rounding.

Section UnitNormalisation.
Import influx_wrapper.
Variable float_of_str : string -> result float.
Variable str_of_float : float -> string.




End UnitNormalisation.


(** On the line of 8 MBytes the recorded value is the text of 64.0. *)
Example sum_line_eight_mbytes :
  influx_wrapper.sum_line influx_wrapper.decimal_float str_of_whole_float
    eight_mbytes fresh_frame
  = (Ok tt,
     influx_wrapper.Frame
       (influx_wrapper.Descriptor "iperf.log" None None
          [influx_wrapper.Sample "result" ["10.0"; "64.0"; "6.71"]])
       (Some eight_mbytes)).
Proof. vm_compute. reflexivity. Qed.

(** ** The interactive shell: the device prompt *)

Section DevicePrompt.
Import core.

Lemma listed_length devices_dict : length (listed devices_dict) = size devices_dict.
Proof.
  unfold listed, sorted. rewrite merge_sort_Permutation.
  rewrite length_fmap. apply length_map_to_list.
Qed.

Lemma listed_known devices_dict name :
  name ∈ listed devices_dict -> is_Some (devices_dict !! name).
Proof.
  unfold listed, sorted. rewrite merge_sort_Permutation.
  intros H. apply list_elem_of_fmap in H as [[k device] [-> H]].
  apply elem_of_map_to_list in H. simpl. eauto.
Qed.

(** The rows of the table are printed, and nothing else happens. *)
Lemma device_rows_printed devices_dict (rows : list (Z * string)) : forall t,
  Forall (fun row => is_Some (devices_dict !! snd row)) rows ->
  exists shown,
    for_each rows (device_row devices_dict) t
      = (Ok tt, Terminal (stdin t) (screen t ++ shown)) /\
    forallb quiet shown = true.
Proof.
  induction rows as [|[i name] rows IH]; intros t Hknown.
  - exists []. rewrite app_nil_r. destruct t; split; reflexivity.
  - apply Forall_cons_1 in Hknown as [[device Hdevice] Hknown].
    simpl in Hdevice. cbn [for_each]. unfold bind at 1.
    unfold device_row at 1. rewrite Hdevice.
    unfold print, emit, modify.
    destruct (IH (Terminal (stdin t)
                    (screen t ++ [Printed (rjust 2 (pretty i) +:+ "  "
                       +:+ ljust 16 name +:+ " " +:+ ljust 16 (device_type device)
                       +:+ " " +:+ pretty (size (interactive_consoles device)))]))
                 Hknown) as (shown & Hrun & Hquiet).
    rewrite Hrun. simpl. rewrite <- app_assoc. simpl.
    eexists. split; [reflexivity|]. simpl. exact Hquiet.
Qed.

Lemma enumerate1_known devices_dict :
  Forall (fun row => is_Some (devices_dict !! snd row)) (enumerate1 (listed devices_dict)).
Proof.
  unfold enumerate1. apply Forall_forall. intros [i name] Hin.
  apply list_elem_of_lookup in Hin as [j Hj].
  rewrite list_lookup_imap in Hj.
  destruct (listed devices_dict !! j) as [name'|] eqn:Hname; [|discriminate].
  simpl in Hj. injection Hj as <- <-. simpl.
  apply listed_known. eapply list_elem_of_lookup_2. exact Hname.
Qed.

(** A device ID that is not the exit code, and is not a digit string or
    is a number above the number of devices, selects nothing: the prompt
    prints its error and returns [None], and no session starts. *)
Lemma _get_device_name_from_user_rejects
    (devices_dict : gmap string BoardfarmDevice) (device_id : string)
    (rest : list string) (before : list event) :
  device_id <> "q" ->
  (isdigit device_id = false \/
   exists n, int device_id = Ok n /\ (Z.of_nat (size devices_dict) < n)%Z) ->
  exists shown,
    _get_device_name_from_user devices_dict "q" (Terminal (device_id :: rest) before)
      = (Ok None, Terminal rest (before ++ shown)) /\
    forallb quiet shown = true /\
    (Printed (nl +:+ "ERROR: Wrong input. Please try again." +:+ nl) ∈ shown \/
     Printed (nl +:+ "ERROR: Wrong device ID. Please try again." +:+ nl) ∈ shown).
Proof.
  intros Hexit Hbad. unfold _get_device_name_from_user.
  fold (listed devices_dict).
  do 3 (unfold bind at 1; unfold print at 1, emit at 1, modify at 1;
        cbn [stdin screen]).
  unfold bind at 1.
  destruct (device_rows_printed devices_dict (enumerate1 (listed devices_dict))
              (Terminal (device_id :: rest)
                 (((before ++ [Printed "----------------------------------------------"])
                   ++ [Printed "ID  Device name      Device type      Consoles"])
                  ++ [Printed "----------------------------------------------"]))
              (enumerate1_known devices_dict)) as (rows & Hrows & Hquiet).
  rewrite Hrows. cbn [stdin screen].
  unfold bind at 1; unfold print at 1, emit at 1, modify at 1; cbn [stdin screen].
  unfold bind at 1; unfold input at 1; cbn [stdin screen].
  apply String.eqb_neq in Hexit. rewrite Hexit.
  destruct (isdigit device_id) eqn:Hdigit; cbn [negb].
  - destruct Hbad as [Hbad|(n & Hint & Hn)]; [discriminate|].
    unfold bind at 1, lift at 1. rewrite Hint.
    rewrite listed_length.
    rewrite (proj2 (Z.gtb_lt n (Z.of_nat (size devices_dict)))) by exact Hn.
    unfold bind, print, emit, modify, ret. cbn [stdin screen].
    eexists. split; [rewrite <- !app_assoc; reflexivity|].
    split.
    + rewrite !forallb_app, Hquiet. reflexivity.
    + right. repeat (apply elem_of_app; right). repeat constructor.
  - unfold bind, print, emit, modify, ret. cbn [stdin screen].
    eexists. split; [rewrite <- !app_assoc; reflexivity|].
    split.
    + rewrite !forallb_app, Hquiet. reflexivity.
    + left. repeat (apply elem_of_app; right). repeat constructor.
Qed.

(** After such an answer the outer loop goes on to the next round. *)
Lemma shell_round_reprompts (fuel : nat)
    (devices_dict : gmap string BoardfarmDevice) (device_id : string)
    (rest : list string) (before : list event) :
  devices_dict <> ∅ ->
  device_id <> "q" ->
  (isdigit device_id = false \/
   exists n, int device_id = Ok n /\ (Z.of_nat (size devices_dict) < n)%Z) ->
  exists shown,
    shell_round fuel devices_dict "q" (Terminal (device_id :: rest) before)
      = (Ok Continue, Terminal rest (before ++ shown)) /\
    forallb quiet shown = true.
Proof.
  intros Hdevices Hexit Hbad. unfold shell_round.
  destruct (decide (devices_dict = ∅)) as [Hempty|_]; [contradiction|].
  destruct (_get_device_name_from_user_rejects devices_dict device_id rest before
              Hexit Hbad) as (shown & Hrun & Hquiet & _).
  unfold bind. rewrite Hrun. exists shown. split; [reflexivity | exact Hquiet].
Qed.

(** *** The rounds given to the loops are enough *)

(** The device prompt reads one line when it returns, and never puts a
    line back. *)
Lemma _get_device_name_from_user_reads
    (devices_dict : gmap string BoardfarmDevice) (t : terminal) :
  let run := _get_device_name_from_user devices_dict "q" t in
  pending (snd run) <= pending t /\
  (is_ok (fst run) = true -> pending (snd run) < pending t).
Proof.
  cbv zeta.
  destruct (_get_device_name_from_user devices_dict "q" t) as [answer t'] eqn:Hrun.
  unfold _get_device_name_from_user in Hrun. fold (listed devices_dict) in Hrun.
  do 3 (unfold bind at 1 in Hrun; unfold print at 1, emit at 1, modify at 1 in Hrun;
        cbn [stdin screen] in Hrun).
  unfold bind at 1 in Hrun.
  destruct (device_rows_printed devices_dict (enumerate1 (listed devices_dict))
              (Terminal (stdin t)
                 (((screen t ++ [Printed "----------------------------------------------"])
                   ++ [Printed "ID  Device name      Device type      Consoles"])
                  ++ [Printed "----------------------------------------------"]))
              (enumerate1_known devices_dict)) as (rows & Hrows & _).
  rewrite Hrows in Hrun. cbn [stdin screen] in Hrun.
  unfold bind at 1 in Hrun; unfold print at 1, emit at 1, modify at 1 in Hrun;
    cbn [stdin screen] in Hrun.
  unfold bind at 1 in Hrun; unfold input at 1 in Hrun; cbn [stdin screen] in Hrun.
  unfold pending.
  destruct (stdin t) as [|device_id rest].
  { injection Hrun as <- <-. cbn. split; [lia | discriminate]. }
  destruct (String.eqb device_id "q");
    [injection Hrun as <- <-; cbn; split; lia|].
  destruct (negb (isdigit device_id));
    [injection Hrun as <- <-; cbn; split; lia|].
  unfold bind at 1, lift at 1 in Hrun.
  destruct (int device_id) as [n|e]; [|injection Hrun as <- <-; cbn; split; lia].
  destruct (n >? _)%Z; [injection Hrun as <- <-; cbn; split; lia|].
  unfold bind at 1, lift at 1 in Hrun.
  destruct (index (listed devices_dict) (n - 1));
    injection Hrun as <- <-; cbn; split; lia.
Qed.

(** A round of the console prompt goes on only after reading a line,
    and never reports used-up rounds. *)
Lemma console_round_reads (device_name : string) (console_names : list string)
    (t : terminal) :
  let run := console_round device_name console_names t in
  fst run <> Ok Exhausted /\
  pending (snd run) <= pending t /\
  (fst run = Ok Continue -> pending (snd run) < pending t).
Proof.
  cbv zeta.
  destruct (console_round device_name console_names t) as [decision t'] eqn:Hrun.
  unfold console_round in Hrun. unfold pending.
  destruct console_names as [|first [|second others]].
  - injection Hrun as <- <-. cbn. repeat split; [discriminate | lia | discriminate].
  - injection Hrun as <- <-. cbn. repeat split; [discriminate | lia | discriminate].
  - do 2 (unfold bind at 1 in Hrun; unfold print at 1, emit at 1, modify at 1 in Hrun;
          cbn [stdin screen] in Hrun).
    unfold bind at 1 in Hrun; unfold input at 1 in Hrun; cbn [stdin screen] in Hrun.
    destruct (stdin t) as [|console_id rest].
    { injection Hrun as <- <-. cbn. repeat split; [discriminate | lia | discriminate]. }
    destruct (negb (isdigit console_id));
      [injection Hrun as <- <-; cbn; repeat split; [discriminate | lia | lia]|].
    unfold bind at 1, lift at 1 in Hrun.
    destruct (int console_id) as [n|e];
      [|injection Hrun as <- <-; cbn; repeat split; [discriminate | lia | discriminate]].
    destruct (n >? _)%Z;
      [injection Hrun as <- <-; cbn; repeat split; [discriminate | lia | lia]|].
    unfold bind at 1, lift at 1 in Hrun.
    destruct (index _ (n - 1));
      injection Hrun as <- <-; cbn; repeat split; (discriminate || lia).
Qed.

(** A loop whose rounds go on only after reading a line ends within one
    round more than there are lines. *)
Lemma while_true_total {A} (body : M terminal (control A)) (bound : nat) :
  (forall t, pending t < bound ->
     fst (body t) <> Ok Exhausted /\
     pending (snd (body t)) <= pending t /\
     (fst (body t) = Ok Continue -> pending (snd (body t)) < pending t)) ->
  forall fuel t, pending t < fuel -> pending t < bound ->
    fst (while_true fuel body t) <> Ok None /\
    pending (snd (while_true fuel body t)) <= pending t.
Proof.
  intros Hbody. induction fuel as [|fuel IH]; intros t Hfuel Hbound; [lia|].
  cbn [while_true]. unfold bind.
  destruct (Hbody t Hbound) as (Hexhausted & Hkeeps & Hreads).
  destruct (body t) as [[[| a |]|e] t']; cbn [fst snd] in *.
  - specialize (Hreads eq_refl).
    destruct (IH t' ltac:(lia) ltac:(lia)) as [Hdone Hless].
    split; [exact Hdone | lia].
  - split; [discriminate | exact Hkeeps].
  - contradiction.
  - split; [discriminate | exact Hkeeps].
Qed.

Lemma _get_console_name_from_user_total (fuel : nat) (device_name : string)
    (consoles : gset string) (t : terminal) :
  pending t < fuel ->
  fst (_get_console_name_from_user fuel device_name consoles t) <> Ok None /\
  pending (snd (_get_console_name_from_user fuel device_name consoles t)) <= pending t.
Proof.
  intros Hfuel. unfold _get_console_name_from_user.
  apply (while_true_total _ fuel); [|exact Hfuel|exact Hfuel].
  intros t' _. apply console_round_reads.
Qed.

(** A round of the shell, with more rounds for the console prompt than
    there are lines, goes on only after reading a line. *)
Lemma shell_round_reads (fuel : nat) (devices_dict : gmap string BoardfarmDevice)
    (t : terminal) :
  pending t < fuel ->
  fst (shell_round fuel devices_dict "q" t) <> Ok Exhausted /\
  pending (snd (shell_round fuel devices_dict "q" t)) <= pending t /\
  (fst (shell_round fuel devices_dict "q" t) = Ok Continue ->
   pending (snd (shell_round fuel devices_dict "q" t)) < pending t).
Proof.
  intros Hfuel.
  destruct (shell_round fuel devices_dict "q" t) as [decision t'] eqn:Hrun.
  unfold shell_round in Hrun. cbn [fst snd].
  destruct (decide (devices_dict = ∅)) as [_|_].
  { injection Hrun as <- <-. unfold pending. cbn.
    repeat split; [discriminate | lia | discriminate]. }
  unfold bind at 1 in Hrun.
  destruct (_get_device_name_from_user_reads devices_dict t) as [Hkeeps Hreads].
  destruct (_get_device_name_from_user devices_dict "q" t) as [[answer|e] t1];
    cbn [fst snd is_ok] in *;
    [specialize (Hreads eq_refl)
    | injection Hrun as <- <-; repeat split; [discriminate | exact Hkeeps | discriminate]].
  destruct answer as [device_name|];
    [| injection Hrun as <- <-; repeat split; [discriminate | lia | lia]].
  destruct (String.eqb device_name "q");
    [injection Hrun as <- <-; repeat split; [discriminate | lia | discriminate]|].
  destruct (devices_dict !! device_name) as [device|];
    [| injection Hrun as <- <-; repeat split; [discriminate | lia | discriminate]].
  unfold bind at 1 in Hrun.
  destruct (_get_console_name_from_user_total fuel device_name
              (interactive_consoles device) t1 ltac:(lia)) as [Hdone Hless].
  destruct (_get_console_name_from_user fuel device_name
              (interactive_consoles device) t1) as [[[[console_name|]|]|e] t2];
    cbn [fst snd] in *.
  - cbn in Hrun. injection Hrun as <- <-. unfold pending in *. cbn.
    repeat split; [discriminate | lia | lia].
  - injection Hrun as <- <-. repeat split; [discriminate | lia | lia].
  - contradiction.
  - injection Hrun as <- <-. repeat split; [discriminate | lia | discriminate].
Qed.

(** The shell never uses up its rounds: it says goodbye or raises. *)
Lemma boardfarm_post_deploy_devices_total
    (devices_dict : gmap string BoardfarmDevice) (t : terminal) :
  fst (boardfarm_post_deploy_devices devices_dict t) <> Ok None.
Proof.
  unfold boardfarm_post_deploy_devices, interactive_shell.
  do 2 (unfold bind at 1; unfold print at 1, emit at 1, modify at 1;
        cbn [stdin screen]).
  unfold bind at 1.
  match goal with |- context [while_true ?f ?b ?t'] =>
    destruct (while_true_total b f (shell_round_reads f devices_dict) f t')
      as [Hdone _]; [unfold pending; simpl; lia | unfold pending; simpl; lia |];
    destruct (while_true f b t') as [[[[]|]|e] t2]
  end; cbn [fst] in *.
  - cbn. discriminate.
  - contradiction.
  - discriminate.
Qed.

(** So the loop, given one more round, carries on with the rest of the
    input. *)
Lemma shell_loop_carries_on (fuel rounds : nat)
    (devices_dict : gmap string BoardfarmDevice) (device_id : string)
    (rest : list string) (before : list event) :
  devices_dict <> ∅ ->
  device_id <> "q" ->
  (isdigit device_id = false \/
   exists n, int device_id = Ok n /\ (Z.of_nat (size devices_dict) < n)%Z) ->
  exists shown,
    while_true (S rounds) (shell_round fuel devices_dict "q")
      (Terminal (device_id :: rest) before)
    = while_true rounds (shell_round fuel devices_dict "q")
        (Terminal rest (before ++ shown)) /\
    forallb quiet shown = true.
Proof.
  intros Hdevices Hexit Hbad.
  destruct (shell_round_reprompts fuel devices_dict device_id rest before
              Hdevices Hexit Hbad) as (shown & Hrun & Hquiet).
  exists shown. split; [|exact Hquiet].
  cbn [while_true]. unfold bind at 1. rewrite Hrun. reflexivity.
Qed.

(** C1.  The device ID [0] is a number outside [1 .. number of devices],
    and it is not rejected: whatever the devices, the prompt answers it
    with the last device of the table, which the shell then enters. *)
Theorem device_id_zero_selects_last_device
    (devices_dict : gmap string BoardfarmDevice)
    (rest : list string) (before : list event) :
  devices_dict <> ∅ ->
  exists name shown,
    listed devices_dict !! (size devices_dict - 1)%nat = Some name /\
    _get_device_name_from_user devices_dict "q" (Terminal ("0" :: rest) before)
      = (Ok (Some name), Terminal rest (before ++ shown)).
Proof.
  intros Hdevices.
  assert (Hsize : size devices_dict <> 0%nat) by (apply map_size_non_empty_iff; exact Hdevices).
  destruct (listed devices_dict !! (size devices_dict - 1)%nat) as [name|] eqn:Hlast.
  2: { apply lookup_ge_None in Hlast. rewrite listed_length in Hlast. lia. }
  unfold _get_device_name_from_user. fold (listed devices_dict).
  do 3 (unfold bind at 1; unfold print at 1, emit at 1, modify at 1;
        cbn [stdin screen]).
  unfold bind at 1.
  destruct (device_rows_printed devices_dict (enumerate1 (listed devices_dict))
              (Terminal ("0" :: rest)
                 (((before ++ [Printed "----------------------------------------------"])
                   ++ [Printed "ID  Device name      Device type      Consoles"])
                  ++ [Printed "----------------------------------------------"]))
              (enumerate1_known devices_dict)) as (rows & Hrows & Hquiet).
  rewrite Hrows. cbn [stdin screen].
  unfold bind at 1; unfold print at 1, emit at 1, modify at 1; cbn [stdin screen].
  unfold bind at 1; unfold input at 1; cbn [stdin screen].
  change (String.eqb "0" "q") with false. change (isdigit "0") with true.
  cbn [negb]. unfold bind at 1, lift at 1. change (int "0") with (Ok 0%Z).
  rewrite listed_length.
  rewrite Z.gtb_ltb, (proj2 (Z.ltb_ge _ _)) by lia.
  unfold bind, lift, ret.
  assert (Hindex : index (listed devices_dict) (0 - 1) = Ok name).
  { unfold index. rewrite listed_length. change (0 - 1 <? 0)%Z with true. cbv iota.
    rewrite (proj2 (Z.ltb_ge _ _)) by lia.
    replace (Z.to_nat (Z.of_nat (size devices_dict) + (0 - 1)))
      with (size devices_dict - 1)%nat by lia.
    rewrite Hlast. reflexivity. }
  rewrite Hindex. do 2 eexists. split; [reflexivity|].
  rewrite <- !app_assoc. reflexivity.
Qed.

End DevicePrompt.

(** On the bench the answer [0] selects the WAN, the last of the two
    rows. *)
Lemma device_id_zero_on_bench :
  bench <> ∅ /\
  exists name shown,
    listed bench !! (size bench - 1)%nat = Some name /\
    core._get_device_name_from_user bench "q" (core.Terminal ["0"; "q"] [])
      = (Ok (Some name), core.Terminal ["q"] ([] ++ shown)).
Proof.
  assert (Hbench : bench <> ∅).
  { intros H. apply (f_equal (fun m => m !! "wan")) in H. vm_compute in H. discriminate H. }
  split; [exact Hbench|].
  exact (device_id_zero_selects_last_device bench ["q"] [] Hbench).
Defined.

(** The whole shell on the answers [0] and [q]: the console of the WAN
    is entered before the shell says goodbye. *)
Lemma shell_enters_console_on_zero :
  let run := core.boardfarm_post_deploy_devices bench (core.Terminal ["0"; "q"] []) in
  fst run = Ok (Some tt) /\
  filter (fun e => quiet e = false) (core.screen (snd run)) = [core.Session "wan" "wan"].
Proof. vm_compute. split; reflexivity. Qed.

(** A superscript two passes [isdigit] and is no [int]: the shell ends
    with [ValueError]. *)
Lemma shell_ends_on_superscript :
  let two := String (ascii_of_nat 178) "" in
  two <> "q" /\ isdigit two = true /\ int two = Raise ValueError /\
  fst (core.boardfarm_post_deploy_devices bench (core.Terminal [two; "q"] []))
    = Raise ValueError.
Proof. vm_compute. repeat split; discriminate. Qed.

(* ===================================================================== *)
(** * Further properties of [boardfarm3/lib/utils.py]                      *)
(* ===================================================================== *)

(** ** [retry_on_exception] *)

Section RetryOnExceptionSpec.
Import utils.
Context {S : Type}.
Variable method : M S value.

Lemma range_from_nil a b : (b <= a)%Z -> range_from a b = [].
Proof.
  intros H. unfold range_from, range.
  replace (Z.to_nat (b - a)) with 0 by lia. reflexivity.
Qed.

Lemma range_from_cons a b :
  (a < b)%Z -> range_from a b = a :: range_from (a + 1) b.
Proof.
  intros H. unfold range_from, range.
  replace (Z.to_nat (b - a)) with (Datatypes.S (Z.to_nat (b - (a + 1)))) by lia.
  simpl. f_equal; [lia|].
  rewrite <- seq_shift, <- !list_fmap_compose.
  apply list_fmap_ext. intros _ i _. simpl. lia.
Qed.

Lemma invocations_app l1 l2 :
  invocations (l1 ++ l2) = invocations l1 + invocations l2.
Proof.
  induction l1 as [|[| |] l1 IH]; simpl; rewrite ?IH; reflexivity.
Qed.

Lemma invocations_trials tout (k : nat) : forall re_try s,
  (forall i, i < k -> raising (outcome method i s) = true) ->
  invocations (trials method tout re_try k s) = Datatypes.S k.
Proof.
  induction k as [|k IH]; intros re_try s Hall; [reflexivity|].
  simpl. pose proof (Hall 0 ltac:(lia)) as H0. unfold outcome in H0. simpl in H0.
  destruct (method s) as [[v|exc] s'] eqn:Hcall; [discriminate|].
  simpl. f_equal. apply IH. intros i Hi.
  specialize (Hall (Datatypes.S i) ltac:(lia)). unfold outcome in *. simpl in Hall.
  rewrite Hcall in Hall. exact Hall.
Qed.

(** What the loop with [n] guarded rounds does from any journal: it
    stops at the first call that returns, and at the latest at the
    unguarded call that follows the rounds. *)
Lemma retry_on_exception_loop_spec tout (n : nat) : forall re_try j,
  (0 <= tout)%Z ->
  exists k : nat,
    k <= n /\
    retry_on_exception_loop method (range_from re_try (re_try + Z.of_nat n)) tout j =
      (outcome method k (target j),
       Journal (state_after method (Datatypes.S k) (target j))
               (steps j ++ trials method tout re_try k (target j))) /\
    (forall i, i < k -> raising (outcome method i (target j)) = true) /\
    (k < n -> raising (outcome method k (target j)) = false).
Proof.
  induction n as [|n IH]; intros re_try [s l] Htout.
  - exists 0. rewrite range_from_nil by lia. simpl. unfold invoke, outcome. simpl.
    destruct (method s) as [r s']. simpl.
    split; [lia|]. split; [reflexivity|]. split; intros; lia.
  - rewrite range_from_cons by lia. simpl retry_on_exception_loop.
    unfold try_except. unfold invoke at 1. simpl target. simpl steps.
    destruct (method s) as [[v|exc] s'] eqn:Hcall.
    + exists 0. unfold outcome. simpl. rewrite Hcall. simpl.
      split; [lia|]. split; [reflexivity|]. split; [intros; lia|]. reflexivity.
    + destruct (IH (re_try + 1)%Z
                   (Journal s' (((l ++ [Invoked]) ++ [Debugged re_try exc]) ++ [Paused tout]))
                   Htout)
        as (k & Hk & Hrun & Hbefore & Hlast).
      simpl target in *. simpl steps in *.
      exists (Datatypes.S k). split; [lia|]. split; [|split].
      * unfold bind, note, pause, modify. simpl.
        rewrite (proj2 (Z.ltb_ge tout 0)) by lia. unfold note, modify. simpl.
        replace (re_try + Z.of_nat (Datatypes.S n))%Z
          with (re_try + 1 + Z.of_nat n)%Z by lia.
        rewrite Hrun. unfold outcome. simpl. rewrite Hcall. simpl.
        rewrite <- !app_assoc. reflexivity.
      * intros [|i] Hi; unfold outcome in *; simpl; rewrite Hcall; simpl.
        -- reflexivity.
        -- apply Hbefore. lia.
      * intros Hlt. specialize (Hlast ltac:(lia)). unfold outcome in *. simpl.
        rewrite Hcall. exact Hlast.
Qed.

(** X1.  With a sleep length [tout >= 0], [retry_on_exception(method,
    args, retries, tout)] calls the method at least once and at most
    [max(1, retries)] times, and returns what the last call answered, a
    value or an exception.  Every call before the last raised, each was
    recorded at debug level with its number and followed by a sleep of
    [tout]; the calls end before [max(1, retries)] of them are made only
    because one returned a value. *)
Theorem retry_on_exception_until_return (retries tout : Z) (s : S) :
  (0 <= tout)%Z ->
  let run := retry_on_exception method retries tout (Journal s []) in
  let n := invocations (steps (snd run)) in
  ((1 <= Z.of_nat n <= Z.max 1 retries)%Z /\
   fst run = outcome method (n - 1) s /\
   target (snd run) = state_after method n s) /\
  (forall i, i < n - 1 -> raising (outcome method i s) = true) /\
  ((Z.of_nat n < Z.max 1 retries)%Z -> raising (fst run) = false) /\
  steps (snd run) = trials method tout 1 (n - 1) s.
Proof.
  intros Htout run n.
  destruct (retry_on_exception_loop_spec tout (Z.to_nat (retries - 1)) 1 (Journal s []) Htout)
    as (k & Hk & Hrun & Hbefore & Hlast).
  simpl target in *. simpl steps in *.
  assert (Hlist : range_from 1 (1 + Z.of_nat (Z.to_nat (retries - 1))) = range_from 1 retries).
  { destruct (Z_le_gt_dec retries 1) as [Hle|Hgt].
    - rewrite !range_from_nil by lia. reflexivity.
    - f_equal. lia. }
  rewrite Hlist in Hrun.
  assert (Hn : n = Datatypes.S k).
  { subst n run. unfold retry_on_exception. rewrite Hrun. simpl.
    apply invocations_trials. exact Hbefore. }
  assert (Hres : fst run = outcome method k s).
  { subst run. unfold retry_on_exception. rewrite Hrun. reflexivity. }
  replace (n - 1) with k by lia.
  split; [split; [|split]|split; [|split]].
  - lia.
  - exact Hres.
  - subst run. unfold retry_on_exception. rewrite Hrun, Hn. reflexivity.
  - exact Hbefore.
  - intros Hlt. rewrite Hres. apply Hlast. lia.
  - subst run. unfold retry_on_exception. rewrite Hrun. reflexivity.
Qed.

(** X2.  A negative sleep length is refused by [time.sleep]: with
    [retries >= 2] and [tout < 0], a first call that raises is not
    retried; the exception is recorded and [ValueError] is raised in its
    place after that single call. *)
Theorem retry_on_exception_negative_tout (retries tout : Z) (s : S) (exc : exn) :
  (2 <= retries)%Z -> (tout < 0)%Z ->
  fst (method s) = Raise exc ->
  retry_on_exception method retries tout (Journal s []) =
    (Raise ValueError, Journal (snd (method s)) [Invoked; Debugged 1 exc]).
Proof.
  intros Hretries Htout Hcall.
  unfold retry_on_exception. rewrite range_from_cons by lia.
  simpl retry_on_exception_loop. unfold try_except, invoke. simpl.
  destruct (method s) as [r s']. simpl in Hcall. subst r. simpl.
  unfold bind, note, pause, modify. simpl.
  rewrite (proj2 (Z.ltb_lt tout 0)) by lia. reflexivity.
Qed.

End RetryOnExceptionSpec.

(** [retry_on_exception(flaky, (), 10, 5)]: three calls, the third
    answer returned. *)
Lemma retry_on_exception_flaky :
  (0 <= 5)%Z /\
  invocations (utils.steps (snd (utils.retry_on_exception flaky 10 5 (utils.Journal 0 [])))) = 3 /\
  fst (utils.retry_on_exception flaky 10 5 (utils.Journal 0 [])) = Ok (VBool true).
Proof.
  split; [lia|].
  pose proof (retry_on_exception_until_return flaky 10 5 0 ltac:(lia)) as H.
  cbv zeta in H. destruct H as ((_ & Hres & _) & _).
  split; [reflexivity|]. rewrite Hres. reflexivity.
Defined.

(** [retry_on_exception(flaky, (), 10, -1)]: one call, then
    [ValueError]. *)
Lemma retry_on_exception_flaky_negative :
  utils.retry_on_exception flaky 10 (-1) (utils.Journal 0 []) =
    (Raise ValueError, utils.Journal 1 [utils.Invoked; utils.Debugged 1 KeyError]).
Proof.
  apply (retry_on_exception_negative_tout flaky 10 (-1) 0 KeyError); [lia | lia | reflexivity].
Defined.

(** ** [retry] *)

Section RetrySleeps.
Import utils.
Context {S : Type}.
Variable func_name : M S value.

(** X3.  Whatever [max_retry] is, [retry] sleeps five seconds after each
    attempt but the last and never after it: its effects are the calls
    alternating with sleeps of 5.  With [max_retry <= 1], zero and
    negative numbers included, the function is called exactly once and
    its answer is returned as it is. *)
Theorem retry_sleeps_between_attempts (max_retry : Z) (s : S) :
  let run := retry func_name max_retry (World s []) in
  let n := calls (log (snd run)) in
  log (snd run) = attempts (n - 1) /\
  (1 <= Z.of_nat n <= Z.max 1 max_retry)%Z /\
  ((max_retry <= 1)%Z -> run = (fst (func_name s), World (snd (func_name s)) [Called])).
Proof.
  intros run n.
  destruct (retry_loop_spec func_name (Z.to_nat (max_retry - 1)) (World s []))
    as (k & Hk & Hrun & _).
  simpl callee in *. simpl log in *.
  assert (Hn : n = Datatypes.S k).
  { subst n run. unfold retry. rewrite Hrun. simpl. apply calls_attempts. }
  split; [|split].
  - subst run. unfold retry. rewrite Hrun. simpl. f_equal. lia.
  - lia.
  - intros Hmax. subst run. unfold retry.
    replace (Z.to_nat (max_retry - 1)) with 0 by lia.
    simpl. unfold call. simpl. destruct (func_name s); reflexivity.
Qed.

End RetrySleeps.

(** [retry(fn, 0)] on the callee that answers [False] first: one call,
    no sleep, [False] returned. *)
Lemma retry_zero_third_time_lucky :
  (0 <= 1)%Z /\
  utils.retry third_time_lucky 0 (utils.World 0 []) =
    (Ok (VBool false), utils.World 1 [utils.Called]).
Proof.
  split; [lia|].
  apply (proj2 (proj2 (retry_sleeps_between_attempts third_time_lucky 0 0))). lia.
Defined.

(** ** [get_value_from_dict] *)

Section NestedLookupMore.
Import utils.

Lemma is_none_false v : is_none v = false <-> v <> VNone.
Proof. destruct v; simpl; split; congruence. Qed.

Lemma get_value_from_binds key v :
  get_value_from key v <> VNone -> binds key (get_value_from key v) v.
Proof.
  induction v as [| | | | l _|d IH] using value_nested_ind;
    try (simpl; congruence).
  induction d as [|[name value] rest IHrest]; [simpl; congruence|].
  rewrite get_value_from_cons.
  apply Forall_cons_1 in IH as [IHvalue IHd]. simpl in IHvalue.
  specialize (IHrest IHd).
  assert (Hrest : get_value_from key (VDict rest) <> VNone ->
                  binds key (get_value_from key (VDict rest)) (VDict ((name, value) :: rest))).
  { intros Hne. specialize (IHrest Hne).
    inversion IHrest as [d' Hin|d' name' inner Hin Hinner]; subst.
    - apply binds_here. right. exact Hin.
    - eapply binds_deeper; [right; exact Hin | exact Hinner]. }
  destruct (String.eqb name key) eqn:Hname.
  - apply String.eqb_eq in Hname. subst name. intros _. apply binds_here. left. reflexivity.
  - destruct value as [| | | | |inner]; try exact Hrest.
    cbv zeta. destruct (is_none (get_value_from key (VDict inner))) eqn:Hnone.
    + exact Hrest.
    + intros _. apply is_none_false in Hnone.
      eapply binds_deeper; [left; reflexivity | apply IHvalue; exact Hnone].
Qed.

(** X4.  [get_value_from_dict] invents nothing: a result other than
    [None] is a value bound to the key, in the dictionary itself or in a
    dictionary reached from it through dictionary values. *)
Theorem get_value_from_dict_is_bound (key : string) (dictionary : list (string * value)) :
  get_value_from_dict key dictionary <> VNone ->
  binds key (get_value_from_dict key dictionary) (VDict dictionary).
Proof. apply get_value_from_binds. Qed.

(** X5.  Only dictionary values are searched: where no value of the
    dictionary is itself a dictionary, lists of dictionaries included,
    the result is that of [dictionary.get(key)]. *)
Theorem get_value_from_dict_flat (key : string) (dictionary : list (string * value)) :
  Forall (fun item => is_dict (snd item) = false) dictionary ->
  get_value_from_dict key dictionary = dict_get key dictionary.
Proof.
  unfold get_value_from_dict.
  induction dictionary as [|[name value] rest IH]; intros Hflat; [reflexivity|].
  apply Forall_cons_1 in Hflat as [Hvalue Hrest]. simpl in Hvalue.
  rewrite get_value_from_cons. simpl dict_get.
  destruct (String.eqb name key); [reflexivity|].
  rewrite <- (IH Hrest).
  destruct value; try reflexivity. discriminate.
Qed.

End NestedLookupMore.

(** The port of a nested board description is found under [board]. *)
Lemma get_value_from_dict_port_is_bound :
  binds "port" (VInt 22)
    (VDict [("name", VStr "wan"); ("board", VDict [("port", VInt 22)])]).
Proof.
  apply (get_value_from_dict_is_bound "port"
           [("name", VStr "wan"); ("board", VDict [("port", VInt 22)])]).
  vm_compute. discriminate.
Defined.

(** A key that occurs only inside a list of dictionaries is not found. *)
Lemma get_value_from_dict_not_in_lists :
  utils.get_value_from_dict "port"
    [("name", VStr "wan"); ("boards", VList [VDict [("port", VInt 22)]])] = VNone.
Proof.
  rewrite get_value_from_dict_flat; [reflexivity|].
  repeat constructor.
Defined.

(** ** [get_pytest_name] *)

Section PytestNameErrors.
Import utils.

Lemma prefix_app (p a b : string) :
  String.prefix p a = true -> String.prefix p (a +:+ b) = true.
Proof.
  revert a. induction p as [|x p IH]; intros a H; [apply prefix_nil|].
  destruct a as [|y a]; [discriminate|].
  rewrite append_cons. rewrite prefix_cons in *.
  destruct (Ascii.eqb x y); [apply IH; exact H | discriminate].
Qed.

Lemma contains_app_false (sub a b : string) :
  contains sub (a +:+ b) = false -> contains sub a = false.
Proof.
  induction a as [|x a IH]; intros H.
  - destruct sub as [|y sub]; [|reflexivity].
    destruct b; discriminate.
  - rewrite append_cons in H. cbn [contains] in *.
    apply orb_false_iff in H as [Hhere Hlater].
    rewrite (IH Hlater), orb_false_r.
    destruct (String.prefix sub (String x a)) eqn:Hp; [|reflexivity].
    apply (prefix_app _ _ b) in Hp. rewrite append_cons in Hp. congruence.
Qed.

(** The first piece of a split is the text up to the first occurrence. *)
Lemma split_aux_first_piece (sep s : string) :
  exists rest, s = fst (split_aux sep 0 s) +:+ rest.
Proof.
  induction s as [|c s IH]; [exists ""; reflexivity|].
  cbn [split_aux]. destruct (String.prefix sep (String c s)).
  - destruct (split_aux sep (String.length sep - 1) s) as [h t].
    exists (String c s). reflexivity.
  - destruct (split_aux sep 0 s) as [h t]. destruct IH as [rest IH].
    exists rest. simpl fst in *. rewrite append_cons. congruence.
Qed.

(** A text in which the separator does not occur is its only piece. *)
Lemma split_without_separator (sep s : string) :
  contains sep s = false -> split sep s = [s].
Proof.
  unfold split. induction s as [|c s IH]; intros H; [reflexivity|].
  cbn [contains] in H. apply orb_false_iff in H as [Hhere Hlater].
  cbn [split_aux]. rewrite Hhere.
  specialize (IH Hlater). destruct (split_aux sep 0 s) as [h t].
  congruence.
Qed.

(** X6.  [get_pytest_name] has no answer outside a running test: it
    raises [AttributeError] while [PYTEST_CURRENT_TEST] is unset, and
    [IndexError] when the value of the variable has no [::] in it. *)
Theorem get_pytest_name_without_separator :
  get_pytest_name None = Raise AttributeError /\
  forall current : string,
    contains "::" current = false ->
    get_pytest_name (Some current) = Raise IndexError.
Proof.
  split; [reflexivity|]. intros current H.
  unfold get_pytest_name, split at 2.
  destruct (split_aux_first_piece " (setup)" current) as [rest Hpiece].
  destruct (split_aux " (setup)" 0 current) as [before_setup t]. simpl fst in Hpiece.
  rewrite Hpiece in H. apply contains_app_false in H.
  change (index (before_setup :: t) 0) with (Ok (A:=string) before_setup).
  cbn [mbind result_bind].
  rewrite (split_without_separator "::" before_setup H). reflexivity.
Qed.

End PytestNameErrors.

(** The identifier of a whole test file names no test. *)
Lemma get_pytest_name_of_file :
  utils.get_pytest_name (Some "tests/test_wan.py (setup)") = Raise IndexError.
Proof.
  apply (proj2 get_pytest_name_without_separator). reflexivity.
Defined.

(** ** [disable_logs] *)

Section DisableLogs.
Import utils.

Lemma remove_all_handlers (l : list Handler) : forall l' c,
  for_each l removeHandler (mkLogger (l ++ l') c) = (Ok tt, mkLogger l' c).
Proof.
  induction l as [|h l IH]; intros l' c; [reflexivity|].
  cbn [for_each]. unfold bind, removeHandler at 1, modify.
  cbn [handlers created app remove_first].
  rewrite Nat.eqb_refl. apply IH.
Qed.

Lemma add_all_handlers (l : list Handler) : forall acc c,
  NoDup (acc ++ l) ->
  for_each l addHandler (mkLogger acc c) = (Ok tt, mkLogger (acc ++ l) c).
Proof.
  induction l as [|h l IH]; intros acc c Hnodup.
  - rewrite app_nil_r. reflexivity.
  - cbn [for_each]. unfold bind, addHandler at 1, modify.
    cbn [handlers created].
    rewrite bool_decide_eq_false_2.
    + rewrite IH; rewrite <- app_assoc; [reflexivity | exact Hnodup].
    + apply NoDup_app in Hnodup as (_ & Hdisjoint & _).
      intros Hin. apply (Hdisjoint h Hin). left.
Qed.

(** X7.  While the body of [with disable_logs(name)] runs, the logger
    has the new null handler as its only handler; when the body leaves
    the handler list as it found it, the logger has its own handlers
    back, in their order, on the way out, and the value or the
    exception of the body is what the block answers. *)
Theorem disable_logs_restores_handlers {A} (body : M Logger A) (logger : Logger) :
  let null_handler : Handler := created logger in
  let silenced := mkLogger [null_handler] (Datatypes.S (created logger)) in
  NoDup (handlers logger) ->
  handlers (snd (body silenced)) = handlers silenced ->
  disable_logs body logger =
    (fst (body silenced), mkLogger (handlers logger) (created (snd (body silenced)))).
Proof.
  intros null_handler silenced Hnodup Hkept. destruct logger as [hs c].
  unfold disable_logs, bind at 1, gets. cbn [handlers].
  unfold bind at 1.
  rewrite <- (app_nil_r hs) at 2. rewrite remove_all_handlers.
  unfold bind at 1, NullHandler. cbn [handlers created].
  unfold bind at 1, addHandler at 1, modify. cbn [handlers created].
  rewrite bool_decide_eq_false_2 by (apply not_elem_of_nil).
  simpl app. unfold try_finally.
  subst silenced null_handler. cbn [handlers created] in *.
  destruct (body _) as [r [hs' c']].
  cbn [handlers created snd fst] in *. subst hs'.
  unfold bind, removeHandler, modify. cbn [handlers created remove_first].
  rewrite Nat.eqb_refl.
  rewrite (add_all_handlers hs [] c') by exact Hnodup.
  simpl app. destruct r; reflexivity.
Qed.

End DisableLogs.

(** A logger with two handlers is silenced around a body that raises,
    and has the two back afterwards. *)
Lemma disable_logs_around_failure :
  utils.disable_logs (raise KeyError : M utils.Logger unit) (utils.mkLogger [0; 1] 2) =
    (Raise KeyError, utils.mkLogger [0; 1] 3).
Proof.
  apply (disable_logs_restores_handlers (raise KeyError : M utils.Logger unit)
           (utils.mkLogger [0; 1] 2)).
  - apply (bool_decide_unpack _). vm_compute. exact I.
  - reflexivity.
Defined.

(** ** [ip_pool_to_list] *)

Section IpPoolMore.
Import utils.
Local Open Scope Z_scope.

(** X8.  For two addresses with the end of the pool below
    255.255.255.255, [ip_pool_to_list] returns the addresses from the
    start to the end in increasing order, the end included: [end - start
    + 1] of them, and none when the start lies after the end. *)
Theorem ip_pool_to_list_below_last_address (start_ip end_ip : IPv4Address) :
  valid_ipv4 start_ip -> valid_ipv4 end_ip -> end_ip < IPV4_ALL_ONES ->
  ip_pool_to_list start_ip end_ip =
    Ok (consecutive start_ip (Z.to_nat (end_ip + 1 - start_ip))).
Proof.
  intros [Hstart _] _ Hend.
  destruct (Z_lt_ge_dec end_ip start_ip) as [Hlt|Hge].
  - rewrite ip_pool_to_list_empty by exact Hlt.
    replace (Z.to_nat (end_ip + 1 - start_ip)) with 0%nat by lia. reflexivity.
  - replace (Z.to_nat (end_ip + 1 - start_ip))
      with (Datatypes.S (Z.to_nat (end_ip - start_ip))) by lia.
    rewrite <- (ip_pool_to_list_inclusive (Z.to_nat (end_ip - start_ip)) start_ip)
      by lia.
    f_equal. lia.
Qed.

End IpPoolMore.

(** The pool 10.0.0.1 .. 10.0.0.3. *)
Lemma ip_pool_to_list_of_three :
  utils.ip_pool_to_list 167772161%Z 167772163%Z =
    Ok [167772161; 167772162; 167772163]%Z.
Proof.
  rewrite ip_pool_to_list_below_last_address;
    [reflexivity | | |]; unfold utils.valid_ipv4, utils.IPV4_ALL_ONES; lia.
Defined.

(* ===================================================================== *)
(** * Further properties of [boardfarm3/lib/networking.py]                 *)
(* ===================================================================== *)

(** ** [IptablesFirewall.is_iptable_empty] and [is_ip6table_empty] *)

Section FirewallEmptiness.
Import networking.
Context {console : Type} `{!_LinuxConsole console} {rule : Type}.
Variable ip6tables : string -> result (gmap string (list rule)).

Lemma any_values_spec (listing : gmap string (list rule)) :
  any_values listing = true <->
  exists chain rules, listing !! chain = Some rules /\ rules <> [].
Proof.
  unfold any_values. rewrite existsb_exists. split.
  - intros (rules & Hin & Hrules).
    apply list_elem_of_In, list_elem_of_fmap in Hin as ([chain rules'] & -> & Hin).
    apply elem_of_map_to_list in Hin.
    exists chain, rules'. split; [exact Hin|].
    simpl in Hrules. destruct rules'; [discriminate | congruence].
  - intros (chain & rules & Hlookup & Hrules).
    exists rules. split.
    + apply list_elem_of_In, list_elem_of_fmap. exists (chain, rules).
      split; [reflexivity|]. apply elem_of_map_to_list. exact Hlookup.
    + destruct rules; [congruence | reflexivity].
Qed.

(** X9.  When the listing command answers and its output parses,
    [is_iptable_empty] and [is_ip6table_empty] return [True] exactly
    when some chain of the listing has at least one rule, and [False]
    when every chain is empty or there is no chain: the answer is that
    of [any] over the rule lists. *)
Theorem is_iptable_empty_reports_some_rule
    (opts extra_opts output : string) (listing : gmap string (list rule))
    (c c' : console) :
  ip6tables output = Ok listing ->
  (execute_command ("iptables " +:+ opts +:+ " " +:+ extra_opts) (-1) c = (Ok output, c') ->
   exists answer,
     is_iptable_empty ip6tables opts extra_opts c = (Ok answer, c') /\
     (answer = true <-> exists chain rules, listing !! chain = Some rules /\ rules <> [])) /\
  (execute_command ("ip6tables " +:+ opts +:+ " " +:+ extra_opts) (-1) c = (Ok output, c') ->
   exists answer,
     is_ip6table_empty ip6tables opts extra_opts c = (Ok answer, c') /\
     (answer = true <-> exists chain rules, listing !! chain = Some rules /\ rules <> [])).
Proof.
  intros Hparse. split; intros Hrun; exists (any_values listing);
    (split; [|apply any_values_spec]).
  - unfold is_iptable_empty, get_iptables_list, bind, lift, ret.
    rewrite Hrun, Hparse. reflexivity.
  - unfold is_ip6table_empty, get_ip6tables_list, bind, lift, ret.
    rewrite Hrun, Hparse. reflexivity.
Qed.

End FirewallEmptiness.

(** A listing of one rule counts as non-empty: the answer is [True]. *)
Lemma is_iptable_empty_on_one_rule :
  exists answer,
    networking.is_iptable_empty input_chain "-S" ""
      (Playback ["-A INPUT -s 10.0.0.9 -j DROP"] []) = (Ok answer, Playback [] []) /\
    (answer = true <->
     exists chain rules,
       ({[ "INPUT" := ["-A INPUT -s 10.0.0.9 -j DROP"] ]} : gmap string (list string))
         !! chain = Some rules /\ rules <> []).
Proof.
  apply (proj1 (is_iptable_empty_reports_some_rule input_chain "-S" ""
                  "-A INPUT -s 10.0.0.9 -j DROP" _
                  (Playback ["-A INPUT -s 10.0.0.9 -j DROP"] []) (Playback [] [])
                  eq_refl)).
  reflexivity.
Defined.

(** ** [IptablesFirewall.add_drop_rule_iptables] and [add_drop_rule_ip6tables] *)

Section DropRules.
Import networking.
Context {console : Type} `{!_LinuxConsole console}.
Variable host_not_found : string -> string -> bool.

Lemma transcript_grows_once (l : list action) (a b : action) :
  l ++ [a] = l ++ [a; b] -> False.
Proof. intros H. apply app_inv_head in H. discriminate. Qed.

Lemma drop_rule_outcome_spec (check insertion valid_ip : string) (r : recorded console) :
  let answer := fst (execute_command check (-1) (device r)) in
  let run := drop_rule_outcome host_not_found check insertion valid_ip r in
  (transcript (snd run) = transcript r ++ [Executed check (-1)] \/
   transcript (snd run) = transcript r ++ [Executed check (-1); Executed insertion (-1)]) /\
  (transcript (snd run) = transcript r ++ [Executed check (-1); Executed insertion (-1)] <->
   exists output, answer = Ok output /\ host_not_found valid_ip output = false /\
                  contains "Bad rule" output = true) /\
  (forall output, answer = Ok output -> host_not_found valid_ip output = true ->
                  fst run = Raise ValueError).
Proof.
  intros answer run. subst run answer. unfold drop_rule_outcome.
  destruct (execute_command check (-1) (device r)) as [[output|e] c1]; cbn [fst snd].
  - destruct (host_not_found valid_ip output) eqn:Hhost; cbn [fst snd transcript].
    + split; [left; reflexivity|]. split; [|reflexivity].
      split; [intros H; destruct (transcript_grows_once _ _ _ H)|].
      intros (output' & [= <-] & Hno & _). congruence.
    + destruct (contains "Bad rule" output) eqn:Hbad.
      * destruct (execute_command insertion (-1) c1) as [[output2|e2] c2];
          cbn [fst snd transcript];
          (split; [right; reflexivity|]); (split; [|intros ? [= <-]; congruence]);
          (split; [intros _; exists output; auto | reflexivity]).
      * cbn [fst snd transcript].
        split; [left; reflexivity|]. split; [|intros ? [= <-]; congruence].
        split; [intros H; destruct (transcript_grows_once _ _ _ H)|].
        intros (output' & [= <-] & _ & Hyes). congruence.
  - cbn [fst snd transcript].
    split; [left; reflexivity|]. split; [|intros ? [=]].
    split; [intros H; destruct (transcript_grows_once _ _ _ H)|].
    intros (output' & [=] & _).
Qed.

Lemma add_drop_rule_iptables_outcome (option valid_ip : string) (r : recorded console) :
  add_drop_rule_iptables host_not_found option valid_ip r =
  drop_rule_outcome host_not_found
    ("iptables -C INPUT " +:+ option +:+ " " +:+ valid_ip +:+ " -j DROP")
    ("iptables -I INPUT 1 " +:+ option +:+ " " +:+ valid_ip +:+ " -j DROP") valid_ip r.
Proof.
  unfold add_drop_rule_iptables, drop_rule_outcome, bind.
  cbn [execute_command recorded_console]. unfold record at 1.
  destruct (execute_command _ (-1) (device r)) as [[output|e] c1]; [|reflexivity].
  destruct (host_not_found valid_ip output); [reflexivity|].
  destruct (contains "Bad rule" output); [|reflexivity].
  unfold record, ret. cbn [device transcript].
  destruct (execute_command _ (-1) c1) as [[output2|e2] c2];
    rewrite <- app_assoc; reflexivity.
Qed.

Lemma add_drop_rule_ip6tables_outcome (option valid_ip : string) (r : recorded console) :
  add_drop_rule_ip6tables host_not_found option valid_ip r =
  drop_rule_outcome host_not_found
    ("ip6tables -C INPUT " +:+ option +:+ " " +:+ valid_ip +:+ " -j DROP")
    ("ip6tables -I INPUT 1 " +:+ option +:+ " " +:+ valid_ip +:+ " -j DROP") valid_ip r.
Proof.
  unfold add_drop_rule_ip6tables, drop_rule_outcome, bind.
  cbn [execute_command recorded_console]. unfold record at 1.
  destruct (execute_command _ (-1) (device r)) as [[output|e] c1]; [|reflexivity].
  destruct (host_not_found valid_ip output); [reflexivity|].
  destruct (contains "Bad rule" output); [|reflexivity].
  unfold record, ret. cbn [device transcript].
  destruct (execute_command _ (-1) c1) as [[output2|e2] c2];
    rewrite <- app_assoc; reflexivity.
Qed.

(** X10.  [add_drop_rule_iptables(option, valid_ip)] asks the console
    for the check of the rule and for nothing else, or for the check and
    then one insertion of the rule at the head of [INPUT].  The
    insertion is made exactly when the check answered, its output shows
    no address that could not be found and contains [Bad rule]; an
    output that shows such an address raises [ValueError] and inserts
    nothing, [Bad rule] or not. *)
Theorem add_drop_rule_iptables_inserts_on_bad_rule
    (option valid_ip : string) (r : recorded console) :
  let check := "iptables -C INPUT " +:+ option +:+ " " +:+ valid_ip +:+ " -j DROP" in
  let insertion := "iptables -I INPUT 1 " +:+ option +:+ " " +:+ valid_ip +:+ " -j DROP" in
  let answer := fst (execute_command check (-1) (device r)) in
  let run := add_drop_rule_iptables host_not_found option valid_ip r in
  (transcript (snd run) = transcript r ++ [Executed check (-1)] \/
   transcript (snd run) = transcript r ++ [Executed check (-1); Executed insertion (-1)]) /\
  (transcript (snd run) = transcript r ++ [Executed check (-1); Executed insertion (-1)] <->
   exists output, answer = Ok output /\ host_not_found valid_ip output = false /\
                  contains "Bad rule" output = true) /\
  (forall output, answer = Ok output -> host_not_found valid_ip output = true ->
                  fst run = Raise ValueError).
Proof.
  cbv zeta. rewrite add_drop_rule_iptables_outcome. apply drop_rule_outcome_spec.
Qed.

(** X11.  [add_drop_rule_ip6tables] does the same with the [ip6tables]
    command: the check, and one insertion exactly when the check
    answered with [Bad rule] and without an address that could not be
    found, which raises [ValueError]. *)
Theorem add_drop_rule_ip6tables_inserts_on_bad_rule
    (option valid_ip : string) (r : recorded console) :
  let check := "ip6tables -C INPUT " +:+ option +:+ " " +:+ valid_ip +:+ " -j DROP" in
  let insertion := "ip6tables -I INPUT 1 " +:+ option +:+ " " +:+ valid_ip +:+ " -j DROP" in
  let answer := fst (execute_command check (-1) (device r)) in
  let run := add_drop_rule_ip6tables host_not_found option valid_ip r in
  (transcript (snd run) = transcript r ++ [Executed check (-1)] \/
   transcript (snd run) = transcript r ++ [Executed check (-1); Executed insertion (-1)]) /\
  (transcript (snd run) = transcript r ++ [Executed check (-1); Executed insertion (-1)] <->
   exists output, answer = Ok output /\ host_not_found valid_ip output = false /\
                  contains "Bad rule" output = true) /\
  (forall output, answer = Ok output -> host_not_found valid_ip output = true ->
                  fst run = Raise ValueError).
Proof.
  cbv zeta. rewrite add_drop_rule_ip6tables_outcome. apply drop_rule_outcome_spec.
Qed.

End DropRules.

(** The check finds the rule missing on the playback console: the rule
    is inserted. *)
Lemma add_drop_rule_iptables_on_playback :
  transcript
    (snd (networking.add_drop_rule_iptables (fun _ _ => false) "-s" "10.0.0.9"
            (Recorded (Playback ["iptables: Bad rule (does a matching rule exist?)"] []) [])))
  = [Executed "iptables -C INPUT -s 10.0.0.9 -j DROP" (-1);
     Executed "iptables -I INPUT 1 -s 10.0.0.9 -j DROP" (-1)].
Proof.
  apply (proj2 (proj1 (proj2 (add_drop_rule_iptables_inserts_on_bad_rule
                                (fun _ _ => false) "-s" "10.0.0.9"
                                (Recorded (Playback ["iptables: Bad rule (does a matching rule exist?)"] []) []))))).
  exists "iptables: Bad rule (does a matching rule exist?)".
  repeat split; reflexivity.
Defined.

(** An address that cannot be found on the playback console: nothing is
    inserted. *)
Lemma add_drop_rule_ip6tables_on_playback :
  fst (networking.add_drop_rule_ip6tables (fun _ output => contains "not found" output)
         "-s" "fe80::1"
         (Recorded (Playback ["host/network fe80::1 not found; Bad rule"] []) []))
  = Raise ValueError.
Proof.
  apply (proj2 (proj2 (add_drop_rule_ip6tables_inserts_on_bad_rule
                         (fun _ output => contains "not found" output) "-s" "fe80::1"
                         (Recorded (Playback ["host/network fe80::1 not found; Bad rule"] []) [])))
           "host/network fe80::1 not found; Bad rule");
    reflexivity.
Defined.

(** ** [tcpdump_read] *)

Section ReadCapture.
Import networking.
Context {console : Type} `{!_LinuxConsole console}.

(** X12.  [tcpdump_read] reads the capture with the given timeout,
    filtered by the protocol, and by the protocol and the options when
    options are given.  When the read raises, nothing more is asked of
    the console and the capture file stays.  When it answers, the file
    is removed exactly when [rm_pcap] is set, after the read, and the
    output of the read is what is returned, unless the removal raises. *)
Theorem tcpdump_read_removes_after_reading
    (capture_file protocol opts : string) (timeout : Z) (rm_pcap : bool)
    (r : recorded console) :
  let selection := if String.eqb opts "" then protocol else protocol +:+ " and " +:+ opts in
  let reading := "tcpdump -n -r " +:+ capture_file +:+ " " +:+ selection in
  let removal := "rm " +:+ capture_file in
  let run := tcpdump_read capture_file protocol opts timeout rm_pcap r in
  (forall e c1, execute_command reading timeout (device r) = (Raise e, c1) ->
     run = (Raise e, Recorded c1 (transcript r ++ [Executed reading timeout]))) /\
  (forall output c1, execute_command reading timeout (device r) = (Ok output, c1) ->
     rm_pcap = false ->
     run = (Ok output, Recorded c1 (transcript r ++ [Executed reading timeout]))) /\
  (forall output c1, execute_command reading timeout (device r) = (Ok output, c1) ->
     rm_pcap = true ->
     run = (match fst (execute_command removal (-1) c1) with
            | Ok _ => Ok output
            | Raise e => Raise e
            end,
            Recorded (snd (execute_command removal (-1) c1))
                     (transcript r ++ [Executed reading timeout; Executed removal (-1)]))).
Proof.
  intros selection reading removal run. subst run.
  unfold tcpdump_read.
  replace (if negb (String.eqb opts "") then protocol +:+ " and " +:+ opts else protocol)
    with selection by (subst selection; destruct (String.eqb opts ""); reflexivity).
  fold reading removal.
  cbn [execute_command recorded_console].
  split; [|split].
  - intros e c1 Hread. unfold bind at 1. unfold record at 1. rewrite Hread. reflexivity.
  - intros output c1 Hread ->. unfold bind at 1. unfold record at 1. rewrite Hread.
    reflexivity.
  - intros output c1 Hread ->. unfold bind at 1. unfold record at 1. rewrite Hread.
    unfold bind, record, ret. cbn [device transcript].
    destruct (execute_command removal (-1) c1) as [[output2|e2] c2];
      cbn [fst snd]; rewrite <- app_assoc; reflexivity.
Qed.

End ReadCapture.

(** The capture is read, then removed, on the playback console. *)
Lemma tcpdump_read_on_playback :
  networking.tcpdump_read "dump.pcap" "udp" "" 30 true
    (Recorded (Playback ["2 packets"; ""] []) []) =
  (Ok "2 packets",
   Recorded (Playback [] [])
            [Executed "tcpdump -n -r dump.pcap udp" 30; Executed "rm dump.pcap" (-1)]).
Proof.
  etransitivity.
  - apply (proj2 (proj2 (tcpdump_read_removes_after_reading "dump.pcap" "udp" "" 30 true
                           (Recorded (Playback ["2 packets"; ""] []) [])))
             "2 packets" (Playback [""] [])); reflexivity.
  - reflexivity.
Defined.

(** ** [scp] *)

Section SecureCopy.
Import networking.
Context {console : Type} `{!_LinuxConsole console}.

(** X13.  [scp] copies from the remote host when the action is the text
    [download] and to the remote host for every other action.  It sends
    the command and waits ten seconds for a password prompt; the
    password is sent exactly when the prompt showed, and then, as when
    it did not show, the end of the copy is awaited: [SCPConnectionError]
    is raised exactly when [100%] does not appear in time. *)
Theorem scp_sends_password_on_prompt
    (host port username password src_path dst_path action : string) (timeout : Z)
    (r : recorded console) (c1 c2 c3 c4 : console) (asked copied : Z) :
  let options := "scp -o StrictHostKeyChecking=no -o UserKnownHostsFile=/dev/null" in
  let command :=
    if String.eqb action "download"
    then options +:+ " -q -P " +:+ port +:+ " " +:+ username +:+ "@" +:+ host +:+ ":"
         +:+ src_path +:+ " " +:+ dst_path
    else options +:+ " -q -P " +:+ port +:+ " " +:+ src_path +:+ " " +:+ username +:+ "@"
         +:+ host +:+ ":" +:+ dst_path in
  let prompt := Expected [TIMEOUT; Pattern "assword:"] 10 in
  let finish := ExpectedExact [Pattern "100%"; TIMEOUT] timeout in
  let verdict :=
    if (copied =? 0)%Z then None
    else Some (SCPConnectionError
                 ("Failed to scp from " +:+ src_path +:+ " to " +:+ dst_path)) in
  let run := scp host port username password src_path dst_path action timeout r in
  sendline command (device r) = (Ok tt, c1) ->
  expect [TIMEOUT; Pattern "assword:"] 10 c1 = (Ok asked, c2) ->
  sendline password c2 = (Ok tt, c3) ->
  expect_exact [Pattern "100%"; TIMEOUT] timeout (if (asked =? 0)%Z then c2 else c3)
    = (Ok copied, c4) ->
  run = (Ok verdict,
         Recorded c4 (transcript r ++
                      if (asked =? 0)%Z then [Sent command; prompt; finish]
                      else [Sent command; prompt; Sent password; finish])).
Proof.
  intros options command prompt finish verdict run Hsend Hprompt Hpassword Hfinish.
  subst run. unfold scp. fold options. fold command.
  unfold bind at 1. cbn [sendline expect expect_exact recorded_console].
  unfold record at 1. rewrite Hsend.
  unfold bind at 1. unfold record at 1. cbn [device transcript]. rewrite Hprompt.
  unfold bind at 1.
  destruct (asked =? 0)%Z; cbn [negb].
  - unfold ret at 1. unfold bind at 1. unfold record at 1. cbn [device transcript].
    rewrite Hfinish. subst verdict.
    destruct (copied =? 0)%Z; cbn [negb]; unfold ret; rewrite <- !app_assoc; reflexivity.
  - unfold record at 1. cbn [device transcript]. rewrite Hpassword.
    unfold bind at 1. unfold record at 1. cbn [device transcript].
    rewrite Hfinish. subst verdict.
    destruct (copied =? 0)%Z; cbn [negb]; unfold ret; rewrite <- !app_assoc; reflexivity.
Qed.

End SecureCopy.

(** An upload on the playback console: the prompt shows, the password is
    sent, and the copy does not finish. *)
Lemma scp_upload_on_playback :
  networking.scp "10.0.0.9" "22" "root" "secret" "a.bin" "/tmp" "upload" 30
    (Recorded (Playback [] [1; 1]%Z) []) =
  (Ok (Some (networking.SCPConnectionError "Failed to scp from a.bin to /tmp")),
   Recorded (Playback [] [])
     [Sent ("scp -o StrictHostKeyChecking=no -o UserKnownHostsFile=/dev/null"
            +:+ " -q -P 22 a.bin root@10.0.0.9:/tmp");
      Expected [networking.TIMEOUT; networking.Pattern "assword:"] 10;
      Sent "secret";
      ExpectedExact [networking.Pattern "100%"; networking.TIMEOUT] 30]).
Proof.
  etransitivity.
  - apply (scp_sends_password_on_prompt "10.0.0.9" "22" "root" "secret" "a.bin" "/tmp"
             "upload" 30 (Recorded (Playback [] [1; 1]%Z) [])
             (Playback [] [1; 1]%Z) (Playback [] [1]%Z) (Playback [] [1]%Z) (Playback [] [])
             1 1); reflexivity.
  - reflexivity.
Defined.

(** ** [dns_lookup] *)

Section DigAnswer.
Import networking.
Context {console : Type} `{!_LinuxConsole console} {dig_result : Type}.
Variable dig_parse : string -> result dig_result.

Lemma split_max_aux_last_piece (sep s : string) :
  split_max_aux sep 0 0 s = (s, []).
Proof. destruct s; reflexivity. Qed.

Lemma split_max_once_found (c : ascii) (before after : string) :
  lacks c before = true ->
  split_max_aux (String c "") 1 0 (before +:+ String c after) = (before, [after]).
Proof.
  induction before as [|x before IH]; intros Hlacks.
  - rewrite append_nil. cbn [split_max_aux].
    rewrite prefix_cons, Ascii.eqb_refl, prefix_nil. cbn [andb String.length Nat.sub].
    rewrite split_max_aux_last_piece. reflexivity.
  - cbn [lacks all_chars] in Hlacks. apply andb_true_iff in Hlacks as [Hx Hrest].
    rewrite append_cons. cbn [split_max_aux].
    rewrite prefix_cons. apply negb_true_iff in Hx. rewrite Hx. cbn [andb].
    rewrite (IH Hrest). reflexivity.
Qed.

Lemma split_max_once_missing (c : ascii) (s : string) :
  lacks c s = true -> split_max_aux (String c "") 1 0 s = (s, []).
Proof.
  induction s as [|x s IH]; intros Hlacks; [reflexivity|].
  cbn [lacks all_chars] in Hlacks. apply andb_true_iff in Hlacks as [Hx Hrest].
  cbn [split_max_aux]. rewrite prefix_cons. apply negb_true_iff in Hx. rewrite Hx.
  cbn [andb]. rewrite (IH Hrest). reflexivity.
Qed.

(** X14.  [dns_lookup] hands to the [dig] parser the output of the
    command from after its first semicolon on, later semicolons
    included, and the whole output when there is no semicolon in it;
    what the parser answers or raises is the result. *)
Theorem dns_lookup_parses_after_first_semicolon
    (domain_name before after : string) (c c' : console) :
  lacks ";" before = true ->
  (execute_command ("dig " +:+ domain_name) (-1) c = (Ok (before +:+ ";" +:+ after), c') ->
   dns_lookup dig_parse domain_name c = (dig_parse after, c')) /\
  (execute_command ("dig " +:+ domain_name) (-1) c = (Ok before, c') ->
   dns_lookup dig_parse domain_name c = (dig_parse before, c')).
Proof.
  intros Hlacks. split; intros Hrun; unfold dns_lookup, bind at 1; rewrite Hrun;
    unfold split_max.
  - change (before +:+ ";" +:+ after) with (before +:+ String ";" after).
    rewrite (split_max_once_found ";" before after Hlacks).
    unfold bind, lift.
    change (index [before; after] (-1)) with (Ok (A:=string) after).
    reflexivity.
  - rewrite (split_max_once_missing ";" before Hlacks).
    unfold bind, lift.
    change (index [before] (-1)) with (Ok (A:=string) before).
    reflexivity.
Qed.

End DigAnswer.

(** The banner before the first semicolon is dropped on the playback
    console; the parser here keeps the text. *)
Lemma dns_lookup_on_playback :
  networking.dns_lookup (fun answer => Ok answer) "wan.boardfarm.com"
    (Playback ["banner; <<>> DiG 9.18 <<>> wan.boardfarm.com;; ANSWER SECTION"] [])
  = (Ok " <<>> DiG 9.18 <<>> wan.boardfarm.com;; ANSWER SECTION", Playback [] []).
Proof.
  apply (proj1 (dns_lookup_parses_after_first_semicolon (fun answer => Ok answer)
                  "wan.boardfarm.com" "banner"
                  " <<>> DiG 9.18 <<>> wan.boardfarm.com;; ANSWER SECTION"
                  (Playback ["banner; <<>> DiG 9.18 <<>> wan.boardfarm.com;; ANSWER SECTION"] [])
                  (Playback [] []) eq_refl)).
  reflexivity.
Defined.

(** ** [DNS.configure_hosts], both views *)

Section ConfigureHostsBoth.
Import utils networking.
Variable str_ipv6 : IPv6Address -> string.

Lemma ipv6_add_in_range a n :
  (0 <= a + n <= IPV6_ALL_ONES)%Z -> ipv6_add a n = Ok (a + n)%Z.
Proof.
  intros H. unfold ipv6_add.
  destruct (a + n <? 0)%Z eqn:E1; [lia|].
  destruct (IPV6_ALL_ONES <? a + n)%Z eqn:E2; [lia|]. reflexivity.
Qed.

(** With an auxiliary address whose offsets stay in the address space,
    the IPv6 loop appends the synthetic addresses in order. *)
Lemma add_unreachable_v6_run name aux (n : nat) : forall (first : nat) self l,
  auxv6 self = Some aux ->
  hosts_v6 self !! name = Some l ->
  (0 <= aux)%Z -> (aux + Z.of_nat first + Z.of_nat n <= IPV6_ALL_ONES)%Z ->
  for_each (Z.of_nat <$> seq first n) (add_unreachable_v6 str_ipv6 name) self =
  (Ok tt, with_hosts_v6 (insert name (l ++ synthetic_v6 str_ipv6 aux (S first) n)) self).
Proof.
  induction n as [|n IH]; intros first self l Haux Hl Hlow Hhigh.
  - simpl. unfold ret, synthetic_v6. simpl. rewrite app_nil_r.
    unfold with_hosts_v6. rewrite insert_id by exact Hl. destruct self; reflexivity.
  - cbn [seq fmap list_fmap for_each].
    unfold bind at 1. unfold add_unreachable_v6 at 1.
    unfold bind, gets, lift, modify. rewrite Haux. cbn [aux_add].
    rewrite ipv6_add_in_range by lia.
    rewrite (IH (S first) _ (l ++ [Text (str_ipv6 (aux + (Z.of_nat first + 1))%Z)]));
      [| exact Haux
       | simpl; rewrite (item_append_present _ _ l) by exact Hl; apply lookup_insert_eq
       | exact Hlow | lia].
    unfold with_hosts_v6. simpl.
    rewrite (item_append_present _ _ l) by exact Hl. rewrite insert_insert_eq.
    unfold synthetic_v6. cbn [seq fmap list_fmap]. rewrite <- app_assoc. simpl.
    replace (aux + Z.of_nat (S first))%Z with (aux + (Z.of_nat first + 1))%Z by lia.
    reflexivity.
Qed.

Lemma cut_hosts_v6 r4 r6 self :
  hosts_v6 (cut r4 r6 self) !! primary_name self =
  Some (slice_to (default [] (hosts_v6 self !! primary_name self)) r6).
Proof.
  unfold cut, item.
  destruct (hosts_v4 self !! primary_name self) as [l4|];
    destruct (hosts_v6 self !! primary_name self) as [l6|]; simpl;
    rewrite lookup_insert_eq; reflexivity.
Qed.

(** The state after the cut, field by field. *)
Lemma cut_fields r4 r6 self :
  cut r4 r6 self =
  mkDNS (auxv4 self) (auxv6 self) (_device_name self) (dnsv4 self) (dnsv6 self)
        (<[primary_name self :=
             slice_to (default [] (hosts_v4 self !! primary_name self)) r4]> (hosts_v4 self))
        (<[primary_name self :=
             slice_to (default [] (hosts_v6 self !! primary_name self)) r6]> (hosts_v6 self)).
Proof.
  unfold cut, item.
  destruct (hosts_v4 self !! primary_name self) as [l4|];
    destruct (hosts_v6 self !! primary_name self) as [l6|]; simpl;
    rewrite ?insert_insert_eq; reflexivity.
Qed.

(** With an auxiliary address of each family whose offsets stay inside
    the address spaces, the two loops run to their end on the state
    that the cut leaves. *)
Lemma configure_hosts_loops
    (self : DNS) (aux4 : IPv4Address) (aux6 : IPv6Address) (r4 u4 r6 u6 : Z) :
  auxv4 self = Some aux4 -> auxv6 self = Some aux6 ->
  (0 <= aux4)%Z -> (aux4 + u4 <= IPV4_ALL_ONES)%Z ->
  (0 <= aux6)%Z -> (aux6 + u6 <= IPV6_ALL_ONES)%Z ->
  (0 <= u4)%Z -> (0 <= u6)%Z ->
  let name := primary_name self in
  configure_hosts str_ipv6 r4 u4 r6 u6 self =
  (Ok tt,
   with_hosts_v6
     (insert name (slice_to (default [] (hosts_v6 self !! name)) r6
                   ++ synthetic_v6 str_ipv6 aux6 1 (Z.to_nat u6)))
     (with_hosts_v4
        (insert name (slice_to (default [] (hosts_v4 self !! name)) r4
                      ++ synthetic aux4 1 (Z.to_nat u4)))
        (cut r4 r6 self))).
Proof.
  intros Haux4 Haux6 Hlow4 Hhigh4 Hlow6 Hhigh6 Hu4 Hu6 name. subst name.
  rewrite configure_hosts_unfold. unfold bind, range.
  destruct (cut_aux r4 r6 self) as [Hcut4 Hcut6].
  rewrite (add_unreachable_v4_run (primary_name self) aux4 (Z.to_nat u4) 0
             (cut r4 r6 self) (slice_to (default [] (hosts_v4 self !! primary_name self)) r4));
    [| rewrite Hcut4; exact Haux4 | apply cut_hosts_v4 | exact Hlow4 | lia].
  rewrite (add_unreachable_v6_run (primary_name self) aux6 (Z.to_nat u6) 0
             _ (slice_to (default [] (hosts_v6 self !! primary_name self)) r6));
    [| simpl; rewrite Hcut6; exact Haux6 | simpl; apply cut_hosts_v6 | exact Hlow6 | lia].
  reflexivity.
Qed.

(** X15.  For a book with an auxiliary address of each family and
    non-negative counts whose offsets stay inside the two address
    spaces, [configure_hosts] succeeds and changes nothing but the two
    hosts-view lists of the device's name: each becomes the first
    [reachable] entries of its previous value followed by the
    [unreachable] synthetic addresses [aux + 1, ..., aux + unreachable]
    of its family, as texts. *)
Theorem configure_hosts_both_families
    (self : DNS) (aux4 : IPv4Address) (aux6 : IPv6Address) (r4 u4 r6 u6 : Z) :
  auxv4 self = Some aux4 -> auxv6 self = Some aux6 ->
  (0 <= aux4)%Z -> (aux4 + u4 <= IPV4_ALL_ONES)%Z ->
  (0 <= aux6)%Z -> (aux6 + u6 <= IPV6_ALL_ONES)%Z ->
  (0 <= r4)%Z -> (0 <= u4)%Z -> (0 <= r6)%Z -> (0 <= u6)%Z ->
  let name := primary_name self in
  let previous4 := default [] (hosts_v4 self !! name) in
  let previous6 := default [] (hosts_v6 self !! name) in
  configure_hosts str_ipv6 r4 u4 r6 u6 self =
  (Ok tt,
   mkDNS (auxv4 self) (auxv6 self) (_device_name self) (dnsv4 self) (dnsv6 self)
     (<[name := take (Z.to_nat r4) previous4 ++ synthetic aux4 1 (Z.to_nat u4)]>
        (hosts_v4 self))
     (<[name := take (Z.to_nat r6) previous6
                ++ synthetic_v6 str_ipv6 aux6 1 (Z.to_nat u6)]>
        (hosts_v6 self))).
Proof.
  intros Haux4 Haux6 Hlow4 Hhigh4 Hlow6 Hhigh6 Hr4 Hu4 Hr6 Hu6 name previous4 previous6.
  rewrite (configure_hosts_loops self aux4 aux6 r4 u4 r6 u6) by assumption.
  cbv zeta. rewrite cut_fields. unfold with_hosts_v4, with_hosts_v6. simpl.
  rewrite !insert_insert_eq, !slice_to_take by assumption. reflexivity.
Qed.

Lemma take_of_taken {A} (n : nat) (l more : list A) :
  n <= length l -> take n (take n l ++ more) = take n l.
Proof.
  intros Hn. rewrite take_app_le by (rewrite length_take; lia).
  rewrite take_take. f_equal. lia.
Qed.

(** X16.  Under the same conditions, when neither reachable count
    exceeds the length of the list it cuts, a second call with the same
    counts succeeds and leaves the book as the first call left it. *)
Theorem configure_hosts_twice
    (self : DNS) (aux4 : IPv4Address) (aux6 : IPv6Address) (r4 u4 r6 u6 : Z) :
  auxv4 self = Some aux4 -> auxv6 self = Some aux6 ->
  (0 <= aux4)%Z -> (aux4 + u4 <= IPV4_ALL_ONES)%Z ->
  (0 <= aux6)%Z -> (aux6 + u6 <= IPV6_ALL_ONES)%Z ->
  (0 <= r4)%Z -> (0 <= u4)%Z -> (0 <= r6)%Z -> (0 <= u6)%Z ->
  (r4 <= Z.of_nat (length (default [] (hosts_v4 self !! primary_name self))))%Z ->
  (r6 <= Z.of_nat (length (default [] (hosts_v6 self !! primary_name self))))%Z ->
  let once := snd (configure_hosts str_ipv6 r4 u4 r6 u6 self) in
  configure_hosts str_ipv6 r4 u4 r6 u6 once = (Ok tt, once).
Proof.
  intros Haux4 Haux6 Hlow4 Hhigh4 Hlow6 Hhigh6 Hr4 Hu4 Hr6 Hu6 Hlen4 Hlen6 once.
  subst once.
  rewrite (configure_hosts_loops self aux4 aux6 r4 u4 r6 u6) by assumption.
  cbv zeta. cbn [snd]. rewrite cut_fields.
  unfold with_hosts_v4 at 2, with_hosts_v6 at 2.
  cbn [auxv4 auxv6 _device_name dnsv4 dnsv6 hosts_v4 hosts_v6].
  rewrite !insert_insert_eq.
  rewrite (configure_hosts_loops _ aux4 aux6 r4 u4 r6 u6) by assumption.
  cbv zeta. rewrite cut_fields. unfold with_hosts_v4, with_hosts_v6, primary_name in *.
  cbn [auxv4 auxv6 _device_name dnsv4 dnsv6 hosts_v4 hosts_v6].
  set (previous4 := default [] (hosts_v4 self !! _)) in *.
  set (previous6 := default [] (hosts_v6 self !! _)) in *.
  rewrite !lookup_insert_eq. cbn [default from_option]. unfold id.
  rewrite !slice_to_take by assumption.
  rewrite !take_of_taken by lia. rewrite !insert_insert_eq. reflexivity.
Qed.

Lemma item_append_other (d : book) (name other : string) (x : address) :
  other <> name -> item_append d name x !! other = d !! other.
Proof.
  intros Hne. unfold item_append, item.
  destruct (d !! name); rewrite ?lookup_insert_ne by congruence; reflexivity.
Qed.

Lemma same_but_hosts_of_refl name self : same_but_hosts_of name self self.
Proof. repeat split; reflexivity. Qed.

Lemma same_but_hosts_of_trans name a b c :
  same_but_hosts_of name a b -> same_but_hosts_of name b c -> same_but_hosts_of name a c.
Proof.
  intros (H1 & H2 & H3 & H4 & H5 & H6) (K1 & K2 & K3 & K4 & K5 & K6).
  repeat split; try congruence.
  - rewrite (proj1 (H6 other H)). apply K6. exact H.
  - rewrite (proj2 (H6 other H)). apply K6. exact H.
Qed.

Lemma add_unreachable_v4_frame name (l : list Z) : forall self,
  same_but_hosts_of name (snd (for_each l (add_unreachable_v4 name) self)) self.
Proof.
  induction l as [|val l IH]; intros self; [apply same_but_hosts_of_refl|].
  cbn [for_each]. unfold bind at 1. unfold add_unreachable_v4 at 1.
  unfold bind, gets, lift, modify.
  destruct (aux_add ipv4_add (auxv4 self) (val + 1)) as [ipv4|e];
    [|apply same_but_hosts_of_refl].
  eapply same_but_hosts_of_trans; [apply IH|].
  repeat split; try reflexivity. simpl. apply item_append_other. assumption.
Qed.

Lemma add_unreachable_v6_frame name (l : list Z) : forall self,
  same_but_hosts_of name (snd (for_each l (add_unreachable_v6 str_ipv6 name) self)) self.
Proof.
  induction l as [|val l IH]; intros self; [apply same_but_hosts_of_refl|].
  cbn [for_each]. unfold bind at 1. unfold add_unreachable_v6 at 1.
  unfold bind, gets, lift, modify.
  destruct (aux_add ipv6_add (auxv6 self) (val + 1)) as [ipv6|e];
    [|apply same_but_hosts_of_refl].
  eapply same_but_hosts_of_trans; [apply IH|].
  repeat split; try reflexivity. simpl. apply item_append_other. assumption.
Qed.

(** X17.  However [configure_hosts] ends, with a result or with an
    exception, it leaves the DNS view, the auxiliary addresses and the
    device name as they were, and in the hosts view it touches no name
    but the device's own. *)
Theorem configure_hosts_touches_own_name_only (self : DNS) (r4 u4 r6 u6 : Z) :
  let after := snd (configure_hosts str_ipv6 r4 u4 r6 u6 self) in
  auxv4 after = auxv4 self /\ auxv6 after = auxv6 self /\
  _device_name after = _device_name self /\
  dnsv4 after = dnsv4 self /\ dnsv6 after = dnsv6 self /\
  forall other, other <> primary_name self ->
    hosts_v4 after !! other = hosts_v4 self !! other /\
    hosts_v6 after !! other = hosts_v6 self !! other.
Proof.
  intros after. change (same_but_hosts_of (primary_name self) after self).
  subst after. rewrite configure_hosts_unfold.
  assert (Hcut : same_but_hosts_of (primary_name self) (cut r4 r6 self) self).
  { rewrite cut_fields. repeat split; simpl; rewrite lookup_insert_ne by congruence;
      reflexivity. }
  unfold bind.
  pose proof (add_unreachable_v4_frame (primary_name self) (range u4) (cut r4 r6 self))
    as Hfirst.
  destruct (for_each (range u4) _ (cut r4 r6 self)) as [[[]|e] s1]; cbn [snd] in *.
  - eapply same_but_hosts_of_trans; [apply add_unreachable_v6_frame|].
    eapply same_but_hosts_of_trans; [exact Hfirst | exact Hcut].
  - eapply same_but_hosts_of_trans; [exact Hfirst | exact Hcut].
Qed.

End ConfigureHostsBoth.

(** One reachable address of each family, one unreachable IPv4 address
    and two unreachable IPv6 addresses on the book with both families;
    the printer of IPv6 addresses here shows the integer. *)
Lemma configure_hosts_dual_book :
  fst (networking.configure_hosts pretty 1 1 1 2 dual_book) = Ok tt /\
  networking.hosts_v4 (snd (networking.configure_hosts pretty 1 1 1 2 dual_book))
    !! "wan.boardfarm.com"
  = Some [networking.Text "10.0.0.1"; networking.Text "10.0.0.101"] /\
  networking.hosts_v6 (snd (networking.configure_hosts pretty 1 1 1 2 dual_book))
    !! "wan.boardfarm.com"
  = Some [networking.Text "2001:db8::1";
          networking.Text "42540766411282592856903984951653826817";
          networking.Text "42540766411282592856903984951653826818"].
Proof.
  rewrite (configure_hosts_both_families pretty dual_book 167772260%Z
             42540766411282592856903984951653826816%Z 1 1 1 2);
    try reflexivity; try lia;
    try (unfold utils.IPV4_ALL_ONES, networking.IPV6_ALL_ONES; lia).
  cbv zeta. cbn [fst snd networking.hosts_v4 networking.hosts_v6].
  split; [reflexivity|]. split; vm_compute; reflexivity.
Defined.

(** The same call made twice on that book. *)
Lemma configure_hosts_twice_dual_book :
  networking.configure_hosts pretty 1 1 1 2
    (snd (networking.configure_hosts pretty 1 1 1 2 dual_book))
  = (Ok tt, snd (networking.configure_hosts pretty 1 1 1 2 dual_book)).
Proof.
  apply (configure_hosts_twice pretty dual_book 167772260%Z
           42540766411282592856903984951653826816%Z 1 1 1 2);
    try reflexivity; try lia;
    try (unfold utils.IPV4_ALL_ONES, networking.IPV6_ALL_ONES; lia);
    vm_compute; discriminate.
Defined.

(** ** [DNS.__init__] *)

Section DnsInit.
Import utils networking.

Lemma item_append_own (d : book) (name : string) (x : address) :
  item_append d name x !! name = Some (default [] (d !! name) ++ [x]).
Proof.
  unfold item_append, item.
  destruct (d !! name); rewrite lookup_insert_eq; reflexivity.
Qed.

(** The two registration steps, field by field. *)
Lemma _add_dns_addresses_fields (ipv4_address ipv6_address : option string) (self : DNS) :
  _add_dns_addresses ipv4_address ipv6_address self =
  mkDNS (auxv4 self) (auxv6 self) (_device_name self)
        (match ipv4_address with
         | Some a => item_append (dnsv4 self) (primary_name self) (Text a)
         | None => dnsv4 self
         end)
        (match ipv6_address with
         | Some a => item_append (dnsv6 self) (primary_name self) (Text a)
         | None => dnsv6 self
         end)
        (hosts_v4 self) (hosts_v6 self).
Proof. destruct self, ipv4_address, ipv6_address; reflexivity. Qed.

Lemma _add_aux_dns_addresses_fields (aux_url : option string) (self : DNS) :
  _add_aux_dns_addresses aux_url self =
  mkDNS (auxv4 self) (auxv6 self) (_device_name self)
        (match auxv4 self with
         | Some aux =>
             let d := item_append (dnsv4 self) (primary_name self) (V4 aux) in
             match aux_url with Some url => item_append d url (V4 aux) | None => d end
         | None => dnsv4 self
         end)
        (match auxv6 self with
         | Some aux =>
             let d := item_append (dnsv6 self) (primary_name self) (V6 aux) in
             match aux_url with Some url => item_append d url (V6 aux) | None => d end
         | None => dnsv6 self
         end)
        (hosts_v4 self) (hosts_v6 self).
Proof. destruct self as [[] [] ? ? ? ? ?], aux_url; reflexivity. Qed.

(** What the two steps leave in a view that was empty: [own] is the
    device's own address, [aux] its auxiliary address, wrapped. *)
Lemma registered_addresses {A} (wrap : A -> address) (name : string)
    (own : option string) (aux : option A) (aux_url : option string) :
  let d0 : book :=
    match own with Some a => item_append ∅ name (Text a) | None => ∅ end in
  let d : book :=
    match aux with
    | Some x =>
        let d1 := item_append d0 name (wrap x) in
        match aux_url with Some url => item_append d1 url (wrap x) | None => d1 end
    | None => d0
    end in
  (aux_url <> Some name ->
   default [] (d !! name) = option_list (Text <$> own) ++ option_list (wrap <$> aux)) /\
  (forall url, aux_url = Some url -> url <> name ->
   d !! url = (fun x => [wrap x]) <$> aux).
Proof.
  intros d0 d. subst d d0. split.
  - intros Hurl. destruct own as [a|], aux as [x|], aux_url as [url|]; cbv zeta;
      cbn [fmap option_fmap option_map option_list app];
      repeat first [ rewrite item_append_own
                   | rewrite item_append_other by congruence
                   | rewrite lookup_empty ];
      reflexivity.
  - intros url -> Hurl. destruct own as [a|], aux as [x|]; cbv zeta;
      cbn [fmap option_fmap option_map];
      repeat first [ rewrite item_append_own
                   | rewrite item_append_other by congruence
                   | rewrite lookup_empty ];
      reflexivity.
Qed.

(** X18.  A new book shows in its hosts view what its DNS view holds.
    Unless the auxiliary URL is the name of the device itself, that name
    resolves, in each family, to the device's own address followed by
    the auxiliary address, as far as they are given; an auxiliary URL
    other than that name resolves to the auxiliary address alone, and is
    not registered in a family that has none. *)
Theorem init_hosts_view_is_dns_view
    (device_name : string) (ipv4_address ipv6_address : option string)
    (ipv4_aux_address : option IPv4Address) (ipv6_aux_address : option IPv6Address)
    (aux_url : option string) :
  let self := init device_name ipv4_address ipv6_address
                   ipv4_aux_address ipv6_aux_address aux_url in
  let name := device_name +:+ ".boardfarm.com" in
  (hosts_v4 self = dnsv4 self /\ hosts_v6 self = dnsv6 self) /\
  (aux_url <> Some name ->
   default [] (dnsv4 self !! name)
     = option_list (Text <$> ipv4_address) ++ option_list (V4 <$> ipv4_aux_address) /\
   default [] (dnsv6 self !! name)
     = option_list (Text <$> ipv6_address) ++ option_list (V6 <$> ipv6_aux_address)) /\
  (forall url, aux_url = Some url -> url <> name ->
   dnsv4 self !! url = (fun aux => [V4 aux]) <$> ipv4_aux_address /\
   dnsv6 self !! url = (fun aux => [V6 aux]) <$> ipv6_aux_address).
Proof.
  intros self name. subst self. unfold init. cbv zeta.
  rewrite _add_aux_dns_addresses_fields, _add_dns_addresses_fields.
  unfold with_hosts_v4, with_hosts_v6, primary_name, _dns_name_suffix.
  cbn [auxv4 auxv6 _device_name dnsv4 dnsv6 hosts_v4 hosts_v6]. fold name.
  pose proof (registered_addresses V4 name ipv4_address ipv4_aux_address aux_url) as H4.
  pose proof (registered_addresses V6 name ipv6_address ipv6_aux_address aux_url) as H6.
  cbv zeta in H4, H6. destruct H4 as [Hname4 Hurl4], H6 as [Hname6 Hurl6].
  split; [|split].
  - split; apply map_union_empty.
  - intros Hurl. split; [apply Hname4 | apply Hname6]; exact Hurl.
  - intros url Hsome Hne. split; [apply Hurl4 | apply Hurl6]; assumption.
Qed.

End DnsInit.

(** The book of the device [wan] with the auxiliary URL [acs]. *)
Lemma init_with_aux_url :
  networking.dnsv4
    (networking.init "wan" (Some "10.0.0.1") None (Some 167772260%Z) None (Some "acs"))
    !! "acs" = Some [networking.V4 167772260%Z] /\
  networking.dnsv6
    (networking.init "wan" (Some "10.0.0.1") None (Some 167772260%Z) None (Some "acs"))
    !! "acs" = None.
Proof.
  apply (proj2 (proj2 (init_hosts_view_is_dns_view "wan" (Some "10.0.0.1") None
                         (Some 167772260%Z) None (Some "acs"))) "acs");
    [reflexivity | discriminate].
Defined.

(* ===================================================================== *)
(** * Further properties of [boardfarm3/devices/linux_wan.py]              *)
(* ===================================================================== *)

(** ** [LinuxWAN._setup_wan]: what the directives set *)

Section SetupWanSettings.
Import linux_wan.
Context {console : Type}.
Variable execute_command : string -> M console string.
Variable IPv6Interface IPv4Interface : string -> result string.
Variable iface_dut : string.

#[local] Abbreviation wan := (@LinuxWAN console).
#[local] Abbreviation setup_option' :=
  (setup_option execute_command IPv6Interface IPv4Interface iface_dut).
#[local] Abbreviation _setup_wan' :=
  (_setup_wan execute_command IPv6Interface IPv4Interface iface_dut).

Lemma same_settings_refl (self : wan) : same_settings self self.
Proof. repeat split. Qed.

Lemma same_settings_trans (a b c : wan) :
  same_settings a b -> same_settings b c -> same_settings a c.
Proof.
  intros (H1 & H2 & H3 & H4 & H5 & H6) (K1 & K2 & K3 & K4 & K5 & K6).
  repeat split; congruence.
Qed.

Lemma keeps_settings_ret {A} (a : A) : keeps_settings (ret a : M wan A).
Proof. intros self. apply same_settings_refl. Qed.

Lemma keeps_settings_lift {A} (r : result A) : keeps_settings (lift r : M wan A).
Proof. intros self. apply same_settings_refl. Qed.

Lemma keeps_settings_gets {A} (f : wan -> A) : keeps_settings (gets f).
Proof. intros self. apply same_settings_refl. Qed.

Lemma keeps_settings_bind {A B} (c : M wan A) (k : A -> M wan B) :
  keeps_settings c -> (forall a, keeps_settings (k a)) -> keeps_settings (bind c k).
Proof.
  intros Hc Hk self. unfold bind. specialize (Hc self).
  destruct (c self) as [[a|e] self']; simpl in *; [|exact Hc].
  eapply same_settings_trans; [apply Hk | exact Hc].
Qed.

Lemma keeps_settings_run cmd : keeps_settings (run execute_command cmd).
Proof.
  intros self. unfold run.
  destruct (execute_command cmd (_console self)) as [r c]. repeat split.
Qed.

Lemma keeps_settings_for_each {A} (l : list A) (body : A -> M wan unit) :
  (forall x, keeps_settings (body x)) -> keeps_settings (for_each l body).
Proof.
  intros Hbody. induction l as [|x l IH]; simpl.
  - apply keeps_settings_ret.
  - apply keeps_settings_bind; [apply Hbody | intros _; exact IH].
Qed.

Lemma setup_route_keeps_settings route :
  keeps_settings (setup_route execute_command route).
Proof.
  unfold setup_route.
  repeat (apply keeps_settings_bind; [|intros ?]);
    auto using keeps_settings_lift, keeps_settings_run.
Qed.

(** A directive is told from the others by its text. *)
Ltac other_directive :=
  match goal with
  | H : String.eqb ?opt ?d = true |- _ =>
      apply String.eqb_eq in H; subst opt
  end.

(** What one directive does to the settings, however the round ends. *)
Lemma setup_option_effect (opt : string) (self : wan) :
  let after := snd (setup_option' opt self) in
  _wan_dhcp after = _wan_dhcp self || String.eqb opt "wan-dhcp-client" /\
  _wan_no_eth0 after = _wan_no_eth0 self || String.eqb opt "wan-no-eth0" /\
  _wan_dhcpv6 after = _wan_dhcpv6 self || String.eqb opt "wan-dhcp-client-v6" /\
  _static_route after = (if is_route opt then route_of opt else _static_route self) /\
  _config after = _config self.
Proof.
  unfold setup_option, is_route, route_of.
  destruct (startswith opt "wan-static-route:") eqn:Hroute.
  { assert (H1 : String.eqb opt "wan-dhcp-client" = false)
      by (apply String.eqb_neq; intros ->; discriminate).
    assert (H2 : String.eqb opt "wan-no-eth0" = false)
      by (apply String.eqb_neq; intros ->; discriminate).
    assert (H3 : String.eqb opt "wan-dhcp-client-v6" = false)
      by (apply String.eqb_neq; intros ->; discriminate).
    rewrite H1, H2, H3, !orb_false_r. repeat split. }
  destruct (String.eqb opt "wan-dhcp-client") eqn:H1.
  { other_directive. cbn. rewrite orb_true_r. repeat split; rewrite orb_false_r; reflexivity. }
  destruct (String.eqb opt "wan-no-eth0") eqn:H2.
  { other_directive. cbn. rewrite orb_true_r. repeat split; rewrite orb_false_r; reflexivity. }
  destruct (String.eqb opt "wan-no-dhcp-server") eqn:H4.
  { other_directive. cbn. repeat split; rewrite orb_false_r; reflexivity. }
  destruct (String.eqb opt "wan-dhcp-client-v6") eqn:H3.
  { other_directive. cbn. rewrite orb_true_r. repeat split; rewrite orb_false_r; reflexivity. }
  rewrite !orb_false_r.
  assert (Hkeeps : keeps_settings (A:=unit)
            (if startswith opt "wan-static-ipv6:"
             then
               let ipv6_address := replace "wan-static-ipv6:" "" opt in
               ipv6_interface <- lift (IPv6Interface ipv6_address) ;;
               run execute_command
                 ("sysctl -w net.ipv6.conf." +:+ iface_dut +:+ ".accept_dad=0") ;;
               run execute_command
                 ("ip -6 addr del " +:+ ipv6_interface +:+ " dev " +:+ iface_dut) ;;
               run execute_command
                 ("ip -6 addr add " +:+ ipv6_interface +:+ " dev " +:+ iface_dut)
             else if startswith opt "wan-static-ip:"
             then
               let value := replace "wan-static-ip:" "" opt in
               ipv4_interface <- lift (IPv4Interface value) ;;
               run execute_command
                 ("ip -4 addr del " +:+ ipv4_interface +:+ " dev " +:+ iface_dut) ;;
               run execute_command
                 ("ip -4 addr add " +:+ ipv4_interface +:+ " dev " +:+ iface_dut)
             else ret tt)).
  { destruct (startswith opt "wan-static-ipv6:"); [|destruct (startswith opt "wan-static-ip:")];
      cbv zeta;
      repeat (apply keeps_settings_bind; [|intros ?]);
      auto using keeps_settings_lift, keeps_settings_run, keeps_settings_ret. }
  destruct (Hkeeps self) as (K1 & K2 & K3 & K4 & K5 & K6). auto.
Qed.

Lemma existsb_eqb_elem (d : string) (l : list string) :
  existsb (fun opt => String.eqb opt d) l = bool_decide (d ∈ l).
Proof.
  induction l as [|x l IH]; [reflexivity|]. simpl. rewrite IH.
  destruct (String.eqb x d) eqn:E.
  - apply String.eqb_eq in E. subst. simpl. symmetry. apply bool_decide_eq_true.
    left.
  - apply String.eqb_neq in E. simpl.
    destruct (bool_decide (d ∈ l)) eqn:Hin.
    + symmetry. apply bool_decide_eq_true. right.
      apply bool_decide_eq_true in Hin. exact Hin.
    + symmetry. apply bool_decide_eq_false. intros Hcons.
      apply elem_of_cons in Hcons as [Heq|Hcons]; [congruence|].
      apply bool_decide_eq_false in Hin. contradiction.
Qed.

Lemma bind_Ok_inv {S A B} (c : M S A) (k : A -> M S B) (s : S) (b : B) :
  fst (bind c k s) = Ok b ->
  exists a, fst (c s) = Ok a /\ bind c k s = k a (snd (c s)).
Proof.
  unfold bind. destruct (c s) as [[a|e] s']; simpl; intros H; [|discriminate].
  exists a. split; reflexivity.
Qed.

(** A sequence that did not raise: its first step did not, and the rest
    ran from where that step ended. *)
Ltac step_of H :=
  let a := fresh "a" in
  let Hstep := fresh "Hstep" in
  let Heq := fresh "Heq" in
  pose proof (bind_Ok_inv _ _ _ _ H) as (a & Hstep & Heq);
  rewrite Heq in H; try rewrite Heq; clear Heq.

(** The flags after a loop over the directives that did not raise. *)
Lemma options_set_flags (options : list string) : forall self : wan,
  fst (for_each options setup_option' self) = Ok tt ->
  let after := snd (for_each options setup_option' self) in
  _wan_dhcp after = _wan_dhcp self || bool_decide ("wan-dhcp-client" ∈ options) /\
  _wan_no_eth0 after = _wan_no_eth0 self || bool_decide ("wan-no-eth0" ∈ options) /\
  _wan_dhcpv6 after = _wan_dhcpv6 self || bool_decide ("wan-dhcp-client-v6" ∈ options) /\
  _config after = _config self.
Proof.
  rewrite <- !existsb_eqb_elem.
  induction options as [|opt options IH]; intros self Hok.
  - simpl. rewrite !orb_false_r. repeat split.
  - cbn [for_each] in *. step_of Hok.
    destruct (setup_option_effect opt self) as (E1 & E2 & E3 & _ & E5).
    specialize (IH _ Hok). cbv zeta in IH. destruct IH as (I1 & I2 & I3 & I5).
    cbn [existsb]. rewrite I1, I2, I3, I5, E1, E2, E3, E5, !orb_assoc. repeat split.
Qed.

Lemma for_each_app {S A} (l1 l2 : list A) (body : A -> M S unit) (s : S) :
  for_each (l1 ++ l2) body s = bind (for_each l1 body) (fun _ => for_each l2 body) s.
Proof.
  revert s. induction l1 as [|x l1 IH]; intros s; [reflexivity|].
  cbn [app for_each]. unfold bind.
  destruct (body x s) as [[[]|e] s']; [|reflexivity].
  rewrite IH. reflexivity.
Qed.

(** Directives other than static routes leave the route as it is. *)
Lemma options_keep_route (options : list string) : forall self : wan,
  Forall (fun opt => is_route opt = false) options ->
  _static_route (snd (for_each options setup_option' self)) = _static_route self.
Proof.
  induction options as [|opt options IH]; intros self Hnone; [reflexivity|].
  apply Forall_cons_1 in Hnone as [Hopt Hrest].
  cbn [for_each]. unfold bind.
  destruct (setup_option_effect opt self) as (_ & _ & _ & E4 & _).
  rewrite Hopt in E4.
  destruct (setup_option' opt self) as [[[]|e] s']; cbn [snd] in *; [|exact E4].
  rewrite (IH s' Hrest). exact E4.
Qed.

(** What a run of [_setup_wan] that did not raise went through. *)
Lemma _setup_wan_Ok (self : wan) (text : string) :
  _config self !! "options" = Some text ->
  fst (_setup_wan' self) = Ok tt ->
  exists before : wan,
    same_settings before self /\
    fst (for_each (strip <$> split "," text) setup_option' before) = Ok tt /\
    same_settings (snd (_setup_wan' self))
                  (snd (for_each (strip <$> split "," text) setup_option' before)).
Proof.
  intros Hconfig Hok. unfold _setup_wan in *.
  unfold bind at 1 in Hok. unfold bind at 1. unfold gets in *.
  rewrite Hconfig in *.
  step_of Hok.
  pose proof (keeps_settings_run ("ifconfig " +:+ iface_dut +:+ " down") self) as K1.
  set (s1 := snd (run execute_command ("ifconfig " +:+ iface_dut +:+ " down") self)) in *.
  step_of Hok.
  pose proof (keeps_settings_run ("ifconfig " +:+ iface_dut +:+ " up") s1) as K2.
  set (s2 := snd (run execute_command ("ifconfig " +:+ iface_dut +:+ " up") s1)) in *.
  exists s2. split; [eapply same_settings_trans; eassumption|].
  pose proof (bind_Ok_inv _ _ _ _ Hok) as ([] & Hloop & Heq3). rewrite Heq3.
  split; [exact Hloop|].
  set (s3 := snd (for_each (strip <$> split "," text) setup_option' s2)) in *.
  unfold bind at 1. cbn [fst snd].
  destruct (negb (String.eqb (_static_route s3) "")).
  - apply (keeps_settings_for_each _ _ setup_route_keeps_settings).
  - apply same_settings_refl.
Qed.

(** X19.  Without an [options] entry in its configuration
    [_setup_wan] does nothing at all.  With one, a run that does not
    raise leaves the DHCP-client flag, the no-eth0 flag and the DHCPv6
    flag set exactly when they were set before or their directive is
    among the comma-separated, stripped options, and leaves the
    configuration as it was. *)
Theorem _setup_wan_flags_follow_directives (self : wan) :
  (_config self !! "options" = None -> _setup_wan' self = (Ok tt, self)) /\
  (forall text,
     _config self !! "options" = Some text ->
     fst (_setup_wan' self) = Ok tt ->
     let options := strip <$> split "," text in
     let after := snd (_setup_wan' self) in
     _wan_dhcp after = _wan_dhcp self || bool_decide ("wan-dhcp-client" ∈ options) /\
     _wan_no_eth0 after = _wan_no_eth0 self || bool_decide ("wan-no-eth0" ∈ options) /\
     _wan_dhcpv6 after
       = _wan_dhcpv6 self || bool_decide ("wan-dhcp-client-v6" ∈ options) /\
     _config after = _config self).
Proof.
  split.
  - intros Hnone. unfold _setup_wan, bind, gets. rewrite Hnone. reflexivity.
  - intros text Hconfig Hok options after.
    destruct (_setup_wan_Ok self text Hconfig Hok)
      as (before & (_ & B2 & B3 & _ & B5 & B6) & Hloop & (_ & A2 & A3 & _ & A5 & A6)).
    destruct (options_set_flags _ before Hloop) as (F1 & F2 & F3 & F4).
    subst after options.
    rewrite A2, A3, A5, A6, F1, F2, F3, F4, B2, B3, B5, B6. repeat split.
Qed.

(** X20.  In a run of [_setup_wan] that does not raise, the last
    static-route directive among the options decides the static route:
    it is the text of that directive after its prefix, with every [-]
    turned into [ via ]; without such a directive the route stays as it
    was. *)
Theorem _setup_wan_last_static_route_wins (self : wan) (text : string) :
  _config self !! "options" = Some text ->
  fst (_setup_wan' self) = Ok tt ->
  let options := strip <$> split "," text in
  let after := snd (_setup_wan' self) in
  (Forall (fun opt => startswith opt "wan-static-route:" = false) options ->
   _static_route after = _static_route self) /\
  (forall before opt later,
     options = before ++ opt :: later ->
     startswith opt "wan-static-route:" = true ->
     Forall (fun opt => startswith opt "wan-static-route:" = false) later ->
     _static_route after
       = replace "-" " via " (replace "wan-static-route:" "" opt)).
Proof.
  intros Hconfig Hok options after.
  destruct (_setup_wan_Ok self text Hconfig Hok)
    as (start & (B1 & _) & Hloop & (A1 & _)).
  subst after. fold options in Hloop, A1. rewrite A1. split.
  - intros Hnone. rewrite options_keep_route by exact Hnone. exact B1.
  - intros before opt later Hsplit Hroute Hlater.
    rewrite Hsplit in *. rewrite for_each_app in *.
    step_of Hloop. cbn [for_each] in *. step_of Hloop.
    rewrite options_keep_route by exact Hlater.
    destruct (setup_option_effect opt (snd (for_each before setup_option' start)))
      as (_ & _ & _ & E4 & _).
    unfold is_route in E4. rewrite Hroute in E4. exact E4.
Qed.

End SetupWanSettings.

(** The flags and the route of the sample configuration. *)
Lemma _setup_wan_with_options :
  let after := snd (linux_wan._setup_wan echo_console Ok Ok "eth1" wan_with_options) in
  linux_wan._wan_dhcp after = true /\ linux_wan._wan_no_eth0 after = true /\
  linux_wan._wan_dhcpv6 after = false.
Proof.
  cbv zeta.
  destruct (proj2 (_setup_wan_flags_follow_directives echo_console Ok Ok "eth1"
                     wan_with_options)
              "wan-dhcp-client, wan-no-eth0,wan-static-route:10.0.0.0/24-10.0.0.1"
              eq_refl eq_refl) as (H1 & H2 & H3 & _).
  rewrite H1, H2, H3. repeat split.
Defined.

Lemma _setup_wan_route_of_options :
  linux_wan._static_route
    (snd (linux_wan._setup_wan echo_console Ok Ok "eth1" wan_with_options))
  = "10.0.0.0/24 via 10.0.0.1".
Proof.
  rewrite (proj2 (_setup_wan_last_static_route_wins echo_console Ok Ok "eth1"
                    wan_with_options
                    "wan-dhcp-client, wan-no-eth0,wan-static-route:10.0.0.0/24-10.0.0.1"
                    eq_refl eq_refl)
             ["wan-dhcp-client"; "wan-no-eth0"] "wan-static-route:10.0.0.0/24-10.0.0.1" []
             eq_refl eq_refl ltac:(constructor)).
  reflexivity.
Defined.

(** ** [connect_to_board_via_reverse_ssh] *)

Section GuardedCommands.
Import networking linux_wan.
Context {console : Type} `{!_LinuxConsole console}.
Variable _shell_prompt : list pattern.

Lemma record_transcript {A} (a : action) (c : M console A) (r : recorded console) :
  transcript (snd (record a c r)) = transcript r ++ [a].
Proof. unfold record. destruct (c (device r)). reflexivity. Qed.

(** X21.  [connect_to_board_via_reverse_ssh] refuses a password: with
    one it raises [ValueError] and nothing reaches the console.
    Without one, a call that does not raise has sent the [ssh] command
    for the user and the port, [ifconfig erouter0] and [exit], in this
    order, and has waited for the board prompt after the first two and
    for the shell prompt after the third. *)
Theorem connect_to_board_via_reverse_ssh_refuses_password
    (rssh_username reverse_ssh_port : string) (r : recorded console) :
  (forall rssh_password,
     connect_to_board_via_reverse_ssh _shell_prompt rssh_username
       (Some rssh_password) reverse_ssh_port r = (Raise ValueError, r)) /\
  (let run := connect_to_board_via_reverse_ssh _shell_prompt rssh_username
                None reverse_ssh_port r in
   fst run = Ok tt ->
   transcript (snd run) =
     transcript r ++
     [Sent ("ssh " +:+ rssh_username +:+ "@localhost -p " +:+ reverse_ssh_port
            +:+ " -o StrictHostKeyChecking=no -o UserKnownHostsFile=/dev/null");
      Expected [Pattern "root@[\w-]+:[\w/~]+#"] (-1);
      Sent "ifconfig erouter0";
      Expected [Pattern "root@[\w-]+:[\w/~]+#"] (-1);
      Sent "exit";
      Expected _shell_prompt (-1)]).
Proof.
  split; [reflexivity|].
  intros run Hok. subst run. unfold connect_to_board_via_reverse_ssh in *.
  cbv zeta in *. cbn [sendline expect recorded_console] in *.
  repeat match type of Hok with
         | fst (bind ?c ?k ?s) = Ok _ =>
             let a := fresh "a" in
             let Hstep := fresh "Hstep" in
             let Heq := fresh "Heq" in
             pose proof (bind_Ok_inv _ _ _ _ Hok) as (a & Hstep & Heq);
             rewrite Heq in Hok; rewrite Heq; clear Heq Hstep
         end.
  unfold ret. cbn [snd]. rewrite !record_transcript, <- !app_assoc.
  reflexivity.
Qed.

End GuardedCommands.

(** The dialogue of a reverse SSH connection on the playback console. *)
Lemma connect_to_board_via_reverse_ssh_on_playback :
  transcript
    (snd (linux_wan.connect_to_board_via_reverse_ssh [networking.Pattern "\$"]
            "admin" None "8022" (Recorded (Playback [] []) [])))
  = [Sent ("ssh admin@localhost -p 8022 -o StrictHostKeyChecking=no"
           +:+ " -o UserKnownHostsFile=/dev/null");
     Expected [networking.Pattern "root@[\w-]+:[\w/~]+#"] (-1);
     Sent "ifconfig erouter0";
     Expected [networking.Pattern "root@[\w-]+:[\w/~]+#"] (-1);
     Sent "exit";
     Expected [networking.Pattern "\$"] (-1)].
Proof.
  apply (proj2 (connect_to_board_via_reverse_ssh_refuses_password
                  [networking.Pattern "\$"] "admin" "8022"
                  (Recorded (Playback [] []) []))).
  reflexivity.
Defined.

(** ** [_validate_dns_env_request] *)

Section DnsCheck.
Import networking linux_wan.
Context {console : Type} `{!_LinuxConsole console} {nslookup_result : Type}.
Variable parse_nslookup_output : string -> result nslookup_result.
Variable domain_ip_addr : nslookup_result -> list string.
Variable is_ipv6 : string -> bool.
Variable ping : string -> Z -> M console bool.

#[local] Abbreviation measured' := (measured is_ipv6).

Lemma measured_cons (ip_address : string) (answer : bool) addresses answers ipv6 answered :
  measured' (ip_address :: addresses) (answer :: answers) ipv6 answered =
  ((if Bool.eqb (is_ipv6 ip_address) ipv6 && Bool.eqb answer answered then 1 else 0)
   + measured' addresses answers ipv6 answered)%Z.
Proof.
  unfold measured. cbn [zip zip_with]. rewrite filter_cons.
  destruct (decide _) as [Hyes|Hno].
  - apply Is_true_true in Hyes. rewrite Hyes. cbn [length]. lia.
  - apply Is_true_false in Hno. rewrite Hno. lia.
Qed.

(** The counters after the pings: what they were, and what was
    measured. *)
Lemma ping_addresses_counts (addresses : list string) :
  forall (status : ping_status) (c c2 : console) (answers : list bool),
  ping_each ping addresses c = (Ok answers, c2) ->
  ping_addresses is_ipv6 ping addresses status c =
    (Ok (PingStatus
           (ipv4_reachable status + measured' addresses answers false true)
           (ipv4_unreachable status + measured' addresses answers false false)
           (ipv6_reachable status + measured' addresses answers true true)
           (ipv6_unreachable status + measured' addresses answers true false)), c2).
Proof.
  induction addresses as [|ip_address addresses IH]; intros status c c2 answers Hpings.
  - injection Hpings as <- <-. unfold measured. simpl. rewrite !Z.add_0_r.
    destruct status; reflexivity.
  - cbn [ping_each ping_addresses] in *. unfold bind in *.
    destruct (ping ip_address 2 c) as [[answer|e] c1]; [|discriminate].
    destruct (ping_each ping addresses c1) as [[rest|e] c1'] eqn:Hrest; [|discriminate].
    injection Hpings as <- <-.
    rewrite (IH _ _ _ _ Hrest). rewrite !measured_cons.
    destruct (is_ipv6 ip_address), answer;
      cbn [count ipv4_reachable ipv4_unreachable ipv6_reachable ipv6_unreachable
           Bool.eqb andb];
      do 2 f_equal; f_equal; lia.
Qed.

Lemma compare_statuses_None (ip_version : string) (requested : gmap string value)
    (reachable unreachable : Z) :
  compare_statuses ip_version requested
    [("reachable", reachable); ("unreachable", unreachable)] = None <->
  (forall wanted, requested !! "reachable" = Some wanted -> ne_int wanted reachable = false) /\
  (forall wanted, requested !! "unreachable" = Some wanted ->
                  ne_int wanted unreachable = false).
Proof.
  cbn [compare_statuses].
  destruct (requested !! "reachable") as [w1|];
    [destruct (ne_int w1 reachable) eqn:H1|];
    (destruct (requested !! "unreachable") as [w2|];
     [destruct (ne_int w2 unreachable) eqn:H2|]);
    (split;
     [ intros Hnone; try discriminate Hnone;
       split; intros w Hw; inversion Hw; subst; assumption
     | intros [Ha Hb]; try reflexivity;
       first [ specialize (Ha _ eq_refl); congruence
             | specialize (Hb _ eq_refl); congruence ] ]).
Qed.

(** [!=] answers [False] exactly on a value that is the number. *)
Lemma ne_int_is_number (v : value) (n : Z) :
  ne_int v n = false <-> is_number v n.
Proof.
  destruct v as [| b | z | | |]; cbn [ne_int is_number];
    try (split; [discriminate | contradiction]);
    rewrite negb_false_iff, Z.eqb_eq; reflexivity.
Qed.

Lemma compare_statuses_numbers (ip_version : string) (requested : gmap string value)
    (reachable unreachable : Z) :
  compare_statuses ip_version requested
    [("reachable", reachable); ("unreachable", unreachable)] = None <->
  (forall wanted, requested !! "reachable" = Some wanted -> is_number wanted reachable) /\
  (forall wanted, requested !! "unreachable" = Some wanted ->
                  is_number wanted unreachable).
Proof.
  rewrite compare_statuses_None.
  split; intros [A B]; split; intros wanted Hwanted;
    apply ne_int_is_number; auto.
Qed.

(** X22.  When the lookup of [acs_server.boardfarm.com] answers and
    every resolved address is pinged with two packets,
    [_validate_dns_env_request] passes exactly when every count that the
    request names, for IPv4 or IPv6 and for reachable or unreachable
    servers, equals the number of resolved addresses of that family
    that answered, or did not answer, the ping; a family or a status
    that the request does not name is not looked at, and otherwise
    [ContingencyCheckError] is raised. *)
Theorem _validate_dns_env_request_compares_counts
    (acs_server_config : gmap string (gmap string value))
    (output : nslookup_result) (answers : list bool) (c c1 c2 : console) :
  nslookup parse_nslookup_output "acs_server.boardfarm.com" "" "" c = (Ok output, c1) ->
  ping_each ping (domain_ip_addr output) c1 = (Ok answers, c2) ->
  let counted := measured' (domain_ip_addr output) answers in
  exists verdict,
    _validate_dns_env_request parse_nslookup_output domain_ip_addr is_ipv6 ping
      acs_server_config c = (Ok verdict, c2) /\
    (verdict = None <->
     agrees acs_server_config "ipv4" "reachable" (counted false true) /\
     agrees acs_server_config "ipv4" "unreachable" (counted false false) /\
     agrees acs_server_config "ipv6" "reachable" (counted true true) /\
     agrees acs_server_config "ipv6" "unreachable" (counted true false)).
Proof.
  intros Hlookup Hpings counted.
  unfold _validate_dns_env_request. unfold bind at 1. rewrite Hlookup.
  unfold bind at 1. rewrite (ping_addresses_counts _ _ _ _ _ Hpings).
  unfold ret. eexists. split; [reflexivity|].
  unfold items.
  cbn [compare_versions ipv4_reachable ipv4_unreachable ipv6_reachable ipv6_unreachable].
  rewrite !Z.add_0_l. fold counted. unfold agrees.
  assert (Hsame : forall raised : option exception,
            match raised with Some e => Some e | None => None end = raised)
    by (intros []; reflexivity).
  destruct (acs_server_config !! "ipv4") as [r4|];
    destruct (acs_server_config !! "ipv6") as [r6|]; rewrite ?Hsame.
  - destruct (compare_statuses "ipv4" r4 _) eqn:H4.
    + split; [intros [=]|]. intros (A1 & A2 & _).
      assert (Hnone : compare_statuses "ipv4" r4
                        [("reachable", counted false true);
                         ("unreachable", counted false false)] = None)
        by (apply compare_statuses_numbers; split; intros w Hw; eauto).
      congruence.
    + apply compare_statuses_numbers in H4 as [A1 A2].
      rewrite compare_statuses_numbers. split.
      * intros [B1 B2]. repeat split; intros ? ? [= <-]; auto.
      * intros (_ & _ & B1 & B2). split; intros w Hw; eauto.
  - rewrite compare_statuses_numbers. split.
    + intros [A1 A2]. repeat split; intros ? ? [=]; subst; auto.
    + intros (A1 & A2 & _). split; intros w Hw; eauto.
  - rewrite compare_statuses_numbers. split.
    + intros [A1 A2]. repeat split; intros ? ? [=]; subst; auto.
    + intros (_ & _ & A1 & A2). split; intros w Hw; eauto.
  - split; [|reflexivity]. intros _. repeat split; intros ? ? [=].
Qed.

End DnsCheck.

(** One IPv4 address that answers and one IPv6 address that does not,
    against a request for exactly that. *)
Lemma _validate_dns_env_request_on_playback :
  exists verdict,
    linux_wan._validate_dns_env_request two_addresses (fun addresses => addresses)
      has_colon ping_ipv4_only
      {[ "ipv4" := {[ "reachable" := VInt 1; "unreachable" := VInt 0 ]};
         "ipv6" := {[ "unreachable" := VInt 1 ]} ]}
      (Playback ["Name: acs_server.boardfarm.com"] [])
    = (Ok verdict, Playback [] []) /\
    (verdict = None <->
     agrees {[ "ipv4" := {[ "reachable" := VInt 1; "unreachable" := VInt 0 ]};
               "ipv6" := {[ "unreachable" := VInt 1 ]} ]}
            "ipv4" "reachable"
            (measured has_colon ["10.0.0.5"; "2001:db8::5"] [true; false] false true) /\
     agrees {[ "ipv4" := {[ "reachable" := VInt 1; "unreachable" := VInt 0 ]};
               "ipv6" := {[ "unreachable" := VInt 1 ]} ]}
            "ipv4" "unreachable"
            (measured has_colon ["10.0.0.5"; "2001:db8::5"] [true; false] false false) /\
     agrees {[ "ipv4" := {[ "reachable" := VInt 1; "unreachable" := VInt 0 ]};
               "ipv6" := {[ "unreachable" := VInt 1 ]} ]}
            "ipv6" "reachable"
            (measured has_colon ["10.0.0.5"; "2001:db8::5"] [true; false] true true) /\
     agrees {[ "ipv4" := {[ "reachable" := VInt 1; "unreachable" := VInt 0 ]};
               "ipv6" := {[ "unreachable" := VInt 1 ]} ]}
            "ipv6" "unreachable"
            (measured has_colon ["10.0.0.5"; "2001:db8::5"] [true; false] true false)).
Proof.
  apply (_validate_dns_env_request_compares_counts two_addresses
           (fun addresses => addresses) has_colon ping_ipv4_only _
           ["10.0.0.5"; "2001:db8::5"] [true; false]
           (Playback ["Name: acs_server.boardfarm.com"] []) (Playback [] [])
           (Playback [] []));
    reflexivity.
Defined.

(** Against a request for two IPv4 addresses that answer, the same
    lookup ends in [ContingencyCheckError]. *)
Example _validate_dns_env_request_mismatch :
  fst (linux_wan._validate_dns_env_request two_addresses (fun addresses => addresses)
         has_colon ping_ipv4_only
         {[ "ipv4" := {[ "reachable" := VInt 2 ]} ]}
         (Playback ["Name: acs_server.boardfarm.com"] []))
  = Ok (Some (linux_wan.ContingencyCheckError
                ("DNS check failed for ipv4 reachable servers "
                 +:+ "- requested: {acs_server_config[ip_version][status]}, "
                 +:+ "actual: {value}"))).
Proof. reflexivity. Qed.

(* ===================================================================== *)
(** * Further properties of [boardfarm/plugins/core.py]                    *)
(* ===================================================================== *)

(** ** The device prompt *)

Section DeviceSelection.
Import core.

(** The table and the prompt are shown and one line is read; what
    follows depends on the line alone. *)
Lemma _get_device_name_from_user_asks
    (devices_dict : gmap string BoardfarmDevice) (device_id : string)
    (rest : list string) (before : list event) :
  exists shown,
    forallb quiet shown = true /\
    _get_device_name_from_user devices_dict "q" (Terminal (device_id :: rest) before) =
    (if String.eqb device_id "q" then
       ret (Some device_id)
     else if negb (isdigit device_id) then
       print (nl +:+ "ERROR: Wrong input. Please try again." +:+ nl) ;;
       ret None
     else
       n <- lift (int device_id) ;;
       if (n >? Z.of_nat (length (listed devices_dict)))%Z then
         print (nl +:+ "ERROR: Wrong device ID. Please try again." +:+ nl) ;;
         ret None
       else
         device_name <- lift (index (listed devices_dict) (n - 1)) ;;
         ret (Some device_name))
      (Terminal rest (before ++ shown)).
Proof.
  unfold _get_device_name_from_user. fold (listed devices_dict).
  do 3 (unfold bind at 1; unfold print at 1, emit at 1, modify at 1;
        cbn [stdin screen]).
  unfold bind at 1.
  destruct (device_rows_printed devices_dict (enumerate1 (listed devices_dict))
              (Terminal (device_id :: rest)
                 (((before ++ [Printed "----------------------------------------------"])
                   ++ [Printed "ID  Device name      Device type      Consoles"])
                  ++ [Printed "----------------------------------------------"]))
              (enumerate1_known devices_dict)) as (rows & Hrows & Hquiet).
  rewrite Hrows. cbn [stdin screen].
  unfold bind at 1; unfold print at 1, emit at 1, modify at 1; cbn [stdin screen].
  unfold bind at 1; unfold input at 1; cbn [stdin screen].
  eexists. split; [|rewrite <- !app_assoc; reflexivity].
  rewrite !forallb_app, Hquiet. reflexivity.
Qed.

(** A text that [int] reads is a digit string, and is not the exit
    code. *)
Lemma all_chars_weaken (p q : ascii -> bool) (s : string) :
  (forall c, p c = true -> q c = true) -> all_chars p s = true -> all_chars q s = true.
Proof.
  intros Hpq. induction s as [|c s IH]; [reflexivity|].
  cbn [all_chars]. intros H. apply andb_true_iff in H as [Hc Hs].
  rewrite (Hpq c Hc), (IH Hs). reflexivity.
Qed.

Lemma int_Ok_isdigit (s : string) (n : Z) :
  int s = Ok n -> isdigit s = true /\ String.eqb s "q" = false.
Proof.
  unfold int, isdigit. intros H.
  destruct (negb (String.eqb s "")) eqn:Hempty; [|discriminate].
  destruct (all_chars is_decimal s) eqn:Hdecimal; [|discriminate].
  split.
  - rewrite (all_chars_weaken is_decimal is_digit_char s); [reflexivity| |exact Hdecimal].
    intros c Hc. unfold is_digit_char. rewrite Hc. reflexivity.
  - apply String.eqb_neq. intros ->. discriminate.
Qed.

Lemma index_positive {A} (l : list A) (n : Z) (x : A) :
  (1 <= n)%Z -> l !! Z.to_nat (n - 1) = Some x -> index l (n - 1) = Ok x.
Proof.
  intros Hn Hx. unfold index.
  rewrite (proj2 (Z.ltb_ge (n - 1) 0)) by lia.
  cbv zeta. rewrite (proj2 (Z.ltb_ge (n - 1) 0)) by lia. rewrite Hx. reflexivity.
Qed.

(** The number of a row selects the device of that row. *)
Lemma _get_device_name_from_user_row
    (devices_dict : gmap string BoardfarmDevice) (device_id name : string) (n : Z)
    (rest : list string) (before : list event) :
  int device_id = Ok n ->
  (1 <= n <= Z.of_nat (size devices_dict))%Z ->
  listed devices_dict !! Z.to_nat (n - 1) = Some name ->
  exists shown,
    _get_device_name_from_user devices_dict "q" (Terminal (device_id :: rest) before)
      = (Ok (Some name), Terminal rest (before ++ shown)) /\
    forallb quiet shown = true.
Proof.
  intros Hint [Hlow Hhigh] Hrow.
  destruct (_get_device_name_from_user_asks devices_dict device_id rest before)
    as (shown & Hquiet & Hrun).
  destruct (int_Ok_isdigit device_id n Hint) as [Hdigit Hexit].
  exists shown. split; [|exact Hquiet].
  rewrite Hrun, Hexit, Hdigit. cbn [negb].
  unfold bind at 1, lift at 1. rewrite Hint. rewrite listed_length.
  rewrite Z.gtb_ltb, (proj2 (Z.ltb_ge _ _)) by lia.
  unfold bind, lift, ret. rewrite (index_positive _ n name Hlow Hrow). reflexivity.
Qed.

(** X23.  A device ID that is the decimal number of a row of the table,
    from 1 to the number of devices, selects the device of that row,
    the devices being listed in the sorted order of their names; the
    prompt reads that one line and starts no session. *)
Theorem _get_device_name_from_user_selects_row
    (devices_dict : gmap string BoardfarmDevice) (device_id : string) (n : Z)
    (rest : list string) (before : list event) :
  int device_id = Ok n ->
  (1 <= n <= Z.of_nat (size devices_dict))%Z ->
  exists name shown,
    listed devices_dict !! Z.to_nat (n - 1) = Some name /\
    is_Some (devices_dict !! name) /\
    _get_device_name_from_user devices_dict "q" (Terminal (device_id :: rest) before)
      = (Ok (Some name), Terminal rest (before ++ shown)) /\
    forallb quiet shown = true.
Proof.
  intros Hint Hn.
  destruct (listed devices_dict !! Z.to_nat (n - 1)) as [name|] eqn:Hrow.
  2: { apply lookup_ge_None in Hrow. rewrite listed_length in Hrow. lia. }
  destruct (_get_device_name_from_user_row devices_dict device_id name n rest before
              Hint Hn Hrow) as (shown & Hrun & Hquiet).
  exists name, shown. split; [reflexivity|]. split; [|split; assumption].
  apply listed_known. eapply list_elem_of_lookup_2. exact Hrow.
Qed.

(** X24.  A device whose name is the exit code cannot be entered:
    choosing its row ends the loop of the shell as the answer [q] does,
    without a console prompt and without a session. *)
Theorem shell_round_exits_on_device_named_q
    (fuel : nat) (devices_dict : gmap string BoardfarmDevice) (device_id : string)
    (n : Z) (rest : list string) (before : list event) :
  int device_id = Ok n ->
  (1 <= n <= Z.of_nat (size devices_dict))%Z ->
  listed devices_dict !! Z.to_nat (n - 1) = Some "q" ->
  exists shown,
    shell_round fuel devices_dict "q" (Terminal (device_id :: rest) before)
      = (Ok (Break tt), Terminal rest (before ++ shown)) /\
    forallb quiet shown = true.
Proof.
  intros Hint Hn Hrow.
  destruct (_get_device_name_from_user_row devices_dict device_id "q" n rest before
              Hint Hn Hrow) as (shown & Hrun & Hquiet).
  exists shown. split; [|exact Hquiet].
  unfold shell_round.
  destruct (decide (devices_dict = ∅)) as [Hempty|_].
  { subst devices_dict. rewrite map_size_empty in Hn. lia. }
  unfold bind. rewrite Hrun. reflexivity.
Qed.

End DeviceSelection.

(** The second row of the bench is the WAN. *)
Lemma _get_device_name_from_user_second_row :
  exists name shown,
    listed bench !! Z.to_nat (2 - 1) = Some name /\
    is_Some (bench !! name) /\
    core._get_device_name_from_user bench "q" (core.Terminal ["2"; "q"] [])
      = (Ok (Some name), core.Terminal ["q"] ([] ++ shown)) /\
    forallb quiet shown = true.
Proof.
  apply (_get_device_name_from_user_selects_row bench "2" 2 ["q"] []);
    [reflexivity|]. vm_compute. split; discriminate.
Defined.

(** On the bench with the device [q], its row ends the shell. *)
Lemma shell_round_exits_on_bench_with_q :
  exists shown,
    core.shell_round 3 bench_with_q "q" (core.Terminal ["2"; "1"] [])
      = (Ok (core.Break tt), core.Terminal ["1"] ([] ++ shown)) /\
    forallb quiet shown = true.
Proof.
  apply (shell_round_exits_on_device_named_q 3 bench_with_q "2" 2 ["1"] []);
    [reflexivity | vm_compute; split; discriminate | reflexivity].
Defined.

(** ** The ways out of the shell *)

Section ShellExit.
Import core.

(** X25.  Without devices the shell prints its banner, that no device
    is available and [Bye.], and reads nothing.  With devices, the
    answer [q] to the device prompt ends the shell: it prints [Bye.],
    starts no session and leaves the lines after the answer unread. *)
Theorem boardfarm_post_deploy_devices_says_bye
    (devices_dict : gmap string BoardfarmDevice) :
  (forall t,
     boardfarm_post_deploy_devices ∅ t =
       (Ok (Some tt),
        Terminal (stdin t)
          (screen t ++
           [Printed ("----------------------------------------------" +:+ nl);
            Printed ("         BOARDFARM INTERACTIVE SHELL" +:+ nl);
            Printed "No device available in the environment.";
            Printed "Bye."]))) /\
  (devices_dict <> ∅ ->
   forall rest before,
   exists shown,
     boardfarm_post_deploy_devices devices_dict (Terminal ("q" :: rest) before) =
       (Ok (Some tt), Terminal rest (before ++ shown ++ [Printed "Bye."])) /\
     forallb quiet shown = true).
Proof.
  split.
  - intros t. unfold boardfarm_post_deploy_devices, interactive_shell.
    do 2 (unfold bind at 1; unfold print at 1, emit at 1, modify at 1;
          cbn [stdin screen]).
    unfold bind at 1. cbn [while_true]. unfold bind at 1. unfold shell_round at 1.
    destruct (decide ((∅ : gmap string BoardfarmDevice) = ∅)) as [_|Hne];
      [|contradiction].
    unfold bind, print, emit, modify, ret. cbn [stdin screen].
    rewrite <- !app_assoc. reflexivity.
  - intros Hdevices rest before.
    unfold boardfarm_post_deploy_devices, interactive_shell.
    do 2 (unfold bind at 1; unfold print at 1, emit at 1, modify at 1;
          cbn [stdin screen]).
    unfold bind at 1. cbn [while_true]. unfold bind at 1. unfold shell_round at 1.
    destruct (decide (devices_dict = ∅)) as [Hempty|_]; [contradiction|].
    unfold bind at 1.
    match goal with
    | |- context [_get_device_name_from_user devices_dict "q" (Terminal ("q" :: rest) ?b)] =>
        destruct (_get_device_name_from_user_asks devices_dict "q" rest b)
          as (shown & Hquiet & Hrun)
    end.
    rewrite Hrun. change (String.eqb "q" "q") with true. cbv iota.
    unfold ret at 1. cbv beta iota.
    change (String.eqb "q" "q") with true. cbv iota.
    unfold bind, print, emit, modify, ret. cbn [stdin screen].
    exists ([Printed ("----------------------------------------------" +:+ nl);
             Printed ("         BOARDFARM INTERACTIVE SHELL" +:+ nl)] ++ shown).
    split; [rewrite <- !app_assoc; reflexivity|].
    cbn [app forallb quiet andb]. exact Hquiet.
Qed.

End ShellExit.

(** The answer [q] on the bench leaves the next line unread. *)
Lemma boardfarm_post_deploy_devices_bye_on_bench :
  exists shown,
    core.boardfarm_post_deploy_devices bench (core.Terminal ["q"; "1"] []) =
      (Ok (Some tt), core.Terminal ["1"] ([] ++ shown ++ [core.Printed "Bye."])) /\
    forallb quiet shown = true.
Proof.
  apply (proj2 (boardfarm_post_deploy_devices_says_bye bench)).
  intros H. apply (f_equal (fun m => m !! "wan")) in H. vm_compute in H. discriminate H.
Defined.

(** ** The console prompt *)

Section ConsoleSelection.
Import core.

Lemma sorted_length (l : list string) : length (sorted l) = length l.
Proof. unfold sorted. rewrite merge_sort_Permutation. reflexivity. Qed.

Lemma sorted_elem_of (x : string) (l : list string) : x ∈ sorted l <-> x ∈ l.
Proof. unfold sorted. rewrite merge_sort_Permutation. reflexivity. Qed.

Lemma index_elem_of {A} (l : list A) (i : Z) (x : A) : index l i = Ok x -> x ∈ l.
Proof.
  unfold index. cbv zeta. destruct (_ <? 0)%Z; [discriminate|].
  destruct (l !! _) as [y|] eqn:Hy; [|discriminate].
  intros [= <-]. eapply list_elem_of_lookup_2. exact Hy.
Qed.

(** With two consoles or more, a round ends the loop only with a
    console of the list. *)
Lemma console_round_breaks (device_name : string) (console_names : list string)
    (t : terminal) (answer : option string) :
  2 <= length console_names ->
  fst (console_round device_name console_names t) = Ok (Break answer) ->
  exists name, answer = Some name /\ name ∈ console_names.
Proof.
  intros Hlen Hrun.
  destruct (console_round device_name console_names t) as [decision t'] eqn:Hround.
  cbn [fst] in Hrun. subst decision.
  unfold console_round in Hround.
  destruct console_names as [|first [|second others]]; [simpl in Hlen; lia..|].
  do 2 (unfold bind at 1 in Hround; unfold print at 1, emit at 1, modify at 1 in Hround;
        cbn [stdin screen] in Hround).
  unfold bind at 1 in Hround; unfold input at 1 in Hround; cbn [stdin screen] in Hround.
  destruct (stdin t) as [|console_id rest]; [discriminate|].
  destruct (negb (isdigit console_id)); [discriminate|].
  unfold bind at 1, lift at 1 in Hround.
  destruct (int console_id) as [n|e]; [|discriminate].
  destruct (n >? _)%Z; [discriminate|].
  unfold bind at 1, lift at 1 in Hround.
  destruct (index (first :: second :: others) (n - 1)) as [name|e] eqn:Hname;
    [|discriminate].
  injection Hround as <- _. exists name. split; [reflexivity|].
  eapply index_elem_of. exact Hname.
Qed.

Lemma while_true_breaks {S A} (P : A -> Prop) (body : M S (control A)) :
  (forall s a, fst (body s) = Ok (Break a) -> P a) ->
  forall fuel s a, fst (while_true fuel body s) = Ok (Some a) -> P a.
Proof.
  intros Hbody. induction fuel as [|fuel IH]; intros s a Hrun; [discriminate|].
  cbn [while_true] in Hrun. unfold bind in Hrun.
  specialize (Hbody s).
  destruct (body s) as [[[| b |]|e] s']; cbn [fst] in *.
  - eapply IH. exact Hrun.
  - injection Hrun as <-. apply Hbody. reflexivity.
  - discriminate.
  - discriminate.
Qed.

(** X26.  For a device with two consoles or more the console prompt
    has no way back to the device list, whatever its menu says: it
    never returns [None], a name it returns is one of the consoles of
    the device, and an answer that is not a digit string, [q] included,
    is answered with the error message and another round. *)
Theorem _get_console_name_from_user_never_goes_back
    (fuel : nat) (device_name : string) (consoles : gset string) (t : terminal) :
  2 <= size consoles ->
  let run := _get_console_name_from_user fuel device_name consoles t in
  fst run <> Ok (Some None) /\
  (forall name, fst run = Ok (Some (Some name)) -> name ∈ consoles) /\
  (forall console_id rest before,
     isdigit console_id = false ->
     exists shown,
       console_round device_name (sorted (elements consoles))
         (Terminal (console_id :: rest) before)
       = (Ok Continue,
          Terminal rest
            (before ++ shown
             ++ [Printed (nl +:+ "ERROR: Wrong input. Please try again." +:+ nl)])) /\
       forallb quiet shown = true).
Proof.
  intros Hsize run.
  assert (Hlen : 2 <= length (sorted (elements consoles))).
  { rewrite sorted_length. exact Hsize. }
  assert (Hbreaks : forall answer, fst run = Ok (Some answer) ->
            exists name, answer = Some name /\ name ∈ sorted (elements consoles)).
  { intros answer Hrun. subst run. unfold _get_console_name_from_user in Hrun.
    eapply (while_true_breaks
              (fun answer => exists name, answer = Some name
                                          /\ name ∈ sorted (elements consoles)));
      [|exact Hrun].
    intros s a Hround. eapply console_round_breaks; eassumption. }
  split; [|split].
  - intros Hrun. destruct (Hbreaks None Hrun) as (name & Hnone & _). discriminate.
  - intros name Hrun. destruct (Hbreaks (Some name) Hrun) as (name' & [= <-] & Hin).
    apply sorted_elem_of, elem_of_elements in Hin. exact Hin.
  - intros console_id rest before Hdigit. unfold console_round.
    destruct (sorted (elements consoles)) as [|first [|second others]];
      [simpl in Hlen; lia..|].
    do 2 (unfold bind at 1; unfold print at 1, emit at 1, modify at 1;
          cbn [stdin screen]).
    unfold bind at 1; unfold input at 1; cbn [stdin screen].
    rewrite Hdigit. cbn [negb].
    unfold bind, print, emit, modify, ret. cbn [stdin screen].
    match goal with
    | |- context [((before ++ [?menu]) ++ [?ids]) ++ [?asked]] =>
        exists [menu; ids; asked]
    end.
    split; [rewrite <- !app_assoc; reflexivity | reflexivity].
Qed.

(** X27.  Where there is no choice the console prompt asks nothing: a
    device with exactly one console answers with that console, without
    printing or reading, and a device without console answers [None]
    after the message that no console is available. *)
Theorem _get_console_name_from_user_without_choice
    (fuel : nat) (device_name : string) (t : terminal) :
  (forall name,
     _get_console_name_from_user (S fuel) device_name {[name]} t
       = (Ok (Some (Some name)), t)) /\
  _get_console_name_from_user (S fuel) device_name ∅ t
    = (Ok (Some None),
       Terminal (stdin t)
         (screen t ++
          [Printed (nl +:+ "ERROR: No console available for " +:+ device_name +:+ ". "
                    +:+ "Please try another device." +:+ nl)])).
Proof.
  split.
  - intros name. unfold _get_console_name_from_user.
    rewrite elements_singleton. change (sorted [name]) with [name].
    reflexivity.
  - unfold _get_console_name_from_user.
    rewrite elements_empty. change (sorted []) with (@nil string).
    reflexivity.
Qed.

End ConsoleSelection.

(** The board of the bench has two consoles: no way back. *)
Lemma _get_console_name_from_user_q_on_board :
  fst (core._get_console_name_from_user 3 "board" {["arm"; "atom"]}
         (core.Terminal ["q"; "q"] [])) <> Ok (Some None).
Proof.
  assert (Hsize : size ({["arm"; "atom"]} : gset string) = 2) by reflexivity.
  apply (proj1 (_get_console_name_from_user_never_goes_back 3 "board" {["arm"; "atom"]}
                  (core.Terminal ["q"; "q"] []) ltac:(rewrite Hsize; lia))).
Defined.

(* ===================================================================== *)
(** * Further properties of [boardfarm/dbclients/influx_wrapper.py]        *)
(* ===================================================================== *)

(** ** [collect_logs]: what a line leaves behind *)

Section CollectLogsLines.
Import influx_wrapper.
Variable float_of_str : string -> result float.
Variable str_of_float : float -> string.

#[local] Abbreviation sum_line' := (sum_line float_of_str str_of_float).
#[local] Abbreviation meta_line' := (meta_line float_of_str str_of_float).


(** A line that is not a summary line never raises and leaves the data
    and the position reached as they were. *)
Lemma meta_line_no_summary (i : string) (fr : frame) :
  no_summary i = true ->
  exists found,
    meta_line' i fr = (Ok tt, Frame (set_fields found (meta_dict fr)) (last fr)) /\
    (fields (meta_dict fr) <> None -> found = fields (meta_dict fr)).
Proof.
  unfold no_summary. intros Hline. apply negb_true_iff in Hline.
  unfold meta_line. unfold bind at 1, get at 1. rewrite Hline.
  destruct (contains "[ ID]" i && bool_decide (fields (meta_dict fr) = None)) eqn:Hid.
  - exists (Some (slice (words i) 2 5)). split; [reflexivity|].
    apply andb_true_iff in Hid as [_ Hnone]. apply bool_decide_eq_true in Hnone.
    intros Hsome. contradiction.
  - exists (fields (meta_dict fr)). split; [|reflexivity].
    unfold bind, ret. destruct fr as [[] ?]. reflexivity.
Qed.

Lemma lines_no_summary (meta : list string) : forall fr,
  Forall (fun i => no_summary i = true) meta ->
  exists found,
    for_each meta meta_line' fr
      = (Ok tt, Frame (set_fields found (meta_dict fr)) (last fr)) /\
    (fields (meta_dict fr) <> None -> found = fields (meta_dict fr)).
Proof.
  induction meta as [|i meta IH]; intros fr Hlines.
  - exists (fields (meta_dict fr)). split; [|reflexivity].
    destruct fr as [[] ?]. reflexivity.
  - apply Forall_cons_1 in Hlines as [Hline Hrest].
    destruct (meta_line_no_summary i fr Hline) as (found1 & Hstep & Hkept1).
    destruct (IH (Frame (set_fields found1 (meta_dict fr)) (last fr)) Hrest)
      as (found & Hloop & Hkept).
    exists found. split.
    + cbn [for_each]. unfold bind. rewrite Hstep, Hloop. reflexivity.
    + intros Hsome. cbn [meta_dict set_fields fields] in Hkept.
      rewrite Hkept; rewrite (Hkept1 Hsome); [reflexivity | exact Hsome].
Qed.

End CollectLogsLines.

(** ** [collect_logs]: reads that follow one another *)

Section CollectLogsReads.
Import influx_wrapper.
Variable float_of_str : string -> result float.
Variable str_of_float : float -> string.

#[local] Abbreviation sum_line' := (sum_line float_of_str str_of_float).
#[local] Abbreviation meta_line' := (meta_line float_of_str str_of_float).
#[local] Abbreviation collect' := (collect float_of_str str_of_float).

Lemma slice_from_drop {A} (l : list A) (n : Z) :
  (0 <= n)%Z -> slice_from l n = drop (Z.to_nat n) l.
Proof.
  intros Hn. unfold slice_from, clamp.
  rewrite (proj2 (Z.ltb_ge n 0)) by lia.
  destruct (Nat.le_gt_cases (Z.to_nat n) (length l)) as [Hle|Hgt].
  - rewrite Nat.min_l by exact Hle. reflexivity.
  - rewrite Nat.min_r by lia. rewrite !drop_ge by lia. reflexivity.
Qed.

Lemma position_nonneg (x : string) (l : list string) : (0 <= position x l)%Z.
Proof. induction l as [|y l IH]; simpl; [lia|]. destruct (String.eqb y x); lia. Qed.

Lemma position_first (marker : string) (seen later : list string) :
  marker ∉ seen -> position marker (seen ++ marker :: later) = Z.of_nat (length seen).
Proof.
  induction seen as [|y seen IH]; intros Hnew.
  - simpl. rewrite String.eqb_refl. reflexivity.
  - apply not_elem_of_cons in Hnew as [Hne Hrest]. cbn [app position length].
    rewrite (proj2 (String.eqb_neq y marker)) by congruence.
    rewrite (IH Hrest). lia.
Qed.

(** The lines after the first occurrence of the marker. *)
Lemma lines_after_marker (marker : string) (seen later : list string) :
  marker ∉ seen ->
  slice_from (seen ++ marker :: later) (position marker (seen ++ marker :: later) + 1)
  = later.
Proof.
  intros Hnew. rewrite position_first by exact Hnew.
  rewrite slice_from_drop by lia.
  replace (Z.to_nat (Z.of_nat (length seen) + 1)) with (length seen + 1) by lia.
  rewrite <- drop_drop, drop_app_length. reflexivity.
Qed.

(** X29.  A read that finds no summary line forgets the position
    reached before: when none of the lines that [_get_data] returns
    starts with [SUM], [collect_logs] succeeds on the descriptor and
    leaves it with an empty data list and with [last_index] set to
    [None], whatever it was; fields that were set stay as they are. *)
Theorem collect_without_summary_resets
    (_get_data : string -> result (list string)) (meta_dict0 : descriptor)
    (meta : list string) :
  _get_data (logfile meta_dict0) = Ok meta ->
  Forall (fun i => startswith i "[SUM]" = false) meta ->
  let after := snd (collect' _get_data meta_dict0) in
  fst (collect' _get_data meta_dict0) = Ok tt /\
  last_index after = None /\ data after = [] /\
  logfile after = logfile meta_dict0 /\
  (fields meta_dict0 <> None -> fields after = fields meta_dict0).
Proof.
  intros Hread Hlines after. subst after. unfold collect. rewrite Hread.
  set (d := set_data [] meta_dict0).
  set (lines := match last_index d with
                | Some marker =>
                    if bool_decide (marker ∈ meta)
                    then slice_from meta (position marker meta + 1) else meta
                | None => meta
                end).
  assert (Hrest : Forall (fun i => no_summary i = true) lines).
  { assert (Hall : Forall (fun i => no_summary i = true) meta).
    { eapply Forall_impl; [exact Hlines|]. intros i Hi. unfold no_summary.
      simpl in Hi. rewrite Hi. reflexivity. }
    subst lines. destruct (last_index d) as [marker|]; [|exact Hall].
    destruct (bool_decide (marker ∈ meta)); [|exact Hall].
    rewrite slice_from_drop by (pose proof (position_nonneg marker meta); lia).
    apply Forall_drop. exact Hall. }
  destruct (lines_no_summary float_of_str str_of_float lines (Frame d None) Hrest)
    as (found & Hloop & Hkept).
  rewrite Hloop. cbn [fst snd meta_dict last]. subst d.
  destruct meta_dict0 as [file marker0 fields0 data0].
  cbn [set_last_index set_fields set_data logfile last_index fields data] in *.
  repeat split. exact Hkept.
Qed.

(** The loop over the lines does not look at the [last_index] entry. *)
Lemma sum_line_relabel (v : option string) (i : string) (fr : frame) :
  sum_line' i (relabel v fr) =
  (fst (sum_line' i fr), relabel v (snd (sum_line' i fr))).
Proof.
  unfold sum_line, bind, modify, lift, on_meta, ret, relabel.
  cbn [meta_dict last fst snd].
  repeat first
    [ match goal with
      | |- context [index ?l ?n] => destruct (index l n); cbv beta iota; cbn [fst snd]
      end
    | match goal with
      | |- context [float_of_str ?t] =>
          destruct (float_of_str t); cbv beta iota; cbn [fst snd]
      end
    | match goal with
      | |- context [getitem ?d ?k] => destruct (getitem d k); cbv beta iota; cbn [fst snd]
      end
    | match goal with
      | |- context [units !! ?k] => destruct (units !! k); cbv beta iota; cbn [fst snd]
      end ];
    reflexivity.
Qed.

Lemma meta_line_relabel (v : option string) (i : string) (fr : frame) :
  meta_line' i (relabel v fr) =
  (fst (meta_line' i fr), relabel v (snd (meta_line' i fr))).
Proof.
  destruct fr as [[file index0 fields0 data0] reached].
  unfold meta_line, bind, get, on_meta, modify, ret.
  cbn [relabel meta_dict last fields set_last_index set_fields logfile last_index data].
  destruct (contains "[ ID]" i && bool_decide (fields0 = None));
    destruct (startswith i "[SUM]"); cbv beta iota;
    cbn [meta_dict last fields set_last_index set_fields logfile last_index data];
    try reflexivity.
  - exact (sum_line_relabel v i
             (Frame (Descriptor file index0 (Some (slice (words i) 2 5)) data0) reached)).
  - exact (sum_line_relabel v i (Frame (Descriptor file index0 fields0 data0) reached)).
Qed.

Lemma lines_relabel (v : option string) (meta : list string) : forall fr,
  for_each meta meta_line' (relabel v fr) =
  (fst (for_each meta meta_line' fr), relabel v (snd (for_each meta meta_line' fr))).
Proof.
  induction meta as [|i meta IH]; intros fr; [reflexivity|].
  cbn [for_each]. unfold bind. rewrite meta_line_relabel.
  destruct (meta_line' i fr) as [[[]|e] fr1]; cbn [fst snd]; [|reflexivity].
  apply IH.
Qed.

(** X30.  [collect_logs] resumes after the position reached: on a log
    whose lines are the lines seen before, up to the first occurrence of
    the [last_index] marker, followed by later lines, a read has the
    outcome of a read of the later lines alone by a descriptor without
    marker: the same result or exception, the same data and fields, and
    on success the same descriptor. *)
Theorem collect_resumes_after_marker
    (read_all read_later : string -> result (list string))
    (meta_dict0 : descriptor) (marker : string) (seen later : list string) :
  last_index meta_dict0 = Some marker ->
  marker ∉ seen ->
  read_all (logfile meta_dict0) = Ok (seen ++ marker :: later) ->
  read_later (logfile meta_dict0) = Ok later ->
  let resumed := collect' read_all meta_dict0 in
  let fresh := collect' read_later (set_last_index None meta_dict0) in
  fst resumed = fst fresh /\
  data (snd resumed) = data (snd fresh) /\
  fields (snd resumed) = fields (snd fresh) /\
  (fst resumed = Ok tt -> snd resumed = snd fresh).
Proof.
  intros Hmarker Hnew Hall Hlater resumed fresh. subst resumed fresh.
  destruct meta_dict0 as [file index0 fields0 data0].
  cbn [last_index logfile] in Hmarker, Hall, Hlater. subst index0.
  unfold collect. cbn [logfile set_last_index]. rewrite Hall, Hlater.
  cbn [set_data last_index set_last_index logfile fields data].
  rewrite bool_decide_eq_true_2
    by (apply elem_of_app; right; apply elem_of_cons; left; reflexivity).
  rewrite lines_after_marker by exact Hnew.
  change (Frame (set_data [] (set_last_index None
                                (Descriptor file (Some marker) fields0 data0))) None)
    with (relabel None
            (Frame (set_data [] (Descriptor file (Some marker) fields0 data0)) None)).
  rewrite lines_relabel.
  destruct (for_each later meta_line' _) as [[[]|e] [[file1 index1 fields1 data1] reached]];
    cbn [fst snd relabel meta_dict last set_last_index logfile fields data last_index];
    repeat split; intros; discriminate.
Qed.

End CollectLogsReads.


(** A read of a log without summary line by a descriptor that had
    reached a position. *)
Lemma collect_without_summary_on_header :
  let d := influx_wrapper.Descriptor "iperf.log" (Some "[SUM] seen") None [] in
  let run := influx_wrapper.collect influx_wrapper.decimal_float str_of_whole_float
               (fun _ => Ok ["[ ID] Interval Transfer Bandwidth"; "iperf Done."]) d in
  fst run = Ok tt /\ influx_wrapper.last_index (snd run) = None.
Proof.
  cbv zeta.
  destruct (collect_without_summary_resets influx_wrapper.decimal_float str_of_whole_float
              (fun _ => Ok ["[ ID] Interval Transfer Bandwidth"; "iperf Done."])
              (influx_wrapper.Descriptor "iperf.log" (Some "[SUM] seen") None [])
              ["[ ID] Interval Transfer Bandwidth"; "iperf Done."] eq_refl
              ltac:(repeat constructor)) as (Hok & Hindex & _).
  split; assumption.
Defined.

(** The second read of the sample log gives what a read of the later
    lines gives. *)
Lemma collect_resumes_on_sample_log :
  let d := influx_wrapper.Descriptor "iperf.log"
             (Some "[SUM]  0.0-1.0 sec  8 MBytes  67.1 Mbits/sec") None [] in
  fst (influx_wrapper.collect influx_wrapper.decimal_float str_of_whole_float
         (fun _ => Ok (first_read ++ later_lines)) d) = Ok tt /\
  snd (influx_wrapper.collect influx_wrapper.decimal_float str_of_whole_float
         (fun _ => Ok (first_read ++ later_lines)) d)
  = snd (influx_wrapper.collect influx_wrapper.decimal_float str_of_whole_float
           (fun _ => Ok later_lines) (influx_wrapper.set_last_index None d)).
Proof.
  cbv zeta.
  assert (Hok : fst (influx_wrapper.collect influx_wrapper.decimal_float
                       str_of_whole_float (fun _ => Ok (first_read ++ later_lines))
                       (influx_wrapper.Descriptor "iperf.log"
                          (Some "[SUM]  0.0-1.0 sec  8 MBytes  67.1 Mbits/sec") None []))
                = Ok tt) by (vm_compute; reflexivity).
  split; [exact Hok|].
  apply (collect_resumes_after_marker influx_wrapper.decimal_float str_of_whole_float
           (fun _ => Ok (first_read ++ later_lines)) (fun _ => Ok later_lines)
           (influx_wrapper.Descriptor "iperf.log"
              (Some "[SUM]  0.0-1.0 sec  8 MBytes  67.1 Mbits/sec") None [])
           "[SUM]  0.0-1.0 sec  8 MBytes  67.1 Mbits/sec"
           ["[ ID] Interval Transfer Bandwidth"] later_lines);
    [reflexivity | | reflexivity | reflexivity | exact Hok].
  apply (bool_decide_unpack _). vm_compute. exact I.
Defined.
